(** * GreenMind quiz: scoring, submission validation and result queries

    A shallow embedding of the quiz logic of the GreenMind site:
    - [public/js/quiz.js]: [QuizQuestion], [QuizManager.calculateResults],
      [QuizManager.handleAnswerChange], [QuizManager.getPerformanceMessage],
      the navigation ([previousQuestion], [nextQuestion], [goToQuestion]),
      [startQuiz], [retakeQuiz], [submitQuiz], [submitResultsToServer],
      [generatePersonalizedTips], and [QuizStatistics];
    - [src/middleware/validation.js]: [ValidationMiddleware.validateQuizSubmission];
    - [src/models/QuizResult.js]: the [pre('save')] hook, [getPerformanceLevel],
      [getPerformanceMessage], [getScoreDistribution], [getOverallStats],
      [getRecentResults], [getCategoryPerformance];
    - the quiz controller: [QuizController.getLeaderboard],
      [submitQuizResults], [getQuizStats], [getRecentResults].

    JavaScript numbers are IEEE 754 binary64 values; they are modelled with the
    executable specification of floating-point arithmetic of the standard
    library ([SpecFloat], round to nearest even), so that
    [Math.round((correctAnswers / totalQuestions) * 100)] is evaluated the way
    a JavaScript engine evaluates it. *)

From Stdlib Require Import ZArith Bool Lia.
From Stdlib Require Import Floats.SpecFloat.
From stdpp Require Import gmap strings list sorting pretty.

Local Open Scope Z_scope.

(* ===================================================================== *)
(** * JavaScript numbers *)
(* ===================================================================== *)

Module JsNumber.

Definition prec : Z := 53.
Definition emax : Z := 1024.

(** A JavaScript Number: a binary64 value. *)
Definition number : Type := spec_float.

Definition NaN : number := S754_nan.

(** A well-formed double: the mantissa is in canonical form. *)
Definition valid (x : number) : bool := valid_binary prec emax x.

(** The Number nearest to an integer (exact below 2^53). *)
Definition ofZ (z : Z) : number := binary_normalize prec emax z 0 false.

Definition add (x y : number) : number := SFadd prec emax x y.
Definition sub (x y : number) : number := SFsub prec emax x y.
Definition mul (x y : number) : number := SFmul prec emax x y.
Definition div (x y : number) : number := SFdiv prec emax x y.

(** [x < y], [x > y], [x <= y], [x >= y], [x === y] on Numbers; every
    comparison with NaN is false. *)
Definition lt (x y : number) : bool := SFltb x y.
Definition gt (x y : number) : bool := SFltb y x.
Definition le (x y : number) : bool := SFleb x y.
Definition ge (x y : number) : bool := SFleb y x.
Definition strictEq (x y : number) : bool := SFeqb x y.

(** [Number.isInteger]: finite with no fractional part. *)
Definition isInteger (x : number) : bool :=
  match x with
  | S754_zero _ => true
  | S754_finite _ m e =>
      if 0 <=? e then true else (Z.pos m) mod (2 ^ (- e)) =? 0
  | S754_infinity _ | S754_nan => false
  end.

(** [Math.abs]. *)
Definition abs (x : number) : number := SFabs x.

(** [Math.round]: the integer nearest to [x], a tie going towards
    +Infinity; NaN, the infinities, the zeros and integers are returned
    unchanged, and a value in [-0.5, 0) gives -0.  For [x = ±m·2^e] with
    [e < 0] the nearest integer is [floor (x + 1/2)], computed exactly. *)
Definition round (x : number) : number :=
  match x with
  | S754_finite s m e =>
      if 0 <=? e then x
      else
        let n := (2 * cond_Zopp s (Z.pos m) + 2 ^ (- e)) / 2 ^ (1 - e) in
        if n =? 0 then S754_zero s else ofZ n
  | _ => x
  end.

(** The integer part of a finite Number (0 for NaN and the infinities);
    used to read integer-valued Numbers back as integers. *)
Definition toZ (x : number) : Z :=
  match x with
  | S754_finite s m e =>
      cond_Zopp s
        (if 0 <=? e then Z.pos m * 2 ^ e else Z.pos m / 2 ^ (- e))
  | _ => 0
  end.

End JsNumber.

Import JsNumber.

Arguments ofZ : simpl never.
Arguments lt : simpl never.
Arguments gt : simpl never.
Arguments le : simpl never.
Arguments ge : simpl never.
Arguments isInteger : simpl never.
Arguments round : simpl never.
Arguments add : simpl never.
Arguments sub : simpl never.
Arguments mul : simpl never.
Arguments div : simpl never.

(* ===================================================================== *)
(** * JavaScript values *)
(* ===================================================================== *)

(** The values a parsed JSON body can hold, and [undefined] for an absent
    property.  An object is the list of its own properties in insertion
    order (the order [Object.entries] follows). *)
#[local] Set Warnings "-register-all".
Inductive JsValue : Type :=
| JUndefined
| JNull
| JBool (b : bool)
| JNumber (x : number)
| JString (s : string)
| JObject (props : list (string * JsValue))
| JArray (elems : list JsValue).
#[local] Set Warnings "register-all".

Definition typeof (v : JsValue) : string :=
  match v with
  | JUndefined => "undefined"
  | JNull => "object"
  | JBool _ => "boolean"
  | JNumber _ => "number"
  | JString _ => "string"
  | JObject _ | JArray _ => "object"
  end.

(** [!v] is [negb (truthy v)]. *)
Definition truthy (v : JsValue) : bool :=
  match v with
  | JUndefined | JNull => false
  | JBool b => b
  | JNumber x =>
      match x with
      | S754_zero _ | S754_nan => false
      | _ => true
      end
  | JString s => negb (String.eqb s "")
  | JObject _ | JArray _ => true
  end.

(** Own-property lookup in a property list. *)
Fixpoint lookupProp (props : list (string * JsValue)) (key : string) : JsValue :=
  match props with
  | [] => JUndefined
  | (k, v) :: rest => if String.eqb k key then v else lookupProp rest key
  end.

(** [v.key] for the property names read by the quiz code ([score],
    [correct], [total], ...): an own property of an object, [undefined]
    otherwise (none of these names is an array or prototype property). *)
Definition getProp (v : JsValue) (key : string) : JsValue :=
  match v with
  | JObject props => lookupProp props key
  | _ => JUndefined
  end.

(** Decimal rendering of an array index, as [Object.entries] yields it. *)
Definition indexKey (i : nat) : string := pretty (N.of_nat i).

Fixpoint indexedEntries (i : nat) (elems : list JsValue) : list (string * JsValue) :=
  match elems with
  | [] => []
  | v :: rest => (indexKey i, v) :: indexedEntries (S i) rest
  end.

(** [Object.entries(v)] for a value whose [typeof] is ["object"] and that
    is not [null]. *)
Definition Object_entries (v : JsValue) : list (string * JsValue) :=
  match v with
  | JObject props => props
  | JArray elems => indexedEntries 0 elems
  | _ => []
  end.

(** [JSON.parse(JSON.stringify(v))]: what a value becomes on its way to
    the server.  NaN and the infinities are written as [null], -0 as [0];
    a property whose value is [undefined] is left out, and [undefined] in
    an array becomes [null]. *)
Fixpoint jsonRoundTrip (v : JsValue) : JsValue :=
  match v with
  | JNumber x =>
      match x with
      | S754_nan | S754_infinity _ => JNull
      | S754_zero _ => JNumber (S754_zero false)
      | S754_finite _ _ _ => JNumber x
      end
  | JObject props =>
      JObject
        ((fix properties (ps : list (string * JsValue)) : list (string * JsValue) :=
            match ps with
            | [] => []
            | (k, w) :: rest =>
                match w with
                | JUndefined => properties rest
                | _ => (k, jsonRoundTrip w) :: properties rest
                end
            end) props)
  | JArray elems =>
      JArray
        ((fix elements (ws : list JsValue) : list JsValue :=
            match ws with
            | [] => []
            | w :: rest =>
                match w with
                | JUndefined => JNull :: elements rest
                | _ => jsonRoundTrip w :: elements rest
                end
            end) elems)
  | _ => v
  end.

(* ===================================================================== *)
(** * Validation middleware ([src/middleware/validation.js]) *)
(* ===================================================================== *)

Module ValidationMiddleware.

(** What the middleware does with the request: call [next()], or answer
    [res.status(400).json({status: 'error', message: 'Validation failed',
    errors})]. *)
Inductive outcome : Type :=
| Next
| Status400 (errors : gmap string string).

(** Score validation. *)
Definition checkScore (score : JsValue) (errors : gmap string string)
  : gmap string string :=
  match score with
  | JNumber x =>
      if negb (isInteger x) then
        <["score" := "Score must be a whole number"]> errors
      else if lt x (ofZ 0) || gt x (ofZ 100) then
        <["score" := "Score must be between 0 and 100"]> errors
      else errors
  | _ => <["score" := "Score must be a number"]> errors
  end.

(** Total questions validation. *)
Definition checkTotalQuestions (totalQuestions : JsValue)
    (errors : gmap string string) : gmap string string :=
  match totalQuestions with
  | JNumber x =>
      if negb (isInteger x) then
        <["totalQuestions" := "Total questions must be a whole number"]> errors
      else if lt x (ofZ 1) || gt x (ofZ 50) then
        <["totalQuestions" := "Total questions must be between 1 and 50"]> errors
      else errors
  | _ => <["totalQuestions" := "Total questions must be a number"]> errors
  end.

(** [typeof totalQuestions === 'number' && correctAnswers > totalQuestions]. *)
Definition exceedsTotal (correctAnswers : number) (totalQuestions : JsValue) : bool :=
  match totalQuestions with
  | JNumber t => gt correctAnswers t
  | _ => false
  end.

(** Correct answers validation. *)
Definition checkCorrectAnswers (correctAnswers totalQuestions : JsValue)
    (errors : gmap string string) : gmap string string :=
  match correctAnswers with
  | JNumber x =>
      if negb (isInteger x) then
        <["correctAnswers" := "Correct answers must be a whole number"]> errors
      else if lt x (ofZ 0) then
        <["correctAnswers" := "Correct answers cannot be negative"]> errors
      else if exceedsTotal x totalQuestions then
        <["correctAnswers" := "Correct answers cannot exceed total questions"]> errors
      else errors
  | _ => <["correctAnswers" := "Correct answers must be a number"]> errors
  end.

(** [Math.round((correctAnswers / totalQuestions) * 100)]. *)
Definition calculatedScore (correctAnswers totalQuestions : number) : number :=
  round (mul (div correctAnswers totalQuestions) (ofZ 100)).

(** [Math.abs(score - calculatedScore) > 1]. *)
Definition scoreMismatch (score correctAnswers totalQuestions : number) : bool :=
  gt (abs (sub score (calculatedScore correctAnswers totalQuestions))) (ofZ 1).

(** Cross-validation: check if score matches calculation. *)
Definition crossCheck (score totalQuestions correctAnswers : JsValue)
    (errors : gmap string string) : gmap string string :=
  match score, totalQuestions, correctAnswers with
  | JNumber s, JNumber t, JNumber c =>
      if scoreMismatch s c t then
        <["score" := "Score does not match the correct answers and total questions"]> errors
      else errors
  | _, _, _ => errors
  end.

(** [v !== undefined && v !== null]. *)
Definition present (v : JsValue) : bool :=
  match v with
  | JUndefined | JNull => false
  | _ => true
  end.

(** Time taken validation (optional). *)
Definition checkTimeTaken (timeTaken : JsValue) (errors : gmap string string)
  : gmap string string :=
  if present timeTaken then
    match timeTaken with
    | JNumber x =>
        if negb (isInteger x) then
          <["timeTaken" := "Time taken must be a whole number of seconds"]> errors
        else if lt x (ofZ 1) then
          <["timeTaken" := "Time taken must be at least 1 second"]> errors
        else if gt x (ofZ 3600) then
          <["timeTaken" := "Time taken cannot exceed 1 hour"]> errors
        else errors
    | _ => <["timeTaken" := "Time taken must be a number"]> errors
    end
  else errors.

(** The loop over [Object.entries(categories)]: the first entry that fails
    a test sets [errors.categories] and breaks out of the loop. *)
Fixpoint checkCategoryEntries (entries : list (string * JsValue))
    (errors : gmap string string) : gmap string string :=
  match entries with
  | [] => errors
  | (category, stats) :: rest =>
      if negb (truthy stats) || negb (String.eqb (typeof stats) "object") then
        <["categories" := "Invalid category stats for " +:+ category]> errors
      else
        match getProp stats "correct", getProp stats "total" with
        | JNumber correct, JNumber total =>
            if gt correct total || lt correct (ofZ 0) || lt total (ofZ 1) then
              <["categories" := "Invalid stats for category " +:+ category]> errors
            else checkCategoryEntries rest errors
        | _, _ =>
            <["categories" :=
               "Category " +:+ category +:+ " must have numeric correct and total values"]>
              errors
        end
  end.

(** Categories validation (optional). *)
Definition checkCategories (categories : JsValue) (errors : gmap string string)
  : gmap string string :=
  if present categories then
    if negb (String.eqb (typeof categories) "object") then
      <["categories" := "Categories must be an object"]> errors
    else checkCategoryEntries (Object_entries categories) errors
  else errors.

(** The [errors] object at the end of [validateQuizSubmission], for the
    request body [body]. *)
Definition collectErrors (body : JsValue) : gmap string string :=
  let score := getProp body "score" in
  let totalQuestions := getProp body "totalQuestions" in
  let correctAnswers := getProp body "correctAnswers" in
  let timeTaken := getProp body "timeTaken" in
  let categories := getProp body "categories" in
  let errors := (∅ : gmap string string) in
  let errors := checkScore score errors in
  let errors := checkTotalQuestions totalQuestions errors in
  let errors := checkCorrectAnswers correctAnswers totalQuestions errors in
  let errors := crossCheck score totalQuestions correctAnswers errors in
  let errors := checkTimeTaken timeTaken errors in
  let errors := checkCategories categories errors in
  errors.

(** [validateQuizSubmission(req, res, next)] with [req.body = body]. *)
Definition validateQuizSubmission (body : JsValue) : outcome :=
  let errors := collectErrors body in
  if (0 <? size errors)%nat then Status400 errors else Next.

End ValidationMiddleware.

(* ===================================================================== *)
(** * Quiz result model ([src/models/QuizResult.js]) *)
(* ===================================================================== *)

Module QuizResult.

(** The [pre('save')] hook, on the document's [score], [correctAnswers]
    and [totalQuestions]: [Some msg] is [next(new Error(msg))], [None] is
    [next()]. *)
Definition preSave (score correctAnswers totalQuestions : number) : option string :=
  let calculatedScore := round (mul (div correctAnswers totalQuestions) (ofZ 100)) in
  if gt (abs (sub score calculatedScore)) (ofZ 1) then
    Some "Score does not match correct answers and total questions"
  else None.

(** [getPerformanceLevel], for a document whose score is [score]. *)
Definition getPerformanceLevel (score : number) : string :=
  if ge score (ofZ 90) then "excellent"
  else if ge score (ofZ 80) then "good"
  else if ge score (ofZ 70) then "fair"
  else if ge score (ofZ 60) then "needs_improvement"
  else "poor".

(** The [messages] object of [getPerformanceMessage]. *)
Definition messages : list (string * JsValue) :=
  [ ("excellent", JString "Outstanding! You're an environmental champion! 🌟");
    ("good", JString "Excellent work! You have great environmental knowledge! 🌱");
    ("fair", JString "Good job! You're on the right track with environmental awareness! 👍");
    ("needs_improvement", JString "Not bad! Keep learning about environmental conservation! 📚");
    ("poor", JString "There's room for improvement. Check out our Learn page for more info! 💪") ].

(** [getPerformanceMessage]: [messages[level]]. *)
Definition getPerformanceMessage (score : number) : JsValue :=
  let level := getPerformanceLevel score in
  lookupProp messages level.

(** A stored quiz result.  A stored document has passed the schema
    validators, so its score, counts and time are integers; [timeTaken]
    is [None] when the field is null or missing; [completedAt] is in
    milliseconds since the epoch. *)
Record document : Type := mkDocument {
  score : Z;
  correctAnswers : Z;
  totalQuestions : Z;
  timeTaken : option Z;
  completedAt : Z
}.

(** ** [$bucket] *)

(** The [_id] of a bucket: the inclusive lower boundary of the bucket, or
    the [default] literal. *)
Inductive bucketId : Type :=
| Lower (boundary : Z)
| Default (label : string).

(** The bucket of a value: each adjacent pair of [boundaries] is the
    inclusive lower bound and the exclusive upper bound of a bucket. *)
Fixpoint boundaryOf (boundaries : list Z) (v : Z) : option Z :=
  match boundaries with
  | lo :: rest =>
      match rest with
      | hi :: _ => if (lo <=? v) && (v <? hi) then Some lo else boundaryOf rest v
      | [] => None
      end
  | [] => None
  end.

(** A value that falls in no bucket goes to the [default] bucket. *)
Definition bucketOf (boundaries : list Z) (default : string) (v : Z) : bucketId :=
  match boundaryOf boundaries v with
  | Some lo => Lower lo
  | None => Default default
  end.

Definition bucketIdEqb (a b : bucketId) : bool :=
  match a, b with
  | Lower x, Lower y => x =? y
  | Default s, Default t => String.eqb s t
  | _, _ => false
  end.

(** The bucket ids in output order: the lower boundaries, then [default]. *)
Definition bucketIds (boundaries : list Z) (default : string) : list bucketId :=
  map Lower (removelast boundaries) ++ [Default default].

(** One output document of the [$bucket] stage: [count: {$sum: 1}] and
    [averageTime: {$avg: '$timeTaken'}] ([None] is null: no document of
    the bucket has a time). *)
Record bucketRow : Type := mkBucketRow {
  bucket : bucketId;
  count : Z;
  averageTime : option number
}.

Definition times (docs : list document) : list Z :=
  omap timeTaken docs.

Definition avg (values : list Z) : option number :=
  match values with
  | [] => None
  | _ => Some (div (ofZ (foldr Z.add 0 values)) (ofZ (Z.of_nat (length values))))
  end.

Definition bucketStage (boundaries : list Z) (default : string)
    (docs : list document) : list bucketRow :=
  omap (fun id =>
          let members :=
            filter (fun d => bucketIdEqb (bucketOf boundaries default (score d)) id = true)
                   docs in
          match members with
          | [] => None
          | _ => Some (mkBucketRow id (Z.of_nat (length members)) (avg (times members)))
          end)
       (bucketIds boundaries default).

(** [getScoreDistribution]: [$bucket] grouped by [$score] with
    [boundaries: [0, 20, 40, 60, 80, 100]] and [default: 'other']. *)
Definition scoreBoundaries : list Z := [0; 20; 40; 60; 80; 100].

Definition getScoreDistribution (collection : list document) : list bucketRow :=
  bucketStage scoreBoundaries "other" collection.

(** ** Overall statistics *)

(** The document [getOverallStats] groups the collection into.
    [averageTime] is [None] (null) when no document has a time. *)
Record overallStats : Type := mkOverallStats {
  totalAttempts : Z;
  averageScore : number;
  highestScore : Z;
  lowestScore : Z;
  statsAverageTime : option number
}.

Definition scores (docs : list document) : list Z := map score docs.

(** [$max] and [$min] over a non-empty list of integers. *)
Definition maximum (first : Z) (others : list Z) : Z := foldr Z.max first others.
Definition minimum (first : Z) (others : list Z) : Z := foldr Z.min first others.

(** [getOverallStats]: the array the [$group] stage with [_id: null]
    returns, empty for an empty collection, one document otherwise. *)
Definition getOverallStats (collection : list document) : list overallStats :=
  match collection with
  | [] => []
  | d :: rest =>
      [ {| totalAttempts := Z.of_nat (length collection);
           averageScore :=
             div (ofZ (foldr Z.add 0 (scores collection)))
                 (ofZ (Z.of_nat (length collection)));
           highestScore := maximum (score d) (scores rest);
           lowestScore := minimum (score d) (scores rest);
           statsAverageTime := avg (times collection) |} ]
  end.

(** ** Recent results *)

(** Descending order on [completedAt]. *)
Definition completedAfter (a b : document) : Prop := completedAt b ≤ completedAt a.

#[export] Instance completedAfter_dec (a b : document) : Decision (completedAfter a b).
Proof. unfold completedAfter. apply _. Defined.

(** [getRecentResults(days)], called at time [now]:
    [find({completedAt: {$gte: dateLimit}}).sort({completedAt: -1})], with
    [dateLimit] the current time moved back by [days] days (a day taken as
    86400000 ms). *)
Definition getRecentResults (now : Z) (days : Z) (collection : list document)
  : list document :=
  merge_sort completedAfter
    (filter (fun d => now - days * 86400000 ≤ completedAt d) collection).

(** ** Category performance *)

(** An entry of the [categories] map of a document. *)
Record categoryStats : Type := mkCategoryStats {
  statsCorrect : number;
  statsTotal : number
}.

(** An entry of the object [getCategoryPerformance] returns. *)
Record categoryPerformance : Type := mkCategoryPerformance {
  performanceScore : number;
  performanceCorrect : number;
  performanceTotal : number;
  performanceLevel : string
}.

(** The entry [getCategoryPerformance] builds for one category. *)
Definition performanceOf (stats : categoryStats) : categoryPerformance :=
  let percentage := round (mul (div (statsCorrect stats) (statsTotal stats)) (ofZ 100)) in
  {| performanceScore := percentage;
     performanceCorrect := statsCorrect stats;
     performanceTotal := statsTotal stats;
     performanceLevel :=
       if ge percentage (ofZ 80) then "strong"
       else if ge percentage (ofZ 60) then "moderate"
       else "weak" |}.

(** [getCategoryPerformance], over the entries of [this.categories] in
    the map's order. *)
Definition getCategoryPerformance (categories : list (string * categoryStats))
  : list (string * categoryPerformance) :=
  map (fun entry => (fst entry, performanceOf (snd entry))) categories.

End QuizResult.

(* ===================================================================== *)
(** * Quiz controller *)
(* ===================================================================== *)

Module QuizController.

Import QuizResult.

(** [{ 'week': 7, 'month': 30, 'year': 365 }[period] || 30]. *)
Definition periodDays (period : string) : Z :=
  if String.eqb period "week" then 7
  else if String.eqb period "month" then 30
  else if String.eqb period "year" then 365
  else 30.

(** [dateFilter]: [None] for period ['all'], else the [$gte] bound on
    [completedAt], the current time moved back by [days] days (a day
    taken as 86400000 ms). *)
Definition dateFilter (now : Z) (period : string) : option Z :=
  if String.eqb period "all" then None
  else Some (now - periodDays period * 86400000).

Definition matchesFilter (filter : option Z) (d : document) : bool :=
  match filter with
  | None => true
  | Some dateLimit => dateLimit <=? completedAt d
  end.

(** Ascending order on [timeTaken]: null sorts before every number. *)
Definition timeLeb (a b : option Z) : bool :=
  match a, b with
  | None, _ => true
  | Some _, None => false
  | Some x, Some y => x <=? y
  end.

(** [sort({ score: -1, timeTaken: 1 })]: [a] may come before [b]. *)
Definition sortsBefore (a b : document) : bool :=
  (score b <? score a) || ((score a =? score b) && timeLeb (timeTaken a) (timeTaken b)).

Definition leaderboardOrder (a b : document) : Prop := sortsBefore a b = true.

#[export] Instance leaderboardOrder_dec (a b : document) :
  Decision (leaderboardOrder a b).
Proof. unfold leaderboardOrder. apply _. Defined.

(** [.limit(n)]: the first [n] documents; [limit(0)] sets no limit. *)
Definition limitTo {A : Type} (n : nat) (l : list A) : list A :=
  match n with
  | O => l
  | _ => take n l
  end.

(** One entry of [rankedLeaderboard]. *)
Record entry : Type := mkEntry {
  rank : Z;
  entryScore : Z;
  entryCorrectAnswers : Z;
  entryTotalQuestions : Z;
  entryTimeTaken : option Z;
  entryCompletedAt : Z
}.

(** [leaderboard.map((result, index) => ({ rank: index + 1, ... }))]. *)
Fixpoint addRanking (index : Z) (leaderboard : list document) : list entry :=
  match leaderboard with
  | [] => []
  | result :: rest =>
      mkEntry (index + 1) (score result) (correctAnswers result)
              (totalQuestions result) (timeTaken result) (completedAt result)
        :: addRanking (index + 1) rest
  end.

(** The query of [getLeaderboard]: [find(dateFilter).sort(...).limit(...)]. *)
Definition leaderboardQuery (now : Z) (limit : nat) (period : string)
    (collection : list document) : list document :=
  limitTo limit
    (merge_sort leaderboardOrder
       (filter (fun d => matchesFilter (dateFilter now period) d = true) collection)).

(** [getLeaderboard], with [limit = parseInt(req.query.limit)] and the
    request served at time [now]: the [leaderboard] array of the response. *)
Definition getLeaderboard (now : Z) (limit : nat) (period : string)
    (collection : list document) : list entry :=
  addRanking 0 (leaderboardQuery now limit period collection).

(** ** Submitting results *)

(** [quizResultData]: what [submitQuizResults] hands to [new QuizResult]. *)
Record quizResultData : Type := mkQuizResultData {
  dataScore : number;
  dataTotalQuestions : number;
  dataCorrectAnswers : number;
  dataTimeTaken : JsValue;
  dataCategories : JsValue;
  dataDifficulty : JsValue;
  dataSessionId : JsValue
}.

(** How [submitQuizResults] leaves its own checks: the 400 answer for
    data that are not numbers, [next(new AppError(message, 400))], or the
    construction of the document, which is then saved. *)
Inductive submission : Type :=
| InvalidData
| Refused (message : string)
| Saving (data : quizResultData).

(** [v || fallback]. *)
Definition orElse (v fallback : JsValue) : JsValue :=
  if truthy v then v else fallback.

(** [submitQuizResults], up to [new QuizResult(quizResultData)]; an absent
    [difficulty] defaults to ['mixed'], and the empty [Map] is written as
    the empty object. *)
Definition submitQuizResults (body : JsValue) : submission :=
  match getProp body "score", getProp body "totalQuestions",
        getProp body "correctAnswers" with
  | JNumber score, JNumber totalQuestions, JNumber correctAnswers =>
      if lt score (ofZ 0) || gt score (ofZ 100) then
        Refused "Score must be between 0 and 100"
      else if gt correctAnswers totalQuestions then
        Refused "Correct answers cannot exceed total questions"
      else if le totalQuestions (ofZ 0) then
        Refused "Total questions must be greater than 0"
      else
        let calculatedScore :=
          round (mul (div correctAnswers totalQuestions) (ofZ 100)) in
        if gt (abs (sub score calculatedScore)) (ofZ 1) then
          Refused "Score calculation mismatch"
        else
          Saving
            {| dataScore := score;
               dataTotalQuestions := totalQuestions;
               dataCorrectAnswers := correctAnswers;
               dataTimeTaken := orElse (getProp body "timeTaken") JNull;
               dataCategories := orElse (getProp body "categories") (JObject []);
               dataDifficulty :=
                 match getProp body "difficulty" with
                 | JUndefined => JString "mixed"
                 | difficulty => difficulty
                 end;
               dataSessionId := orElse (getProp body "sessionId") JNull |}
  | _, _, _ => InvalidData
  end.

(** ** Statistics *)

(** The [$switch] of the [performanceLevels] aggregation of
    [getQuizStats]. *)
Definition switchLevel (score : Z) : string :=
  if 90 <=? score then "excellent"
  else if 80 <=? score then "good"
  else if 70 <=? score then "fair"
  else if 60 <=? score then "needs_improvement"
  else "poor".

(** The values the [$switch] can give. *)
Definition levels : list string :=
  ["excellent"; "good"; "fair"; "needs_improvement"; "poor"].

(** The [performanceLevels] aggregation: one row [(level, count)] for
    each level that some document has. *)
Definition performanceLevels (collection : list document) : list (string * Z) :=
  omap (fun level =>
          let members :=
            filter (fun d => switchLevel (score d) = level) collection in
          match members with
          | [] => None
          | _ => Some (level, Z.of_nat (length members))
          end)
       levels.

(** The [overall] object of the [getQuizStats] response. *)
Record overall : Type := mkOverall {
  overallTotalAttempts : Z;
  overallAverageScore : number;
  overallHighestScore : Z;
  overallLowestScore : Z;
  overallAverageTime : number;
  thisWeekAttempts : Z
}.

(** [getQuizStats], at time [now]: the [overall] object.  An empty
    collection gives the default statistics, all 0. *)
Definition getQuizStatsOverall (now : Z) (collection : list document) : overall :=
  let thisWeek := Z.of_nat (length (getRecentResults now 7 collection)) in
  match getOverallStats collection with
  | stats :: _ =>
      {| overallTotalAttempts := totalAttempts stats;
         overallAverageScore :=
           div (round (mul (averageScore stats) (ofZ 100))) (ofZ 100);
         overallHighestScore := highestScore stats;
         overallLowestScore := lowestScore stats;
         overallAverageTime :=
           round (match statsAverageTime stats with
                  | Some time => if truthy (JNumber time) then time else ofZ 0
                  | None => ofZ 0
                  end);
         thisWeekAttempts := thisWeek |}
  | [] =>
      {| overallTotalAttempts := 0;
         overallAverageScore := div (round (mul (ofZ 0) (ofZ 100))) (ofZ 100);
         overallHighestScore := 0;
         overallLowestScore := 0;
         overallAverageTime := round (ofZ 0);
         thisWeekAttempts := thisWeek |}
  end.

(** The query of the controller's [getRecentResults]:
    [QuizResult.getRecentResults(parseInt(days)).limit(parseInt(limit))],
    with [days] and [limit] the two integers parsed. *)
Definition getRecentResults (now : Z) (days : Z) (limit : nat)
    (collection : list document) : list document :=
  limitTo limit (QuizResult.getRecentResults now days collection).

End QuizController.

(* ===================================================================== *)
(** * Client quiz ([public/js/quiz.js]) *)
(* ===================================================================== *)

(** How a call completes: normally with a value, or abruptly by throwing
    an error, identified by its name. *)
Inductive completion (A : Type) : Type :=
| Normal (value : A)
| Throw (errorName : string).
Arguments Normal {A} value.
Arguments Throw {A} errorName.

(** [arr[i]] for an array of strings and a Number index: the element when
    [i] is an integer within the array, [undefined] otherwise. *)
Definition elementAt (arr : list string) (i : number) : JsValue :=
  if isInteger i && ge i (ofZ 0) then
    match arr !! Z.to_nat (toZ i) with
    | Some s => JString s
    | None => JUndefined
    end
  else JUndefined.

Module QuizQuestion.

(** A [QuizQuestion] object; [userAnswer] is [None] for null. *)
Record t : Type := mk {
  id : number;
  category : string;
  question : string;
  options : list string;
  correctAnswer : number;
  explanation : string;
  difficulty : string;
  userAnswer : option number;
  isAnswered : bool
}.

(** The plain question objects of [QUIZ_QUESTIONS]. *)
Record data : Type := mkData {
  dataId : number;
  dataCategory : string;
  dataQuestion : string;
  dataOptions : list string;
  dataCorrectAnswer : number;
  dataExplanation : string;
  dataDifficulty : string
}.

Definition constructor (questionData : data) : t :=
  {| id := dataId questionData;
     category := dataCategory questionData;
     question := dataQuestion questionData;
     options := dataOptions questionData;
     correctAnswer := dataCorrectAnswer questionData;
     explanation := dataExplanation questionData;
     difficulty := dataDifficulty questionData;
     userAnswer := None;
     isAnswered := false |}.

(** [setUserAnswer(answerIndex)]: the question after the call. *)
Definition setUserAnswer (answerIndex : number) (this : t) : completion t :=
  Normal
    {| id := id this;
       category := category this;
       question := question this;
       options := options this;
       correctAnswer := correctAnswer this;
       explanation := explanation this;
       difficulty := difficulty this;
       userAnswer := Some answerIndex;
       isAnswered := true |}.

(** [this.userAnswer === this.correctAnswer]: null is never equal to a
    Number. *)
Definition answerMatches (this : t) : bool :=
  match userAnswer this with
  | Some a => strictEq a (correctAnswer this)
  | None => false
  end.

Definition isCorrect (this : t) : bool :=
  isAnswered this && answerMatches this.

Definition getCorrectAnswerText (this : t) : JsValue :=
  elementAt (options this) (correctAnswer this).

Definition getUserAnswerText (this : t) : JsValue :=
  if isAnswered this then
    match userAnswer this with
    | Some a => elementAt (options this) a
    | None => JUndefined
    end
  else JNull.

(** [reset()]: the question after the call. *)
Definition reset (this : t) : t :=
  {| id := id this;
     category := category this;
     question := question this;
     options := options this;
     correctAnswer := correctAnswer this;
     explanation := explanation this;
     difficulty := difficulty this;
     userAnswer := None;
     isAnswered := false |}.

End QuizQuestion.

(** The question bank [QUIZ_QUESTIONS]. *)
Definition QUIZ_QUESTIONS : list QuizQuestion.data :=
  [
    {| QuizQuestion.dataId := ofZ 1;
       QuizQuestion.dataCategory := "Recycling";
       QuizQuestion.dataQuestion :=
         "What color recycling bin is typically used for paper and cardboard?";
       QuizQuestion.dataOptions :=
         [ "Green bin";
           "Blue bin";
           "Yellow bin";
           "Red bin" ];
       QuizQuestion.dataCorrectAnswer := ofZ 1;
       QuizQuestion.dataExplanation :=
         "Blue bins are commonly used for paper and cardboard recycling in most recycling programs.";
       QuizQuestion.dataDifficulty := "easy" |};
    {| QuizQuestion.dataId := ofZ 2;
       QuizQuestion.dataCategory := "Energy Conservation";
       QuizQuestion.dataQuestion :=
         "Which type of light bulb uses the least amount of energy?";
       QuizQuestion.dataOptions :=
         [ "Incandescent bulbs";
           "Halogen bulbs";
           "CFL bulbs";
           "LED bulbs" ];
       QuizQuestion.dataCorrectAnswer := ofZ 3;
       QuizQuestion.dataExplanation :=
         "LED bulbs use up to 75% less energy than incandescent bulbs and last 25 times longer.";
       QuizQuestion.dataDifficulty := "easy" |};
    {| QuizQuestion.dataId := ofZ 3;
       QuizQuestion.dataCategory := "Water Conservation";
       QuizQuestion.dataQuestion :=
         "How much water can a dripping faucet waste per year?";
       QuizQuestion.dataOptions :=
         [ "100 gallons";
           "500 gallons";
           "1,000 gallons";
           "3,000+ gallons" ];
       QuizQuestion.dataCorrectAnswer := ofZ 3;
       QuizQuestion.dataExplanation :=
         "A single dripping faucet can waste over 3,000 gallons of water per year, which is enough for more than 180 showers!";
       QuizQuestion.dataDifficulty := "medium" |};
    {| QuizQuestion.dataId := ofZ 4;
       QuizQuestion.dataCategory := "Climate Change";
       QuizQuestion.dataQuestion :=
         "What is the main greenhouse gas responsible for climate change?";
       QuizQuestion.dataOptions :=
         [ "Oxygen (O2)";
           "Carbon Dioxide (CO2)";
           "Nitrogen (N2)";
           "Hydrogen (H2)" ];
       QuizQuestion.dataCorrectAnswer := ofZ 1;
       QuizQuestion.dataExplanation :=
         "Carbon dioxide (CO2) is the primary greenhouse gas emitted through human activities, mainly from burning fossil fuels.";
       QuizQuestion.dataDifficulty := "easy" |};
    {| QuizQuestion.dataId := ofZ 5;
       QuizQuestion.dataCategory := "Recycling";
       QuizQuestion.dataQuestion :=
         "Which of these items should NOT be put in regular recycling bins?";
       QuizQuestion.dataOptions :=
         [ "Clean pizza boxes";
           "Plastic bottles";
           "Batteries";
           "Aluminum cans" ];
       QuizQuestion.dataCorrectAnswer := ofZ 2;
       QuizQuestion.dataExplanation :=
         "Batteries contain hazardous materials and should be taken to special recycling centers, not put in regular recycling bins.";
       QuizQuestion.dataDifficulty := "medium" |};
    {| QuizQuestion.dataId := ofZ 6;
       QuizQuestion.dataCategory := "Energy Conservation";
       QuizQuestion.dataQuestion :=
         "What percentage of home energy can be saved by properly sealing air leaks?";
       QuizQuestion.dataOptions :=
         [ "5-10%";
           "10-20%";
           "20-30%";
           "30-40%" ];
       QuizQuestion.dataCorrectAnswer := ofZ 1;
       QuizQuestion.dataExplanation :=
         "Sealing air leaks around windows, doors, and other openings can save 10-20% on heating and cooling costs.";
       QuizQuestion.dataDifficulty := "medium" |};
    {| QuizQuestion.dataId := ofZ 7;
       QuizQuestion.dataCategory := "Water Conservation";
       QuizQuestion.dataQuestion :=
         "What is the average amount of water used in a 10-minute shower?";
       QuizQuestion.dataOptions :=
         [ "15-25 gallons";
           "25-35 gallons";
           "35-45 gallons";
           "45-55 gallons" ];
       QuizQuestion.dataCorrectAnswer := ofZ 1;
       QuizQuestion.dataExplanation :=
         "A typical 10-minute shower uses about 25-35 gallons of water, depending on the showerhead flow rate.";
       QuizQuestion.dataDifficulty := "medium" |};
    {| QuizQuestion.dataId := ofZ 8;
       QuizQuestion.dataCategory := "Climate Change";
       QuizQuestion.dataQuestion :=
         "How much has the global average temperature increased since 1880?";
       QuizQuestion.dataOptions :=
         [ "0.5°C (0.9°F)";
           "1.1°C (2°F)";
           "2.0°C (3.6°F)";
           "3.0°C (5.4°F)" ];
       QuizQuestion.dataCorrectAnswer := ofZ 1;
       QuizQuestion.dataExplanation :=
         "The global average temperature has increased by approximately 1.1°C (2°F) since 1880, with most warming occurring in the past 40 years.";
       QuizQuestion.dataDifficulty := "hard" |};
    {| QuizQuestion.dataId := ofZ 9;
       QuizQuestion.dataCategory := "Recycling";
       QuizQuestion.dataQuestion :=
         "What percentage of plastic waste is actually recycled globally?";
       QuizQuestion.dataOptions :=
         [ "Less than 10%";
           "10-20%";
           "20-30%";
           "More than 50%" ];
       QuizQuestion.dataCorrectAnswer := ofZ 0;
       QuizQuestion.dataExplanation :=
         "Unfortunately, less than 10% of all plastic waste ever produced has been recycled. Most ends up in landfills or the environment.";
       QuizQuestion.dataDifficulty := "hard" |};
    {| QuizQuestion.dataId := ofZ 10;
       QuizQuestion.dataCategory := "Energy Conservation";
       QuizQuestion.dataQuestion :=
         "Which home appliance typically uses the most electricity?";
       QuizQuestion.dataOptions :=
         [ "Refrigerator";
           "Washing machine";
           "Air conditioning/heating system";
           "Television" ];
       QuizQuestion.dataCorrectAnswer := ofZ 2;
       QuizQuestion.dataExplanation :=
         "Heating and cooling systems typically account for about 48% of home energy use, making them the largest energy consumer in most homes.";
       QuizQuestion.dataDifficulty := "medium" |}
  ].

Module QuizManager.

(** The state of a [QuizManager] the quiz logic reads and writes (the DOM
    handles are left out); times are in milliseconds since the epoch,
    [None] for null. *)
Record t : Type := mk {
  questions : list QuizQuestion.t;
  currentQuestionIndex : Z;
  isQuizStarted : bool;
  isQuizCompleted : bool;
  startTime : option Z;
  endTime : option Z
}.

(** The fields the constructor sets, before it calls [init()]. *)
Definition fresh : t :=
  {| questions := [];
     currentQuestionIndex := 0;
     isQuizStarted := false;
     isQuizCompleted := false;
     startTime := None;
     endTime := None |}.

(** [loadQuestions()]. *)
Definition loadQuestions (this : t) : t :=
  {| questions := map QuizQuestion.constructor QUIZ_QUESTIONS;
     currentQuestionIndex := currentQuestionIndex this;
     isQuizStarted := isQuizStarted this;
     isQuizCompleted := isQuizCompleted this;
     startTime := startTime this;
     endTime := endTime this |}.

(** [new QuizManager()]: the constructor, then [init()], which loads the
    questions. *)
Definition constructor : t := loadQuestions fresh.

(** [startQuiz()], called at time [now]. *)
Definition startQuiz (now : Z) (this : t) : t :=
  {| questions := map QuizQuestion.reset (questions this);
     currentQuestionIndex := 0;
     isQuizStarted := true;
     isQuizCompleted := isQuizCompleted this;
     startTime := Some now;
     endTime := endTime this |}.

(** [questions.find(q => q.id === questionId)] followed by
    [question.setUserAnswer(answerIndex)] on the object found: the
    array after the call. *)
Fixpoint answerFirst (questionId answerIndex : number)
    (qs : list QuizQuestion.t) : completion (list QuizQuestion.t) :=
  match qs with
  | [] => Normal []
  | q :: rest =>
      if strictEq (QuizQuestion.id q) questionId then
        match QuizQuestion.setUserAnswer answerIndex q with
        | Normal q' => Normal (q' :: rest)
        | Throw e => Throw e
        end
      else
        match answerFirst questionId answerIndex rest with
        | Normal rest' => Normal (q :: rest')
        | Throw e => Throw e
        end
  end.

(** [handleAnswerChange(event)], with [questionId] and [answerIndex] the
    two [parseInt] results read from the event. *)
Definition handleAnswerChange (questionId answerIndex : number) (this : t)
  : completion t :=
  match answerFirst questionId answerIndex (questions this) with
  | Normal qs =>
      Normal {| questions := qs;
                currentQuestionIndex := currentQuestionIndex this;
                isQuizStarted := isQuizStarted this;
                isQuizCompleted := isQuizCompleted this;
                startTime := startTime this;
                endTime := endTime this |}
  | Throw e => Throw e
  end.

(** An entry of [categoryScores]. *)
Record categoryScore : Type := mkCategoryScore {
  correct : Z;
  total : Z
}.

(** An entry of [detailedResults]. *)
Record detailedResult : Type := mkDetailedResult {
  questionNumber : Z;
  detailQuestion : string;
  detailCategory : string;
  detailUserAnswer : JsValue;
  detailCorrectAnswer : JsValue;
  detailIsCorrect : bool;
  detailExplanation : string
}.

(** The variables the [forEach] loop of [calculateResults] updates. *)
Record tally : Type := mkTally {
  correctAnswers : Z;
  categoryScores : gmap string categoryScore;
  detailedResults : list detailedResult
}.

Definition emptyTally : tally := mkTally 0 ∅ [].

Definition incrementTotal (c : categoryScore) : categoryScore :=
  mkCategoryScore (correct c) (total c + 1).

Definition incrementCorrect (c : categoryScore) : categoryScore :=
  mkCategoryScore (correct c + 1) (total c).

(** Category scoring: [categoryScores] is a plain object keyed by the
    category names of the bank. *)
Definition scoreCategory (category : string) (isCorrect : bool)
    (scores : gmap string categoryScore) : gmap string categoryScore :=
  let scores :=
    match scores !! category with
    | None => <[category := mkCategoryScore 0 0]> scores
    | Some _ => scores
    end in
  let scores := alter incrementTotal category scores in
  if isCorrect then alter incrementCorrect category scores else scores.

(** The body of the [forEach] callback. *)
Definition scoreQuestion (acc : tally) (question : QuizQuestion.t) (index : Z)
  : tally :=
  let isCorrect := QuizQuestion.isCorrect question in
  {| correctAnswers :=
       if isCorrect then correctAnswers acc + 1 else correctAnswers acc;
     categoryScores :=
       scoreCategory (QuizQuestion.category question) isCorrect (categoryScores acc);
     detailedResults :=
       detailedResults acc ++
         [ {| questionNumber := index + 1;
              detailQuestion := QuizQuestion.question question;
              detailCategory := QuizQuestion.category question;
              detailUserAnswer := QuizQuestion.getUserAnswerText question;
              detailCorrectAnswer := QuizQuestion.getCorrectAnswerText question;
              detailIsCorrect := isCorrect;
              detailExplanation := QuizQuestion.explanation question |} ] |}.

(** [this.questions.forEach((question, index) => ...)]. *)
Fixpoint forEachQuestion (qs : list QuizQuestion.t) (index : Z) (acc : tally)
  : tally :=
  match qs with
  | [] => acc
  | question :: rest =>
      forEachQuestion rest (index + 1) (scoreQuestion acc question index)
  end.

(** The object [calculateResults] returns. *)
Record results : Type := mkResults {
  score : number;
  resultCorrectAnswers : Z;
  totalQuestions : Z;
  timeTaken : number;
  resultCategoryScores : gmap string categoryScore;
  resultDetailedResults : list detailedResult;
  completedAt : Z
}.

(** [this.endTime - this.startTime], a null start time counting as 0. *)
Definition elapsedMs (endTime : Z) (startTime : option Z) : number :=
  ofZ (endTime - default 0 startTime).

(** [calculateResults()], called at time [now]: the manager after the
    call (its [endTime] is set) and the results. *)
Definition calculateResults (now : Z) (this : t) : completion (t * results) :=
  let this' :=
    {| questions := questions this;
       currentQuestionIndex := currentQuestionIndex this;
       isQuizStarted := isQuizStarted this;
       isQuizCompleted := isQuizCompleted this;
       startTime := startTime this;
       endTime := Some now |} in
  let timeTaken := round (div (elapsedMs now (startTime this)) (ofZ 1000)) in
  let acc := forEachQuestion (questions this) 0 emptyTally in
  let totalQuestions := Z.of_nat (length (questions this)) in
  let score :=
    round (mul (div (ofZ (correctAnswers acc)) (ofZ totalQuestions)) (ofZ 100)) in
  Normal
    (this',
     {| score := score;
        resultCorrectAnswers := correctAnswers acc;
        totalQuestions := totalQuestions;
        timeTaken := timeTaken;
        resultCategoryScores := categoryScores acc;
        resultDetailedResults := detailedResults acc;
        completedAt := now |}).

(** [getPerformanceMessage(score)]. *)
Definition getPerformanceMessage (score : number) : string :=
  if ge score (ofZ 90) then
    "Outstanding! You're an environmental champion! 🌟"
  else if ge score (ofZ 80) then
    "Excellent work! You have great environmental knowledge! 🌱"
  else if ge score (ofZ 70) then
    "Good job! You're on the right track with environmental awareness! 👍"
  else if ge score (ofZ 60) then
    "Not bad! Keep learning about environmental conservation! 📚"
  else
    "There's room for improvement. Check out our Learn page for more info! 💪".

(** ** Navigation *)

(** The manager with [currentQuestionIndex] set to [index]. *)
Definition withIndex (index : Z) (this : t) : t :=
  {| questions := questions this;
     currentQuestionIndex := index;
     isQuizStarted := isQuizStarted this;
     isQuizCompleted := isQuizCompleted this;
     startTime := startTime this;
     endTime := endTime this |}.

(** [previousQuestion()]. *)
Definition previousQuestion (this : t) : t :=
  if 0 <? currentQuestionIndex this then
    withIndex (currentQuestionIndex this - 1) this
  else this.

(** [nextQuestion()]. *)
Definition nextQuestion (this : t) : t :=
  if currentQuestionIndex this <? Z.of_nat (length (questions this)) - 1 then
    withIndex (currentQuestionIndex this + 1) this
  else this.

(** [goToQuestion(questionIndex)], for an integer index. *)
Definition goToQuestion (questionIndex : Z) (this : t) : t :=
  if (0 <=? questionIndex) && (questionIndex <? Z.of_nat (length (questions this))) then
    withIndex questionIndex this
  else this.

(** [retakeQuiz()]. *)
Definition retakeQuiz (this : t) : t :=
  {| questions := map QuizQuestion.reset (questions this);
     currentQuestionIndex := 0;
     isQuizStarted := false;
     isQuizCompleted := false;
     startTime := None;
     endTime := None |}.

(** [this.questions.every(q => q.isAnswered)], the test of
    [updateNavigation] for the review button. *)
Definition allAnswered (this : t) : bool :=
  forallb QuizQuestion.isAnswered (questions this).

(** [this.questions.filter(q => !q.isAnswered)], the unanswered questions
    [submitQuiz] counts. *)
Definition unansweredQuestions (this : t) : list QuizQuestion.t :=
  List.filter (fun q => negb (QuizQuestion.isAnswered q)) (questions this).

(** ** Submission *)

(** [Object.entries(categoryScores)]: the entries of the object in the
    order the engine lists its keys.  [categoryScores] is a finite map
    here, which does not record that order, so the code that goes through
    the entries takes the listing as a parameter, [objectEntries]. *)
Definition entriesListing : Type :=
  gmap string categoryScore → list (string * categoryScore).

(** The [categories] object of the request: one [{correct, total}] object
    for each entry of [categoryScores]. *)
Definition categoriesPayload (objectEntries : entriesListing)
    (scores : gmap string categoryScore) : JsValue :=
  JObject
    (map (fun entry =>
            (fst entry,
             JObject [("correct", JNumber (ofZ (correct (snd entry))));
                      ("total", JNumber (ofZ (total (snd entry))))]))
         (objectEntries scores)).

(** The object [submitResultsToServer] posts to [/quiz/submit];
    [sessionId] is the value of [generateSessionId()]. *)
Definition submissionPayload (objectEntries : entriesListing) (sessionId : string)
    (r : results) : JsValue :=
  JObject [("score", JNumber (score r));
           ("totalQuestions", JNumber (ofZ (totalQuestions r)));
           ("correctAnswers", JNumber (ofZ (resultCorrectAnswers r)));
           ("timeTaken", JNumber (timeTaken r));
           ("categories", categoriesPayload objectEntries (resultCategoryScores r));
           ("difficulty", JString "mixed");
           ("sessionId", JString sessionId)].

(** [submitResultsToServer(results)]: the answer of the post, or the error
    it threw, thrown again.  [post] stands for [apiClient.post] on
    [/quiz/submit]; it receives the body as the server parses it. *)
Definition submitResultsToServer (objectEntries : entriesListing)
    (post : JsValue → completion JsValue)
    (sessionId : string) (r : results) : completion JsValue :=
  match post (jsonRoundTrip (submissionPayload objectEntries sessionId r)) with
  | Normal response => Normal response
  | Throw error => Throw error
  end.

(** [showResults(results)]: the manager after the call. *)
Definition showResults (this : t) : t :=
  {| questions := questions this;
     currentQuestionIndex := currentQuestionIndex this;
     isQuizStarted := isQuizStarted this;
     isQuizCompleted := true;
     startTime := startTime this;
     endTime := endTime this |}.

(** Where [submitQuiz] ends: the user declined to submit with questions
    unanswered; the results screen; the error screen with the message of
    the error caught. *)
Inductive submitted : Type :=
| Declined (this : t)
| ResultsShown (this : t) (r : results)
| ErrorShown (this : t) (message : string).

(** [submitQuiz()], called at time [now]; [confirmSubmit] is the answer
    to the [confirm] dialog, asked only when a question is unanswered. *)
Definition submitQuiz (objectEntries : entriesListing) (confirmSubmit : bool)
    (post : JsValue → completion JsValue)
    (sessionId : string) (now : Z) (this : t) : submitted :=
  if (0 <? length (unansweredQuestions this))%nat && negb confirmSubmit then
    Declined this
  else
    match calculateResults now this with
    | Normal (this', r) =>
        match submitResultsToServer objectEntries post sessionId r with
        | Normal _ => ResultsShown (showResults this') r
        | Throw message => ErrorShown this' message
        end
    | Throw message => ErrorShown this message
    end.

(** ** Personalized tips *)

Record tip : Type := mkTip {
  title : string;
  content : string
}.

(** The [switch (category)] of [generatePersonalizedTips]. *)
Definition categoryTip (category : string) : option tip :=
  if String.eqb category "Recycling" then
    Some {| title := "Improve Your Recycling Knowledge";
            content := "Learn more about what can and cannot be recycled in your area. Check with your local waste management for specific guidelines." |}
  else if String.eqb category "Energy Conservation" then
    Some {| title := "Focus on Energy Saving";
            content := "Simple changes like using LED bulbs, unplugging devices, and adjusting your thermostat can significantly reduce energy consumption." |}
  else if String.eqb category "Water Conservation" then
    Some {| title := "Water-Saving Strategies";
            content := "Fix leaky faucets, take shorter showers, and consider installing low-flow fixtures to conserve water at home." |}
  else if String.eqb category "Climate Change" then
    Some {| title := "Understanding Climate Change";
            content := "Stay informed about climate science and learn about actions you can take to reduce your carbon footprint." |}
  else None.

(** [(scores.correct / scores.total) * 100 < 70]. *)
Definition isWeak (scores : categoryScore) : bool :=
  lt (mul (div (ofZ (correct scores)) (ofZ (total scores))) (ofZ 100)) (ofZ 70).

(** The tips the loop over [Object.entries(results.categoryScores)]
    pushes. *)
Fixpoint categoryTips (entries : list (string * categoryScore)) : list tip :=
  match entries with
  | [] => []
  | (category, scores) :: rest =>
      if isWeak scores then
        match categoryTip category with
        | Some t => t :: categoryTips rest
        | None => categoryTips rest
        end
      else categoryTips rest
  end.

(** The general tip, by the overall score. *)
Definition overallTip (score : number) : tip :=
  if ge score (ofZ 80) then
    {| title := "Share Your Knowledge";
       content := "You have excellent environmental awareness! Consider sharing your knowledge with friends and family to spread environmental consciousness." |}
  else if ge score (ofZ 60) then
    {| title := "Keep Learning";
       content := "You're making good progress! Visit our Learn page to deepen your understanding of environmental topics." |}
  else
    {| title := "Start Your Environmental Journey";
       content := "Begin with small changes like recycling properly, conserving water, and learning about sustainable practices. Every action counts!" |}.

(** [generatePersonalizedTips], on the entries of [results.categoryScores]
    in the order [Object.entries] gives them. *)
Definition tipsFor (entries : list (string * categoryScore)) (score : number)
  : list tip :=
  take 3 (categoryTips entries ++ [overallTip score]).

(** [generatePersonalizedTips(results)]. *)
Definition generatePersonalizedTips (objectEntries : entriesListing) (r : results)
  : list tip :=
  tipsFor (objectEntries (resultCategoryScores r)) (score r).

End QuizManager.

Module QuizStatistics.

(** An entry of [attempts]; [date] is the ISO string of the time of the
    attempt. *)
Record attempt : Type := mkAttempt {
  score : number;
  correctAnswers : Z;
  totalQuestions : Z;
  timeTaken : number;
  date : string;
  categoryScores : gmap string QuizManager.categoryScore
}.

(** The fields of a [QuizStatistics] object. *)
Record t : Type := mk {
  attempts : list attempt;
  bestScore : number;
  totalAttempts : Z
}.

(** A value handed to [saveToStorage]. *)
Inductive stored : Type :=
| StoredAttempts (attempts : list attempt)
| StoredScore (score : number).

(** An index relative to the end of an array when negative, clamped to
    the array. *)
Definition relativeIndex (len i : Z) : Z :=
  if i <? 0 then Z.max (len + i) 0 else Z.min i len.

(** [arr.slice(start, end)]; [None] for an omitted [end]. *)
Definition slice {A : Type} (start : Z) (finish : option Z) (arr : list A) : list A :=
  let len := Z.of_nat (length arr) in
  let k := relativeIndex len start in
  let final :=
    match finish with
    | None => len
    | Some e => relativeIndex len e
    end in
  take (Z.to_nat (final - k)) (drop (Z.to_nat k) arr).

(** The constructor, from what [loadFromStorage] returns for
    ['quiz_attempts'] and ['best_score'] ([None] for null). *)
Definition constructor (loadedAttempts : option (list attempt))
    (loadedBest : option number) : t :=
  let attempts := default [] loadedAttempts in
  {| attempts := attempts;
     bestScore :=
       match loadedBest with
       | Some best => if truthy (JNumber best) then best else ofZ 0
       | None => ofZ 0
       end;
     totalAttempts := Z.of_nat (length attempts) |}.

(** [recordAttempt(results)], at the time whose ISO string is [date]: the
    object after the call and the calls to [saveToStorage], in order. *)
Definition recordAttempt (date : string) (results : QuizManager.results) (this : t)
  : t * list (string * stored) :=
  let attempt :=
    {| score := QuizManager.score results;
       correctAnswers := QuizManager.resultCorrectAnswers results;
       totalQuestions := QuizManager.totalQuestions results;
       timeTaken := QuizManager.timeTaken results;
       date := date;
       categoryScores := QuizManager.resultCategoryScores results |} in
  let pushed := attempts this ++ [attempt] in
  let improved := gt (QuizManager.score results) (bestScore this) in
  let best := if improved then QuizManager.score results else bestScore this in
  let kept :=
    if (10 <? length pushed)%nat then slice (-10) None pushed else pushed in
  ({| attempts := kept;
      bestScore := best;
      totalAttempts := Z.of_nat (length kept) |},
   (if improved then [("best_score", StoredScore best)] else [])
   ++ [("quiz_attempts", StoredAttempts kept)]).

(** [arr.reduce((acc, a) => acc + a.score, 0)]. *)
Definition sumOfScores (arr : list attempt) : number :=
  fold_left (fun acc a => add acc (score a)) arr (ofZ 0).

(** [getAverageScore()]. *)
Definition getAverageScore (this : t) : number :=
  match attempts this with
  | [] => ofZ 0
  | _ =>
      round (div (sumOfScores (attempts this))
                 (ofZ (Z.of_nat (length (attempts this)))))
  end.

(** [getImprovementTrend()]. *)
Definition getImprovementTrend (this : t) : string :=
  if (length (attempts this) <? 2)%nat then "Not enough data"
  else
    let recent := slice (-3) None (attempts this) in
    let older := slice (-6) (Some (-3)) (attempts this) in
    match older with
    | [] => "Building progress..."
    | _ =>
        let recentAvg :=
          div (sumOfScores recent) (ofZ (Z.of_nat (length recent))) in
        let olderAvg :=
          div (sumOfScores older) (ofZ (Z.of_nat (length older))) in
        if gt recentAvg (add olderAvg (ofZ 5)) then "Improving! 📈"
        else if lt recentAvg (sub olderAvg (ofZ 5)) then "Keep practicing 📚"
        else "Steady progress 📊"
    end.

End QuizStatistics.

(* ===================================================================== *)
(** * Specification-side definitions *)
(* ===================================================================== *)

Import QuizResult QuizController ValidationMiddleware.

(** ** Performance levels *)

(** The level of an integer score, by the thresholds 90, 80, 70 and 60. *)
Definition thresholdLevel (z : Z) : string :=
  if 90 <=? z then "excellent"
  else if 80 <=? z then "good"
  else if 70 <=? z then "fair"
  else if 60 <=? z then "needs_improvement"
  else "poor".

(** ** Leaderboard order *)

(** Ascending order on times, null first. *)
Definition timeLe (a b : option Z) : Prop :=
  match a, b with
  | None, _ => True
  | Some _, None => False
  | Some x, Some y => x ≤ y
  end.

(** The order the response must show: higher score first, and for equal
    scores the shorter time first. *)
Definition entryOrder (a b : entry) : Prop :=
  entryScore b < entryScore a
  ∨ (entryScore a = entryScore b ∧ timeLe (entryTimeTaken a) (entryTimeTaken b)).

(** ** Structural conditions of a submission *)

(** The structural condition of each field of a payload, field by field:
    what makes the field invalid on its own. *)

(** An integer Number within [lo, hi]. *)
Definition integerWithin (lo hi : Z) (x : number) : bool :=
  isInteger x && negb (lt x (ofZ lo)) && negb (gt x (ofZ hi)).

(** [score] is not an integer in [0,100]. *)
Definition scoreViolation (score : JsValue) : bool :=
  match score with
  | JNumber x => negb (integerWithin 0 100 x)
  | _ => true
  end.

(** [totalQuestions] is not an integer in [1,50]. *)
Definition totalQuestionsViolation (totalQuestions : JsValue) : bool :=
  match totalQuestions with
  | JNumber x => negb (integerWithin 1 50 x)
  | _ => true
  end.

(** [correctAnswers] is not an integer in [0, totalQuestions]. *)
Definition correctAnswersViolation (correctAnswers totalQuestions : JsValue) : bool :=
  match correctAnswers with
  | JNumber x =>
      negb (isInteger x && negb (lt x (ofZ 0)) && negb (exceedsTotal x totalQuestions))
  | _ => true
  end.

(** [timeTaken] is present and not an integer in [1,3600]. *)
Definition timeTakenViolation (timeTaken : JsValue) : bool :=
  present timeTaken &&
  match timeTaken with
  | JNumber x => negb (integerWithin 1 3600 x)
  | _ => true
  end.

(** A category entry whose stats are not an object, have a non-numeric
    field, or have [correct > total], [correct < 0] or [total < 1]. *)
Definition badCategoryEntry (entry : string * JsValue) : bool :=
  let stats := snd entry in
  negb (truthy stats) || negb (String.eqb (typeof stats) "object") ||
  match getProp stats "correct", getProp stats "total" with
  | JNumber correct, JNumber total =>
      gt correct total || lt correct (ofZ 0) || lt total (ofZ 1)
  | _, _ => true
  end.

(** [categories] is present and is not an object, or has a bad entry. *)
Definition categoriesViolation (categories : JsValue) : bool :=
  present categories &&
  (negb (String.eqb (typeof categories) "object")
   || existsb badCategoryEntry (Object_entries categories)).

(** The violation of a named field of a request body. *)
Definition violates (body : JsValue) (field : string) : bool :=
  if String.eqb field "score" then scoreViolation (getProp body "score")
  else if String.eqb field "totalQuestions" then
    totalQuestionsViolation (getProp body "totalQuestions")
  else if String.eqb field "correctAnswers" then
    correctAnswersViolation (getProp body "correctAnswers") (getProp body "totalQuestions")
  else if String.eqb field "timeTaken" then timeTakenViolation (getProp body "timeTaken")
  else if String.eqb field "categories" then categoriesViolation (getProp body "categories")
  else false.

(** A check either keeps [errors] or sets one key. *)
Definition extends (f : gmap string string → gmap string string) : Prop :=
  ∀ errors, f errors = errors ∨ ∃ key msg, f errors = <[key := msg]> errors.

(** ** Small integers as Numbers *)

(** Structural equality of Numbers. *)
Definition numberEqb (x y : number) : bool :=
  match x, y with
  | S754_zero a, S754_zero b => Bool.eqb a b
  | S754_infinity a, S754_infinity b => Bool.eqb a b
  | S754_nan, S754_nan => true
  | S754_finite s m e, S754_finite s' m' e' =>
      Bool.eqb s s' && Pos.eqb m m' && Z.eqb e e'
  | _, _ => false
  end.

(** Membership in a list of Numbers, as a test. *)
Definition memberOf (l : list number) (x : number) : bool := existsb (numberEqb x) l.

(** The positive integers below 128 as Numbers. *)
Definition smallIntegers : list number := map ofZ (seqZ 1 127).

(** The Numbers that pass the structural check of [score]: the two zeros
    and the integers 1..100. *)
Definition scoreNumbers : list number :=
  S754_zero false :: S754_zero true :: map ofZ (seqZ 1 100).

(** The Numbers that pass the structural check of [totalQuestions]. *)
Definition totalNumbers : list number := map ofZ (seqZ 1 50).

(** The structural checks of the five fields all pass. *)
Definition structuralChecksPass (body : JsValue) : Prop :=
  violates body "score" = false
  ∧ violates body "totalQuestions" = false
  ∧ violates body "correctAnswers" = false
  ∧ violates body "timeTaken" = false
  ∧ violates body "categories" = false.

(** ** Sample payloads *)

(** Scenario B of the specification: [{score: 50, totalQuestions: 4,
    correctAnswers: 2}]. *)
Definition scenarioB : JsValue :=
  JObject [("score", JNumber (ofZ 50));
           ("totalQuestions", JNumber (ofZ 4));
           ("correctAnswers", JNumber (ofZ 2))].

(** Scenario C of the specification: [{score: 90, totalQuestions: 4,
    correctAnswers: 2}]. *)
Definition scenarioC : JsValue :=
  JObject [("score", JNumber (ofZ 90));
           ("totalQuestions", JNumber (ofZ 4));
           ("correctAnswers", JNumber (ofZ 2))].



(** ** Counting the items of a session *)

(** The number of items of a list that satisfy a test. *)
Fixpoint countZ (f : QuizQuestion.t → bool) (qs : list QuizQuestion.t) : Z :=
  match qs with
  | [] => 0
  | q :: rest => (if f q then 1 else 0) + countZ f rest
  end.

(** The item belongs to the category. *)
Definition inCategory (category : string) (q : QuizQuestion.t) : bool :=
  String.eqb (QuizQuestion.category q) category.

(** The items counted as correct: answered, with the selected index equal
    to the correct index. *)
Definition correctCount (qs : list QuizQuestion.t) : Z :=
  countZ QuizQuestion.isCorrect qs.

(** The items of a category. *)
Definition categoryTotal (category : string) (qs : list QuizQuestion.t) : Z :=
  countZ (inCategory category) qs.

(** The correct items of a category. *)
Definition categoryCorrect (category : string) (qs : list QuizQuestion.t) : Z :=
  countZ (fun q => inCategory category q && QuizQuestion.isCorrect q) qs.

(** The entry a category starts from. *)
Definition noScore : QuizManager.categoryScore := QuizManager.mkCategoryScore 0 0.

(** [optionIndex] is a valid index into the options of [q]. *)
Definition validOptionIndex (q : QuizQuestion.t) (optionIndex : number) : bool :=
  isInteger optionIndex && ge optionIndex (ofZ 0)
  && lt optionIndex (ofZ (Z.of_nat (length (QuizQuestion.options q)))).

(** ** Sample sessions *)

(** A session over the bank, started at time 0, with no answer yet. *)
Definition startedManager : QuizManager.t :=
  QuizManager.startQuiz 0 QuizManager.constructor.

(** The first question of the bank: four options, the correct one at
    index 1. *)
Definition firstQuestion : QuizQuestion.t :=
  QuizQuestion.constructor
    {| QuizQuestion.dataId := ofZ 1;
       QuizQuestion.dataCategory := "Recycling";
       QuizQuestion.dataQuestion :=
         "What color recycling bin is typically used for paper and cardboard?";
       QuizQuestion.dataOptions := [ "Green bin"; "Blue bin"; "Yellow bin"; "Red bin" ];
       QuizQuestion.dataCorrectAnswer := ofZ 1;
       QuizQuestion.dataExplanation :=
         "Blue bins are commonly used for paper and cardboard recycling in most recycling programs.";
       QuizQuestion.dataDifficulty := "easy" |}.

(** The result of setting an answer, for building sessions. *)
Definition answerWith (q : QuizQuestion.t) (answerIndex : number) : QuizQuestion.t :=
  match QuizQuestion.setUserAnswer answerIndex q with
  | Normal q' => q'
  | Throw _ => q
  end.

(** Scenario A of the specification: the bank of 10 items, the first 8
    answered correctly, the last 2 unanswered. *)
Definition scenarioA : QuizManager.t :=
  QuizManager.mk
    (map (fun q => answerWith q (QuizQuestion.correctAnswer q))
         (take 8 (QuizManager.questions startedManager))
     ++ drop 8 (QuizManager.questions startedManager))
    0 true false (Some 0) None.

(** ** Navigation steps *)

(** The position is an index into the questions. *)
Definition inRange (this : QuizManager.t) : Prop :=
  0 ≤ QuizManager.currentQuestionIndex this
      < Z.of_nat (length (QuizManager.questions this)).



(** ** Effects of an answer *)

(** Two questions with the same static content. *)
Definition sameContent (q q' : QuizQuestion.t) : Prop :=
  QuizQuestion.id q' = QuizQuestion.id q
  ∧ QuizQuestion.category q' = QuizQuestion.category q
  ∧ QuizQuestion.question q' = QuizQuestion.question q
  ∧ QuizQuestion.options q' = QuizQuestion.options q
  ∧ QuizQuestion.correctAnswer q' = QuizQuestion.correctAnswer q
  ∧ QuizQuestion.explanation q' = QuizQuestion.explanation q
  ∧ QuizQuestion.difficulty q' = QuizQuestion.difficulty q.

(** No question of the list has the id. *)
Definition noneHasId (questionId : number) (qs : list QuizQuestion.t) : Prop :=
  Forall (fun p => strictEq (QuizQuestion.id p) questionId = false) qs.

(** ** Results of a session *)


(** The entry of [detailedResults] for the question at position [i]
    (counted from 0). *)
Definition detailOf (i : nat) (q : QuizQuestion.t) : QuizManager.detailedResult :=
  {| QuizManager.questionNumber := Z.of_nat i + 1;
     QuizManager.detailQuestion := QuizQuestion.question q;
     QuizManager.detailCategory := QuizQuestion.category q;
     QuizManager.detailUserAnswer := QuizQuestion.getUserAnswerText q;
     QuizManager.detailCorrectAnswer := QuizQuestion.getCorrectAnswerText q;
     QuizManager.detailIsCorrect := QuizQuestion.isCorrect q;
     QuizManager.detailExplanation := QuizQuestion.explanation q |}.

(** ** Bodies of requests *)

(** A listing of the entries of [categoryScores] gives the entries of the
    map, each once, in some order. *)
Definition listsEntries (objectEntries : QuizManager.entriesListing) : Prop :=
  ∀ scores, objectEntries scores ≡ₚ map_to_list scores.

(** The cross-check of the validator fires: the three fields are numbers
    and the declared score is more than 1 away from the recomputed one. *)
Definition scoreMismatched (body : JsValue) : bool :=
  match getProp body "score", getProp body "totalQuestions",
        getProp body "correctAnswers" with
  | JNumber s, JNumber t, JNumber c => scoreMismatch s c t
  | _, _, _ => false
  end.

(** Every Number of the top level of a body is a well-formed double. *)
Definition validNumbers (body : JsValue) : Prop :=
  ∀ key x, getProp body key = JNumber x → valid x = true.

(** A Number that JSON carries unchanged: finite or +0. *)
Definition jsonExact (x : number) : bool :=
  match x with
  | S754_finite _ _ _ => true
  | S754_zero s => negb s
  | _ => false
  end.

(** [Number.isFinite]: JSON writes the other Numbers as [null]. *)
Definition isFinite (x : number) : bool :=
  match x with
  | S754_nan | S754_infinity _ => false
  | _ => true
  end.

(** What the validator and the controller test on the score and the
    counts of a session with [c] correct answers out of [t], all at
    once. *)
Definition honestCounts (c t : Z) : bool :=
  let s := calculatedScore (ofZ c) (ofZ t) in
  jsonExact s && jsonExact (ofZ c) && jsonExact (ofZ t)
  && negb (scoreViolation (JNumber s))
  && negb (totalQuestionsViolation (JNumber (ofZ t)))
  && negb (correctAnswersViolation (JNumber (ofZ c)) (JNumber (ofZ t)))
  && negb (scoreMismatch s (ofZ c) (ofZ t))
  && negb (lt s (ofZ 0) || gt s (ofZ 100))
  && negb (gt (ofZ c) (ofZ t))
  && negb (le (ofZ t) (ofZ 0)).

(** What the validator tests on a category entry with [c] correct out of
    [t]. *)
Definition honestCategory (c t : Z) : bool :=
  jsonExact (ofZ c) && jsonExact (ofZ t)
  && negb (gt (ofZ c) (ofZ t) || lt (ofZ c) (ofZ 0) || lt (ofZ t) (ofZ 1)).

(** The request object of a category entry. *)
Definition categoryObject (entry : string * QuizManager.categoryScore)
  : string * JsValue :=
  (fst entry,
   JObject [("correct", JNumber (ofZ (QuizManager.correct (snd entry))));
            ("total", JNumber (ofZ (QuizManager.total (snd entry))))]).

(** ** Local statistics of attempts *)

(** The entry [recordAttempt] pushes. *)
Definition attemptOf (date : string) (results : QuizManager.results)
  : QuizStatistics.attempt :=
  {| QuizStatistics.score := QuizManager.score results;
     QuizStatistics.correctAnswers := QuizManager.resultCorrectAnswers results;
     QuizStatistics.totalQuestions := QuizManager.totalQuestions results;
     QuizStatistics.timeTaken := QuizManager.timeTaken results;
     QuizStatistics.date := date;
     QuizStatistics.categoryScores := QuizManager.resultCategoryScores results |}.

(** The last [n] elements of a list. *)
Definition lastN {A : Type} (n : nat) (l : list A) : list A :=
  drop (length l - n) l.

(** The average [getImprovementTrend] takes of a slice. *)
Definition sliceAverage (arr : list QuizStatistics.attempt) : number :=
  div (QuizStatistics.sumOfScores arr) (ofZ (Z.of_nat (length arr))).

(** ** Stored results of a period *)



(* ===================================================================== *)
(** * Properties *)
(* ===================================================================== *)

(** ** The Number model on sample values *)

Example round_half_goes_up : round (div (ofZ 5) (ofZ 2)) = ofZ 3.
Proof. vm_compute. reflexivity. Qed.

Example round_negative_half_goes_up : round (div (ofZ (-5)) (ofZ 2)) = ofZ (-2).
Proof. vm_compute. reflexivity. Qed.

Example round_small_negative_is_negative_zero :
  round (div (ofZ (-1)) (ofZ 4)) = S754_zero true.
Proof. vm_compute. reflexivity. Qed.

Example round_below_half_is_zero : round (div (ofZ 49) (ofZ 100)) = ofZ 0.
Proof. vm_compute. reflexivity. Qed.

Example zero_by_zero_is_NaN : div (ofZ 0) (ofZ 0) = NaN.
Proof. reflexivity. Qed.

Example half_is_not_an_integer :
  isInteger (div (ofZ 5) (ofZ 2)) = false ∧ isInteger (ofZ 100) = true.
Proof. split; vm_compute; reflexivity. Qed.

Example option_lookup :
  elementAt ["a"; "b"; "c"] (ofZ 1) = JString "b"
  ∧ elementAt ["a"; "b"; "c"] (ofZ 7) = JUndefined
  ∧ elementAt ["a"; "b"; "c"] NaN = JUndefined.
Proof. repeat split. Qed.

(** ** Checking a predicate on every integer of a range *)

Lemma forallb_seqZ (f : Z → bool) (lo len : Z) :
  forallb f (seqZ lo len) = true → ∀ z, lo ≤ z < lo + len → f z = true.
Proof.
  intros Hall z Hz.
  rewrite forallb_forall in Hall.
  apply Hall, list_elem_of_In, elem_of_seqZ. lia.
Qed.

(** ** Performance messages *)

Lemma getPerformanceMessage_agree (x : number) :
  QuizResult.getPerformanceMessage x = JString (QuizManager.getPerformanceMessage x).
Proof.
  unfold QuizResult.getPerformanceMessage, getPerformanceLevel,
    QuizManager.getPerformanceMessage.
  destruct (ge x (ofZ 90)); [reflexivity|].
  destruct (ge x (ofZ 80)); [reflexivity|].
  destruct (ge x (ofZ 70)); [reflexivity|].
  destruct (ge x (ofZ 60)); reflexivity.
Qed.

Lemma getPerformanceLevel_threshold (z : Z) :
  0 ≤ z ≤ 100 → getPerformanceLevel (ofZ z) = thresholdLevel z.
Proof.
  intros Hz. apply String.eqb_eq.
  apply (forallb_seqZ
           (fun z => String.eqb (getPerformanceLevel (ofZ z)) (thresholdLevel z))
           0 101); [vm_compute; reflexivity | lia].
Qed.

(** C9. For every integer score in [0,100] the client's
    [getPerformanceMessage] and the model's [getPerformanceMessage] (through
    [getPerformanceLevel]) give the same message, the level being decided
    by the thresholds 90, 80, 70 and 60 on both sides. *)
Theorem performance_messages_agree (z : Z) :
  0 ≤ z ≤ 100 →
  QuizResult.getPerformanceMessage (ofZ z)
    = JString (QuizManager.getPerformanceMessage (ofZ z))
  ∧ getPerformanceLevel (ofZ z) = thresholdLevel z
  ∧ JString (QuizManager.getPerformanceMessage (ofZ z))
    = lookupProp messages (thresholdLevel z).
Proof.
  intros Hz. split; [apply getPerformanceMessage_agree|].
  split; [apply getPerformanceLevel_threshold; assumption|].
  rewrite <- getPerformanceMessage_agree.
  unfold QuizResult.getPerformanceMessage.
  rewrite getPerformanceLevel_threshold by assumption. reflexivity.
Qed.

Lemma performance_messages_agree_witness :
  0 ≤ 85 ≤ 100
  ∧ QuizManager.getPerformanceMessage (ofZ 85)
    = "Excellent work! You have great environmental knowledge! 🌱"
  ∧ QuizResult.getPerformanceMessage (ofZ 85)
    = JString (QuizManager.getPerformanceMessage (ofZ 85)).
Proof.
  split; [lia|]. split; [reflexivity|].
  apply (performance_messages_agree 85). lia.
Defined.

(** ** Score distribution *)

Lemma bucketOf_below_100 (s : Z) :
  0 ≤ s < 100 → bucketOf scoreBoundaries "other" s = Lower (20 * (s / 20)).
Proof.
  intros Hs.
  assert (H : bucketIdEqb (bucketOf scoreBoundaries "other" s) (Lower (20 * (s / 20))) = true).
  { apply (forallb_seqZ
             (fun s => bucketIdEqb (bucketOf scoreBoundaries "other" s)
                                   (Lower (20 * (s / 20)))) 0 100);
      [vm_compute; reflexivity | lia]. }
  destruct (bucketOf scoreBoundaries "other" s) as [b|l]; simpl in H; [|discriminate].
  apply Z.eqb_eq in H. congruence.
Qed.

(** C6, at the score 100. The [$bucket] stage puts a document whose score
    is exactly 100 in the [default] bucket ['other'], not in the bucket
    that starts at 80: the last boundary, 100, is an exclusive upper
    bound. *)
Theorem perfect_score_in_default_bucket :
  bucketOf scoreBoundaries "other" 100 = Default "other"
  ∧ getScoreDistribution [mkDocument 100 10 10 (Some 95) 0]
    = [mkBucketRow (Default "other") 1 (Some (ofZ 95))]
  ∧ bucketOf scoreBoundaries "other" 99 = Lower 80.
Proof. split; [|split]; vm_compute; reflexivity. Qed.

(** ** Leaderboard *)

Lemma timeLeb_spec (a b : option Z) : timeLeb a b = true ↔ timeLe a b.
Proof.
  destruct a as [x|], b as [y|]; simpl; try (intuition congruence).
  apply Z.leb_le.
Qed.

Lemma sortsBefore_spec (a b : document) :
  sortsBefore a b = true
  ↔ QuizResult.score b < QuizResult.score a
    ∨ (QuizResult.score a = QuizResult.score b
       ∧ timeLe (QuizResult.timeTaken a) (QuizResult.timeTaken b)).
Proof.
  unfold sortsBefore.
  rewrite orb_true_iff, andb_true_iff, Z.ltb_lt, Z.eqb_eq, timeLeb_spec.
  reflexivity.
Qed.

#[local] Instance leaderboardOrder_total : Total leaderboardOrder.
Proof.
  intros a b. unfold leaderboardOrder. rewrite !sortsBefore_spec.
  destruct (QuizResult.timeTaken a), (QuizResult.timeTaken b); simpl; lia.
Qed.

#[local] Instance leaderboardOrder_trans : Transitive leaderboardOrder.
Proof.
  intros a b c. unfold leaderboardOrder. rewrite !sortsBefore_spec.
  destruct (QuizResult.timeTaken a), (QuizResult.timeTaken b),
    (QuizResult.timeTaken c); simpl; lia.
Qed.

Lemma elem_of_addRanking (i : Z) (l : list document) (e : entry) :
  e ∈ addRanking i l →
  ∃ d, d ∈ l
       ∧ entryScore e = QuizResult.score d
       ∧ entryTimeTaken e = QuizResult.timeTaken d
       ∧ entryCorrectAnswers e = QuizResult.correctAnswers d
       ∧ entryTotalQuestions e = QuizResult.totalQuestions d
       ∧ entryCompletedAt e = QuizResult.completedAt d.
Proof.
  revert i. induction l as [|d l IH]; intros i He; simpl in He.
  - inversion He.
  - apply elem_of_cons in He as [-> | He].
    + exists d. simpl. split; [left|]; auto.
    + destruct (IH _ He) as (d' & Hd' & Hrest).
      exists d'. split; [right; assumption | assumption].
Qed.

Lemma addRanking_sorted (i : Z) (l : list document) :
  StronglySorted leaderboardOrder l → StronglySorted entryOrder (addRanking i l).
Proof.
  intros Hs. revert i.
  induction Hs as [|d l Hs IH Hd]; intros i; simpl; constructor.
  - apply IH.
  - apply Forall_forall. intros e He.
    destruct (elem_of_addRanking _ _ _ He) as (d' & Hd' & Hsc & Htm & _).
    rewrite Forall_forall in Hd. specialize (Hd _ Hd').
    apply sortsBefore_spec in Hd.
    unfold entryOrder. simpl. rewrite Hsc, Htm. exact Hd.
Qed.

Lemma addRanking_ranks (i : Z) (l : list document) :
  map rank (addRanking i l) = seqZ (i + 1) (Z.of_nat (length l)).
Proof.
  revert i. induction l as [|d l IH]; intros i.
  - reflexivity.
  - cbn [addRanking map length]. rewrite IH.
    rewrite Nat2Z.inj_succ.
    rewrite (seqZ_cons (i + 1)) by lia.
    f_equal. f_equal; lia.
Qed.

Lemma limitTo_sorted {A : Type} (R : relation A) (n : nat) (l : list A) :
  StronglySorted R l → StronglySorted R (limitTo n l).
Proof.
  intros Hs. destruct n as [|n]; [exact Hs|].
  unfold limitTo.
  rewrite <- (take_drop (S n) l) in Hs.
  eapply StronglySorted_app_1_l. exact Hs.
Qed.

Lemma limitTo_subseteq {A : Type} (n : nat) (l : list A) (x : A) :
  x ∈ limitTo n l → x ∈ l.
Proof.
  destruct n as [|n]; [trivial|].
  unfold limitTo. intros Hx.
  rewrite <- (take_drop (S n) l). apply elem_of_app. left. exact Hx.
Qed.

Lemma leaderboardQuery_sorted now limit period collection :
  StronglySorted leaderboardOrder (leaderboardQuery now limit period collection).
Proof.
  unfold leaderboardQuery. apply limitTo_sorted.
  apply StronglySorted_merge_sort; apply _.
Qed.

Lemma leaderboardQuery_elem now limit period collection d :
  d ∈ leaderboardQuery now limit period collection →
  d ∈ collection ∧ matchesFilter (dateFilter now period) d = true.
Proof.
  unfold leaderboardQuery. intros Hd.
  apply limitTo_subseteq in Hd.
  rewrite merge_sort_Permutation in Hd.
  apply list_elem_of_filter in Hd. tauto.
Qed.

(** With no limit the query keeps every document that passes the date
    filter. *)
Lemma leaderboardQuery_all now period collection :
  leaderboardQuery now 0 period collection
    ≡ₚ filter (fun d => matchesFilter (dateFilter now period) d = true) collection.
Proof. unfold leaderboardQuery. simpl. apply merge_sort_Permutation. Qed.

(** C7. For every collection of stored results the leaderboard is ordered
    by score descending, ties broken by time ascending; its ranks count
    from 1; its entries are stored results; and of two results scoring 80
    with times 120 and 90 seconds the 90-second one comes first. *)
Theorem leaderboard_ordered (now : Z) (limit : nat) (period : string)
    (collection : list document) :
  StronglySorted entryOrder (getLeaderboard now limit period collection)
  ∧ map rank (getLeaderboard now limit period collection)
    = seqZ 1 (Z.of_nat (length (leaderboardQuery now limit period collection)))
  ∧ (∀ e, e ∈ getLeaderboard now limit period collection →
          ∃ d, d ∈ collection
               ∧ entryScore e = QuizResult.score d
               ∧ entryTimeTaken e = QuizResult.timeTaken d)
  ∧ getLeaderboard 0 10 "all"
      [mkDocument 80 8 10 (Some 120) 0; mkDocument 80 8 10 (Some 90) 0]
    = [mkEntry 1 80 8 10 (Some 90) 0; mkEntry 2 80 8 10 (Some 120) 0].
Proof.
  unfold getLeaderboard. split; [|split; [|split]].
  - apply addRanking_sorted, leaderboardQuery_sorted.
  - apply addRanking_ranks.
  - intros e He.
    destruct (elem_of_addRanking _ _ _ He) as (d & Hd & Hsc & Htm & _).
    apply leaderboardQuery_elem in Hd as [Hd _].
    exists d. auto.
  - vm_compute. reflexivity.
Qed.

(** ** Structural checks of the submission validator *)

(** Each check leaves [errors] alone when its field is sound, and sets the
    field's key when it is not. *)

(** Case analysis on the tests of a check. *)
Ltac split_tests :=
  repeat match goal with
    | H : context [isInteger ?x] |- _ => destruct (isInteger x); simpl in *
    | H : context [lt ?x ?y] |- _ => destruct (lt x y); simpl in *
    | H : context [gt ?x ?y] |- _ => destruct (gt x y); simpl in *
    | H : context [exceedsTotal ?x ?y] |- _ => destruct (exceedsTotal x y); simpl in *
    end;
  try discriminate; eauto.

Lemma checkScore_sound v (errors : gmap string string) :
  scoreViolation v = false → checkScore v errors = errors.
Proof.
  intros H. destruct v; simpl in *; try discriminate.
  unfold integerWithin in H. split_tests.
Qed.

Lemma checkScore_violation v (errors : gmap string string) :
  scoreViolation v = true → ∃ msg, checkScore v errors = <["score" := msg]> errors.
Proof.
  intros H. destruct v; simpl in *; eauto.
  unfold integerWithin in H. split_tests.
Qed.

Lemma checkTotalQuestions_sound v (errors : gmap string string) :
  totalQuestionsViolation v = false → checkTotalQuestions v errors = errors.
Proof.
  intros H. destruct v; simpl in *; try discriminate.
  unfold integerWithin in H. split_tests.
Qed.

Lemma checkTotalQuestions_violation v (errors : gmap string string) :
  totalQuestionsViolation v = true →
  ∃ msg, checkTotalQuestions v errors = <["totalQuestions" := msg]> errors.
Proof.
  intros H. destruct v; simpl in *; eauto.
  unfold integerWithin in H. split_tests.
Qed.

Lemma checkCorrectAnswers_sound v t (errors : gmap string string) :
  correctAnswersViolation v t = false → checkCorrectAnswers v t errors = errors.
Proof.
  intros H. destruct v; simpl in *; try discriminate. split_tests.
Qed.

Lemma checkCorrectAnswers_violation v t (errors : gmap string string) :
  correctAnswersViolation v t = true →
  ∃ msg, checkCorrectAnswers v t errors = <["correctAnswers" := msg]> errors.
Proof.
  intros H. destruct v; simpl in *; eauto. split_tests.
Qed.

Lemma checkTimeTaken_sound v (errors : gmap string string) :
  timeTakenViolation v = false → checkTimeTaken v errors = errors.
Proof.
  unfold timeTakenViolation, checkTimeTaken.
  intros H. destruct v; simpl in *; try discriminate; try reflexivity.
  unfold integerWithin in H. split_tests.
Qed.

Lemma checkTimeTaken_violation v (errors : gmap string string) :
  timeTakenViolation v = true →
  ∃ msg, checkTimeTaken v errors = <["timeTaken" := msg]> errors.
Proof.
  unfold timeTakenViolation, checkTimeTaken.
  intros H. destruct v; simpl in *; try discriminate; eauto.
  unfold integerWithin in H. split_tests.
Qed.

Lemma checkCategoryEntries_sound entries (errors : gmap string string) :
  existsb badCategoryEntry entries = false →
  checkCategoryEntries entries errors = errors.
Proof.
  induction entries as [|[category stats] rest IH]; simpl; [reflexivity|].
  intros H. apply orb_false_iff in H as [Hbad Hrest].
  unfold badCategoryEntry in Hbad. simpl in Hbad.
  destruct (negb (truthy stats) || negb (String.eqb (typeof stats) "object"));
    simpl in Hbad; [discriminate|].
  destruct (getProp stats "correct"); try discriminate.
  destruct (getProp stats "total"); try discriminate.
  rewrite Hbad. apply IH, Hrest.
Qed.

Lemma checkCategoryEntries_violation entries (errors : gmap string string) :
  existsb badCategoryEntry entries = true →
  ∃ msg, checkCategoryEntries entries errors = <["categories" := msg]> errors.
Proof.
  induction entries as [|[category stats] rest IH]; simpl; [discriminate|].
  intros H. unfold badCategoryEntry in H. simpl in H.
  destruct (negb (truthy stats) || negb (String.eqb (typeof stats) "object"));
    simpl in H; eauto.
  destruct (getProp stats "correct"); eauto.
  destruct (getProp stats "total"); eauto.
  destruct (gt x x0 || lt x (ofZ 0) || lt x0 (ofZ 1)); simpl in H; eauto.
Qed.

Lemma checkCategories_sound v (errors : gmap string string) :
  categoriesViolation v = false → checkCategories v errors = errors.
Proof.
  unfold categoriesViolation, checkCategories.
  destruct (present v); simpl; [|reflexivity].
  intros H. apply orb_false_iff in H as [Hobj Hentries].
  rewrite Hobj. apply checkCategoryEntries_sound, Hentries.
Qed.

Lemma checkCategories_violation v (errors : gmap string string) :
  categoriesViolation v = true →
  ∃ msg, checkCategories v errors = <["categories" := msg]> errors.
Proof.
  unfold categoriesViolation, checkCategories.
  destruct (present v); simpl; [|intros H; discriminate H].
  destruct (negb (String.eqb (typeof v) "object")); simpl; eauto.
  apply checkCategoryEntries_violation.
Qed.

(** Every check either keeps [errors] or sets one key: no key is lost. *)

Lemma extends_keeps f (errors : gmap string string) key :
  extends f → is_Some (errors !! key) → is_Some (f errors !! key).
Proof.
  intros Hf Hk. destruct (Hf errors) as [-> | (k & msg & ->)]; [assumption|].
  apply lookup_insert_is_Some'. right. assumption.
Qed.

Lemma checkScore_extends v : extends (checkScore v).
Proof.
  intros errors. destruct (scoreViolation v) eqn:E.
  - right. destruct (checkScore_violation v errors E) as [msg ->]. eauto.
  - left. apply checkScore_sound, E.
Qed.

Lemma checkTotalQuestions_extends v : extends (checkTotalQuestions v).
Proof.
  intros errors. destruct (totalQuestionsViolation v) eqn:E.
  - right. destruct (checkTotalQuestions_violation v errors E) as [msg ->]. eauto.
  - left. apply checkTotalQuestions_sound, E.
Qed.

Lemma checkCorrectAnswers_extends v t : extends (checkCorrectAnswers v t).
Proof.
  intros errors. destruct (correctAnswersViolation v t) eqn:E.
  - right. destruct (checkCorrectAnswers_violation v t errors E) as [msg ->]. eauto.
  - left. apply checkCorrectAnswers_sound, E.
Qed.

Lemma crossCheck_extends s t c : extends (crossCheck s t c).
Proof.
  intros errors. unfold crossCheck.
  destruct s as [| | |s| | |]; try (left; reflexivity).
  destruct t as [| | |t| | |]; try (left; reflexivity).
  destruct c as [| | |c| | |]; try (left; reflexivity).
  destruct (scoreMismatch s c t); [right; eauto | left; reflexivity].
Qed.

Lemma checkTimeTaken_extends v : extends (checkTimeTaken v).
Proof.
  intros errors. destruct (timeTakenViolation v) eqn:E.
  - right. destruct (checkTimeTaken_violation v errors E) as [msg ->]. eauto.
  - left. apply checkTimeTaken_sound, E.
Qed.

Lemma checkCategories_extends v : extends (checkCategories v).
Proof.
  intros errors. destruct (categoriesViolation v) eqn:E.
  - right. destruct (checkCategories_violation v errors E) as [msg ->]. eauto.
  - left. apply checkCategories_sound, E.
Qed.

Create HintDb checks.
#[local] Hint Resolve checkScore_extends checkTotalQuestions_extends
  checkCorrectAnswers_extends crossCheck_extends checkTimeTaken_extends
  checkCategories_extends : checks.

Lemma insert_is_Some (errors : gmap string string) key msg :
  is_Some (<[key := msg]> errors !! key).
Proof. apply lookup_insert_is_Some'. left. reflexivity. Qed.

Lemma collectErrors_reports (body : JsValue) (field : string) :
  violates body field = true → is_Some (collectErrors body !! field).
Proof.
  unfold violates, collectErrors. intros H.
  destruct (String.eqb_spec field "score") as [E | _].
  { subst field. do 5 (apply extends_keeps; [solve [auto with checks]|]).
    destruct (checkScore_violation _ ∅ H) as [msg ->]. apply insert_is_Some. }
  destruct (String.eqb_spec field "totalQuestions") as [E | _].
  { subst field. do 4 (apply extends_keeps; [solve [auto with checks]|]).
    match goal with
    | |- is_Some (checkTotalQuestions _ ?e !! _) =>
        destruct (checkTotalQuestions_violation _ e H) as [msg ->]
    end.
    apply insert_is_Some. }
  destruct (String.eqb_spec field "correctAnswers") as [E | _].
  { subst field. do 3 (apply extends_keeps; [solve [auto with checks]|]).
    match goal with
    | |- is_Some (checkCorrectAnswers _ _ ?e !! _) =>
        destruct (checkCorrectAnswers_violation _ _ e H) as [msg ->]
    end.
    apply insert_is_Some. }
  destruct (String.eqb_spec field "timeTaken") as [E | _].
  { subst field. do 1 (apply extends_keeps; [solve [auto with checks]|]).
    match goal with
    | |- is_Some (checkTimeTaken _ ?e !! _) =>
        destruct (checkTimeTaken_violation _ e H) as [msg ->]
    end.
    apply insert_is_Some. }
  destruct (String.eqb_spec field "categories") as [E | _]; [subst field|discriminate].
  match goal with
  | |- is_Some (checkCategories _ ?e !! _) =>
      destruct (checkCategories_violation _ e H) as [msg ->]
  end.
  apply insert_is_Some.
Qed.

Lemma validateQuizSubmission_rejects (body : JsValue) (field : string) :
  is_Some (collectErrors body !! field) →
  validateQuizSubmission body = Status400 (collectErrors body).
Proof.
  intros [msg Hmsg]. unfold validateQuizSubmission. cbv zeta.
  destruct (size (collectErrors body)) eqn:Hsize; [|reflexivity].
  apply map_size_empty_iff in Hsize. rewrite Hsize in Hmsg.
  rewrite lookup_empty in Hmsg. discriminate.
Qed.


(** ** Integers as Numbers *)

(** The facts below are about binary64 arithmetic on small integers: how
    an integer converts to a Number, and which Numbers pass the integer
    and range tests of the validator. *)

Lemma digits2_pos_bounds (p : positive) :
  2 ^ (Z.pos (digits2_pos p) - 1) ≤ Z.pos p < 2 ^ Z.pos (digits2_pos p).
Proof.
  induction p as [p IH|p IH|]; simpl digits2_pos.
  - rewrite Pos2Z.inj_succ.
    replace (Z.succ (Z.pos (digits2_pos p)) - 1) with (Z.succ (Z.pos (digits2_pos p) - 1)) by lia.
    rewrite !Z.pow_succ_r by lia. lia.
  - rewrite Pos2Z.inj_succ.
    replace (Z.succ (Z.pos (digits2_pos p)) - 1) with (Z.succ (Z.pos (digits2_pos p) - 1)) by lia.
    rewrite !Z.pow_succ_r by lia. lia.
  - simpl. lia.
Qed.

Lemma fexp_eq (k : Z) : fexp prec emax k = Z.max (k - 53) (-1074).
Proof. reflexivity. Qed.

Lemma shr_1_m (mrs : shr_record) :
  0 ≤ shr_m mrs → shr_m (shr_1 mrs) = Z.div2 (shr_m mrs).
Proof.
  destruct mrs as [m r s]. simpl. intros Hm.
  destruct m as [|[p|p|]|p]; try reflexivity; lia.
Qed.

Lemma iter_pos_shr_m (n : positive) :
  ∀ mrs, 0 ≤ shr_m mrs →
         shr_m (SpecFloat.iter_pos shr_1 n mrs) = Z.shiftr (shr_m mrs) (Z.pos n).
Proof.
  induction n as [n IH|n IH|]; intros mrs Hm; simpl SpecFloat.iter_pos.
  - assert (H1 : 0 ≤ shr_m (shr_1 mrs)).
    { rewrite shr_1_m by assumption. apply Z.div2_nonneg. assumption. }
    assert (H2 : 0 ≤ shr_m (SpecFloat.iter_pos shr_1 n (shr_1 mrs))).
    { rewrite IH by assumption. apply Z.shiftr_nonneg. assumption. }
    rewrite IH by assumption. rewrite IH by assumption.
    rewrite shr_1_m by assumption.
    rewrite Z.div2_spec. rewrite !Z.shiftr_shiftr by lia.
    f_equal. lia.
  - assert (H2 : 0 ≤ shr_m (SpecFloat.iter_pos shr_1 n mrs)).
    { rewrite IH by assumption. apply Z.shiftr_nonneg. assumption. }
    rewrite IH by assumption. rewrite IH by assumption.
    rewrite !Z.shiftr_shiftr by lia. f_equal. lia.
  - rewrite shr_1_m by assumption. apply Z.div2_spec.
Qed.

Lemma shiftr_pos (p : positive) (n : Z) :
  0 ≤ n < Z.pos (digits2_pos p) → 0 < Z.shiftr (Z.pos p) n.
Proof.
  intros Hn. rewrite Z.shiftr_div_pow2 by lia.
  pose proof (digits2_pos_bounds p) as [Hlo _].
  assert (Hpow : 2 ^ n ≤ 2 ^ (Z.pos (digits2_pos p) - 1)).
  { apply Z.pow_le_mono_r; lia. }
  assert (H2 : 0 < 2 ^ n) by (apply Z.pow_pos_nonneg; lia).
  apply Z.div_str_pos. lia.
Qed.

(** Shifting a positive mantissa to its exponent keeps it positive. *)
Lemma shr_fexp_pos (m e : Z) (l : location) :
  0 < m → -1074 ≤ e →
  0 < shr_m (fst (shr_fexp prec emax m e l)) ∧ e ≤ snd (shr_fexp prec emax m e l).
Proof.
  intros Hm He. unfold shr_fexp. rewrite fexp_eq.
  destruct m as [|p|p]; try lia. simpl Zdigits2.
  assert (Hrec : shr_m (shr_record_of_loc (Z.pos p) l) = Z.pos p).
  { destruct l as [|[| |]]; reflexivity. }
  unfold shr.
  destruct (Z.max (Z.pos (digits2_pos p) + e - 53) (-1074) - e) as [|n|n] eqn:Hshift;
    simpl; rewrite ?Hrec; try lia.
  rewrite iter_pos_shr_m by (rewrite Hrec; lia).
  rewrite Hrec. split; [|lia].
  apply shiftr_pos. lia.
Qed.

Lemma round_nearest_even_pos (m : Z) (l : location) :
  0 < m → 0 < round_nearest_even m l.
Proof.
  intros Hm. destruct l as [|[| |]]; simpl; try lia.
  destruct (Z.even m); lia.
Qed.

Lemma binary_round_aux_pos (sx : bool) (m e : Z) (l : location) :
  0 < m → -1074 ≤ e →
  (∃ m' e', binary_round_aux prec emax sx m e l = S754_finite sx m' e')
  ∨ binary_round_aux prec emax sx m e l = S754_infinity sx.
Proof.
  intros Hm He. unfold binary_round_aux.
  pose proof (shr_fexp_pos m e l Hm He) as [H1 H1e].
  destruct (shr_fexp prec emax m e l) as [mrs' e']. simpl in H1, H1e.
  pose proof (round_nearest_even_pos (shr_m mrs') (loc_of_shr_record mrs') H1) as H2.
  assert (He' : -1074 ≤ e') by lia.
  pose proof (shr_fexp_pos _ e' loc_Exact H2 He') as [H3 _].
  destruct (shr_fexp prec emax (round_nearest_even (shr_m mrs') (loc_of_shr_record mrs')) e' loc_Exact)
    as [mrs'' e''].
  simpl in H3.
  destruct (shr_m mrs'') as [|m'|m']; try lia.
  destruct (e'' <=? emax - prec); eauto.
Qed.

(** A positive integer converts to a positive finite Number or to
    +Infinity, never to zero or NaN. *)
Lemma ofZ_pos (p : positive) :
  (∃ m e, ofZ (Z.pos p) = S754_finite false m e)
  ∨ ofZ (Z.pos p) = S754_infinity false.
Proof.
  unfold ofZ, binary_normalize, binary_round.
  rewrite fexp_eq. unfold shl_align.
  destruct (Z.max (Z.pos (digits2_pos p) + 0 - 53) (-1074) - 0) as [|d|d] eqn:Hd.
  - apply binary_round_aux_pos; lia.
  - apply binary_round_aux_pos; lia.
  - apply binary_round_aux_pos; lia.
Qed.

Lemma numberEqb_eq (x y : number) : numberEqb x y = true → x = y.
Proof.
  destruct x as [a|a| |s m e], y as [b|b| |s' m' e']; simpl; try discriminate;
    try reflexivity.
  - intros H. apply Bool.eqb_prop in H. congruence.
  - intros H. apply Bool.eqb_prop in H. congruence.
  - intros H. apply andb_true_iff in H as [H He].
    apply andb_true_iff in H as [Hs Hm].
    apply Bool.eqb_prop in Hs. apply Pos.eqb_eq in Hm. apply Z.eqb_eq in He.
    congruence.
Qed.

Lemma memberOf_In (l : list number) (x : number) : memberOf l x = true → In x l.
Proof.
  unfold memberOf. intros H. apply existsb_exists in H as (y & Hy & Heq).
  apply numberEqb_eq in Heq. congruence.
Qed.

(** A valid integer-valued Number whose exponent is at most -46 is one of
    the integers 1..127. *)
Lemma small_integer_canonical (m : positive) (e : Z) :
  valid (S754_finite false m e) = true →
  isInteger (S754_finite false m e) = true →
  e ≤ -46 →
  In (S754_finite false m e) smallIntegers.
Proof.
  intros Hvalid Hint He.
  unfold valid, valid_binary, bounded, canonical_mantissa in Hvalid.
  apply andb_true_iff in Hvalid as [Hcanon _].
  apply Z.eqb_eq in Hcanon. rewrite fexp_eq in Hcanon.
  unfold isInteger in Hint.
  destruct (0 <=? e) eqn:He0; [apply Z.leb_le in He0; lia|].
  apply Z.eqb_eq in Hint.
  pose proof (digits2_pos_bounds m) as [Hlo Hhi].
  set (d := Z.pos (digits2_pos m)) in *.
  assert (Hd : 0 < d) by (unfold d; lia).
  assert (Hpow : 0 < 2 ^ (- e)) by (apply Z.pow_pos_nonneg; lia).
  assert (Hge : 2 ^ (- e) ≤ Z.pos m).
  { apply Z.mod_divide in Hint; [|lia].
    apply Z.divide_pos_le in Hint; lia. }
  assert (Hed : - e < d).
  { apply (Z.pow_lt_mono_r_iff 2); lia. }
  assert (Hd53 : d = 53) by lia.
  rewrite Hd53 in Hlo, Hhi.
  assert (Hk : Z.pos m = 2 ^ (- e) * (Z.pos m / 2 ^ (- e))).
  { apply Z_div_exact_full_2; lia. }
  set (k := Z.pos m / 2 ^ (- e)) in *.
  assert (Hm : m = Z.to_pos (2 ^ (- e) * k)).
  { rewrite <- Hk. symmetry. apply Pos2Z.id. }
  rewrite Hm. clear Hm.
  assert (Hcases : e = -52 ∨ e = -51 ∨ e = -50 ∨ e = -49 ∨ e = -48 ∨ e = -47 ∨ e = -46)
    by lia.
  apply memberOf_In.
  change (2 ^ (53 - 1)) with 4503599627370496 in Hlo.
  change (2 ^ 53) with 9007199254740992 in Hhi.
  destruct Hcases as [-> | [-> | [-> | [-> | [-> | [-> | ->]]]]]].
  - change (2 ^ (- -52)) with 4503599627370496 in *.
    apply (forallb_seqZ (fun k => memberOf smallIntegers
             (S754_finite false (Z.to_pos (4503599627370496 * k)) (-52))) 1 1);
      [vm_compute; reflexivity | lia].
  - change (2 ^ (- -51)) with 2251799813685248 in *.
    apply (forallb_seqZ (fun k => memberOf smallIntegers
             (S754_finite false (Z.to_pos (2251799813685248 * k)) (-51))) 2 2);
      [vm_compute; reflexivity | lia].
  - change (2 ^ (- -50)) with 1125899906842624 in *.
    apply (forallb_seqZ (fun k => memberOf smallIntegers
             (S754_finite false (Z.to_pos (1125899906842624 * k)) (-50))) 4 4);
      [vm_compute; reflexivity | lia].
  - change (2 ^ (- -49)) with 562949953421312 in *.
    apply (forallb_seqZ (fun k => memberOf smallIntegers
             (S754_finite false (Z.to_pos (562949953421312 * k)) (-49))) 8 8);
      [vm_compute; reflexivity | lia].
  - change (2 ^ (- -48)) with 281474976710656 in *.
    apply (forallb_seqZ (fun k => memberOf smallIntegers
             (S754_finite false (Z.to_pos (281474976710656 * k)) (-48))) 16 16);
      [vm_compute; reflexivity | lia].
  - change (2 ^ (- -47)) with 140737488355328 in *.
    apply (forallb_seqZ (fun k => memberOf smallIntegers
             (S754_finite false (Z.to_pos (140737488355328 * k)) (-47))) 32 32);
      [vm_compute; reflexivity | lia].
  - change (2 ^ (- -46)) with 70368744177664 in *.
    apply (forallb_seqZ (fun k => memberOf smallIntegers
             (S754_finite false (Z.to_pos (70368744177664 * k)) (-46))) 64 64);
      [vm_compute; reflexivity | lia].
Qed.

Lemma forallb_In {A : Type} (f : A → bool) (l : list A) (x : A) :
  forallb f l = true → In x l → f x = true.
Proof. intros H. rewrite forallb_forall in H. apply H. Qed.

Lemma lt_zero_false (s : bool) (m : positive) (e : Z) :
  lt (S754_finite s m e) (ofZ 0) = false → s = false.
Proof. destruct s; [discriminate|reflexivity]. Qed.

(** [x > y] false, for positive finite Numbers, bounds the exponent of [x]. *)
Lemma gt_false_exponent (m m' : positive) (e e' : Z) :
  gt (S754_finite false m e) (S754_finite false m' e') = false → e ≤ e'.
Proof.
  unfold gt, SFltb, SFcompare. intros H.
  destruct (e' ?= e) eqn:Hc; try discriminate.
  - apply Z.compare_eq in Hc. lia.
  - apply Z.compare_gt_iff in Hc. lia.
Qed.

Lemma integerWithin_score (x : number) :
  valid x = true → integerWithin 0 100 x = true → In x scoreNumbers.
Proof.
  unfold integerWithin. intros Hvalid H.
  apply andb_true_iff in H as [H Hgt]. apply andb_true_iff in H as [Hint Hlt].
  apply negb_true_iff in Hgt, Hlt.
  destruct x as [[|]| | |s m e]; try discriminate.
  - right. left. reflexivity.
  - left. reflexivity.
  - apply lt_zero_false in Hlt. subst s.
    assert (He : e ≤ -46) by (apply (gt_false_exponent _ _ _ _ Hgt)).
    pose proof (small_integer_canonical m e Hvalid Hint He) as Hin.
    apply memberOf_In.
    revert Hgt.
    generalize (forallb_In
      (fun x => if gt x (ofZ 100) then true else memberOf scoreNumbers x)
      smallIntegers (S754_finite false m e)
      ltac:(vm_compute; reflexivity) Hin).
    cbv beta. intros H1 H2. rewrite H2 in H1. exact H1.
Qed.

Lemma integerWithin_total (x : number) :
  valid x = true → integerWithin 1 50 x = true → In x totalNumbers.
Proof.
  unfold integerWithin. intros Hvalid H.
  apply andb_true_iff in H as [H Hgt]. apply andb_true_iff in H as [Hint Hlt].
  apply negb_true_iff in Hgt, Hlt.
  destruct x as [[|]| | |s m e]; try discriminate.
  destruct s; [discriminate|].
  assert (He' : e ≤ -47) by (apply (gt_false_exponent _ _ _ _ Hgt)).
  assert (He : e ≤ -46) by lia.
  pose proof (small_integer_canonical m e Hvalid Hint He) as Hin.
  apply memberOf_In.
  revert Hgt.
  generalize (forallb_In
    (fun x => if gt x (ofZ 50) then true else memberOf totalNumbers x)
    smallIntegers (S754_finite false m e)
    ltac:(vm_compute; reflexivity) Hin).
  cbv beta. intros H1 H2. rewrite H2 in H1. exact H1.
Qed.

Lemma total_exponent (t : number) :
  In t totalNumbers → ∃ m e, t = S754_finite false m e ∧ e ≤ -46.
Proof.
  intros Hin.
  pose proof (forallb_In
    (fun t => match t with
              | S754_finite false _ e => e <=? -46
              | _ => false
              end) totalNumbers t ltac:(vm_compute; reflexivity) Hin) as H.
  cbv beta in H. destruct t as [| | |[|] m e]; try discriminate.
  exists m, e. split; [reflexivity|]. apply Z.leb_le, H.
Qed.

Lemma integer_correct (x t : number) :
  valid x = true → isInteger x = true → lt x (ofZ 0) = false →
  In t totalNumbers → gt x t = false → In x scoreNumbers.
Proof.
  intros Hvalid Hint Hlt Ht Hgt.
  destruct x as [[|]| | |s m e]; try discriminate.
  - right. left. reflexivity.
  - left. reflexivity.
  - apply lt_zero_false in Hlt. subst s.
    destruct (total_exponent t Ht) as (mt & et & -> & Het).
    assert (He : e ≤ -46).
    { pose proof (gt_false_exponent _ _ _ _ Hgt). lia. }
    pose proof (small_integer_canonical m e Hvalid Hint He) as Hin.
    apply memberOf_In.
    pose proof (forallb_In
      (fun t => forallb (fun x => if gt x t then true else memberOf scoreNumbers x)
                        smallIntegers)
      totalNumbers _ ltac:(vm_compute; reflexivity) Ht) as H1.
    cbv beta in H1.
    pose proof (forallb_In _ _ _ H1 Hin) as H2. cbv beta in H2.
    rewrite Hgt in H2. exact H2.
Qed.

(** The recomputed score of a structurally sound payload is again an
    integer in [0,100]. *)
Lemma calculatedScore_range (c t : number) :
  In c scoreNumbers → In t totalNumbers → gt c t = false →
  In (calculatedScore c t) scoreNumbers.
Proof.
  intros Hc Ht Hgt. apply memberOf_In.
  pose proof (forallb_In
    (fun t => forallb (fun c => if gt c t then true
                               else memberOf scoreNumbers (calculatedScore c t))
                      scoreNumbers)
    totalNumbers _ ltac:(vm_compute; reflexivity) Ht) as H1.
  cbv beta in H1.
  pose proof (forallb_In _ _ _ H1 Hc) as H2. cbv beta in H2.
  rewrite Hgt in H2. exact H2.
Qed.

(** On integers in [0,100] the test [Math.abs(s - r) > 1] is the test on
    the integers. *)
Lemma mismatch_integers (s r : number) :
  In s scoreNumbers → In r scoreNumbers →
  gt (abs (sub s r)) (ofZ 1) = negb (Z.abs (toZ s - toZ r) <=? 1).
Proof.
  intros Hs Hr.
  pose proof (forallb_In
    (fun s => forallb (fun r => Bool.eqb (gt (abs (sub s r)) (ofZ 1))
                                          (negb (Z.abs (toZ s - toZ r) <=? 1)))
                      scoreNumbers)
    scoreNumbers _ ltac:(vm_compute; reflexivity) Hs) as H1.
  cbv beta in H1.
  pose proof (forallb_In _ _ _ H1 Hr) as H2. cbv beta in H2.
  apply Bool.eqb_prop in H2. exact H2.
Qed.

(** ** The score cross-check *)

(** Away from one pair, the recomputed score is the exact quotient rounded
    half up; at 23 correct answers out of 40 the doubles give
    57.49999999999999 and the recomputed score is 57, where the exact
    quotient 57.5 would round to 58. *)
Lemma calculatedScore_exact (c t : Z) :
  1 ≤ t ≤ 50 → 0 ≤ c ≤ t → ¬ (c = 23 ∧ t = 40) →
  toZ (calculatedScore (ofZ c) (ofZ t)) = (200 * c + t) / (2 * t).
Proof.
  intros Ht Hc Hne.
  pose proof (forallb_seqZ
    (fun t => forallb
       (fun c => if (c <=? t) && negb ((c =? 23) && (t =? 40))
                 then toZ (calculatedScore (ofZ c) (ofZ t)) =? (200 * c + t) / (2 * t)
                 else true)
       (seqZ 0 51)) 1 50 ltac:(vm_compute; reflexivity) t ltac:(lia)) as H1.
  cbv beta in H1.
  pose proof (forallb_seqZ _ 0 51 H1 c ltac:(lia)) as H2. cbv beta in H2.
  destruct (c <=? t) eqn:Hct; [|apply Z.leb_gt in Hct; lia].
  destruct ((c =? 23) && (t =? 40)) eqn:Hp.
  - apply andb_true_iff in Hp as [H23 H40].
    apply Z.eqb_eq in H23, H40. tauto.
  - simpl in H2. apply Z.eqb_eq in H2. exact H2.
Qed.

Example calculatedScore_23_of_40 :
  toZ (calculatedScore (ofZ 23) (ofZ 40)) = 57 ∧ (200 * 23 + 40) / (2 * 40) = 58.
Proof. split; vm_compute; reflexivity. Qed.

Lemma collectErrors_structural (body : JsValue) :
  structuralChecksPass body →
  collectErrors body
  = crossCheck (getProp body "score") (getProp body "totalQuestions")
               (getProp body "correctAnswers") ∅.
Proof.
  intros (Hs & Ht & Hc & Htime & Hcat).
  change (scoreViolation (getProp body "score") = false) in Hs.
  change (totalQuestionsViolation (getProp body "totalQuestions") = false) in Ht.
  change (correctAnswersViolation (getProp body "correctAnswers")
            (getProp body "totalQuestions") = false) in Hc.
  change (timeTakenViolation (getProp body "timeTaken") = false) in Htime.
  change (categoriesViolation (getProp body "categories") = false) in Hcat.
  unfold collectErrors. cbv zeta.
  rewrite (checkCategories_sound _ _ Hcat), (checkTimeTaken_sound _ _ Htime).
  rewrite (checkScore_sound _ _ Hs), (checkTotalQuestions_sound _ _ Ht).
  rewrite (checkCorrectAnswers_sound _ _ _ Hc). reflexivity.
Qed.

Lemma scoreMismatch_integers (s t c : number) :
  valid s = true → valid t = true → valid c = true →
  scoreViolation (JNumber s) = false →
  totalQuestionsViolation (JNumber t) = false →
  correctAnswersViolation (JNumber c) (JNumber t) = false →
  scoreMismatch s c t
  = negb (Z.abs (toZ s - toZ (round (mul (div c t) (ofZ 100)))) <=? 1).
Proof.
  intros Vs Vt Vc Hs Ht Hc. simpl in Hs, Ht, Hc.
  apply negb_false_iff in Hs, Ht, Hc.
  apply andb_true_iff in Hc as [Hc Hgt]. apply andb_true_iff in Hc as [Hint Hlt].
  apply negb_true_iff in Hgt, Hlt.
  pose proof (integerWithin_score s Vs Hs) as Is.
  pose proof (integerWithin_total t Vt Ht) as It.
  pose proof (integer_correct c t Vc Hint Hlt It Hgt) as Ic.
  pose proof (calculatedScore_range c t Ic It Hgt) as Ir.
  exact (mismatch_integers s (calculatedScore c t) Is Ir).
Qed.

(** C1. For a payload whose structural checks pass, the validator accepts
    exactly when the declared score is within 1 point of
    [round(correctAnswers / totalQuestions * 100)], and the [pre('save')]
    hook of the model decides the same way. *)
Theorem validator_accepts_iff_within_tolerance (body : JsValue) (s t c : number) :
  getProp body "score" = JNumber s →
  getProp body "totalQuestions" = JNumber t →
  getProp body "correctAnswers" = JNumber c →
  valid s = true → valid t = true → valid c = true →
  structuralChecksPass body →
  (validateQuizSubmission body = Next
   ↔ Z.abs (toZ s - toZ (round (mul (div c t) (ofZ 100)))) ≤ 1)
  ∧ (preSave s c t = None
     ↔ Z.abs (toZ s - toZ (round (mul (div c t) (ofZ 100)))) ≤ 1).
Proof.
  intros Es Et Ec Vs Vt Vc Hpass.
  pose proof (collectErrors_structural body Hpass) as Herr.
  destruct Hpass as (Hs & Ht & Hc & _).
  change (scoreViolation (getProp body "score") = false) in Hs.
  change (totalQuestionsViolation (getProp body "totalQuestions") = false) in Ht.
  change (correctAnswersViolation (getProp body "correctAnswers")
            (getProp body "totalQuestions") = false) in Hc.
  rewrite Es, Et, Ec in Herr. rewrite Es in Hs. rewrite Et in Ht. rewrite Ec, Et in Hc.
  pose proof (scoreMismatch_integers s t c Vs Vt Vc Hs Ht Hc) as Hmis.
  rewrite <- Z.leb_le.
  split.
  - unfold validateQuizSubmission. cbv zeta. rewrite Herr. unfold crossCheck.
    rewrite Hmis.
    destruct (Z.abs (toZ s - toZ (round (mul (div c t) (ofZ 100)))) <=? 1); simpl.
    + rewrite map_size_empty. simpl. tauto.
    + rewrite insert_empty, map_size_singleton. simpl.
      split; intros H; discriminate H.
  - unfold preSave. cbv zeta.
    change (gt (abs (sub s (round (mul (div c t) (ofZ 100))))) (ofZ 1))
      with (scoreMismatch s c t).
    rewrite Hmis.
    destruct (Z.abs (toZ s - toZ (round (mul (div c t) (ofZ 100)))) <=? 1); simpl.
    + tauto.
    + split; intros H; discriminate H.
Qed.

Lemma scenarioB_structural : structuralChecksPass scenarioB.
Proof. unfold structuralChecksPass. split; [|split; [|split; [|split]]]; reflexivity. Qed.

Lemma validator_accepts_iff_within_tolerance_witness :
  structuralChecksPass scenarioB
  ∧ (validateQuizSubmission scenarioB = Next
     ↔ Z.abs (toZ (ofZ 50) - toZ (round (mul (div (ofZ 2) (ofZ 4)) (ofZ 100)))) ≤ 1).
Proof.
  split; [exact scenarioB_structural|].
  apply (validator_accepts_iff_within_tolerance scenarioB (ofZ 50) (ofZ 4) (ofZ 2));
    try reflexivity.
  exact scenarioB_structural.
Defined.

Example scenarioB_accepted : validateQuizSubmission scenarioB = Next.
Proof. vm_compute. reflexivity. Qed.

Example scenarioC_rejected :
  ∃ errors, validateQuizSubmission scenarioC = Status400 errors
            ∧ is_Some (errors !! "score").
Proof.
  exists (collectErrors scenarioC). split.
  - apply (validateQuizSubmission_rejects scenarioC "score").
    vm_compute. eauto.
  - vm_compute. eauto.
Qed.




(** ** The client score calculator *)

(** *** Selecting an answer *)

Lemma answerFirst_normal (questionId answerIndex : number) (qs : list QuizQuestion.t) :
  ∃ qs', QuizManager.answerFirst questionId answerIndex qs = Normal qs'.
Proof.
  induction qs as [|q rest [rest' IH]]; simpl; eauto.
  destruct (strictEq (QuizQuestion.id q) questionId); eauto.
  rewrite IH. eauto.
Qed.

Lemma answerFirst_found (questionId answerIndex : number)
    (before after : list QuizQuestion.t) (q : QuizQuestion.t) :
  Forall (fun p => strictEq (QuizQuestion.id p) questionId = false) before →
  strictEq (QuizQuestion.id q) questionId = true →
  QuizManager.answerFirst questionId answerIndex (before ++ q :: after)
  = Normal (before ++
            QuizQuestion.mk (QuizQuestion.id q) (QuizQuestion.category q)
              (QuizQuestion.question q) (QuizQuestion.options q)
              (QuizQuestion.correctAnswer q) (QuizQuestion.explanation q)
              (QuizQuestion.difficulty q) (Some answerIndex) true :: after).
Proof.
  intros Hbefore Hq. induction Hbefore as [|p before Hp _ IH]; simpl.
  - rewrite Hq. reflexivity.
  - rewrite Hp, IH. reflexivity.
Qed.

Lemma answerFirst_missing (questionId answerIndex : number) (qs : list QuizQuestion.t) :
  Forall (fun p => strictEq (QuizQuestion.id p) questionId = false) qs →
  QuizManager.answerFirst questionId answerIndex qs = Normal qs.
Proof.
  intros H. induction H as [|p qs Hp _ IH]; simpl; [reflexivity|].
  rewrite Hp, IH. reflexivity.
Qed.

(** C4, as the code has it. [setUserAnswer] makes no range check: for every
    question and every index, valid or not, the call completes normally,
    sets [userAnswer] to the index and [isAnswered] to true, and leaves the
    rest of the question alone; [handleAnswerChange] does so on the first
    question with the given id, throws nothing, and keeps
    [currentQuestionIndex]. *)
Theorem selectAnswer_sets_any_index (this : QuizManager.t)
    (questionId answerIndex : number) (q : QuizQuestion.t) :
  (∃ q', QuizQuestion.setUserAnswer answerIndex q = Normal q'
         ∧ QuizQuestion.userAnswer q' = Some answerIndex
         ∧ QuizQuestion.isAnswered q' = true
         ∧ QuizQuestion.id q' = QuizQuestion.id q
         ∧ QuizQuestion.options q' = QuizQuestion.options q
         ∧ QuizQuestion.correctAnswer q' = QuizQuestion.correctAnswer q
         ∧ QuizQuestion.category q' = QuizQuestion.category q)
  ∧ (∃ this', QuizManager.handleAnswerChange questionId answerIndex this = Normal this'
              ∧ QuizManager.currentQuestionIndex this'
                = QuizManager.currentQuestionIndex this
              ∧ ∀ before after,
                  QuizManager.questions this = before ++ q :: after →
                  Forall (fun p => strictEq (QuizQuestion.id p) questionId = false) before →
                  strictEq (QuizQuestion.id q) questionId = true →
                  ∃ q', QuizQuestion.setUserAnswer answerIndex q = Normal q'
                        ∧ QuizManager.questions this' = before ++ q' :: after).
Proof.
  split.
  - eexists. split; [reflexivity|]. simpl. repeat split.
  - unfold QuizManager.handleAnswerChange.
    destruct (answerFirst_normal questionId answerIndex (QuizManager.questions this))
      as [qs' Hqs'].
    rewrite Hqs'. eexists. split; [reflexivity|]. split; [reflexivity|].
    intros before after Hsplit Hbefore Hq. simpl.
    rewrite Hsplit in Hqs'.
    rewrite (answerFirst_found _ _ _ _ _ Hbefore Hq) in Hqs'.
    injection Hqs' as <-. eexists. split; reflexivity.
Qed.

(** C4, as stated, fails: index 7 is not a valid index into the four
    options of the first question of the bank, and [setUserAnswer] and
    [handleAnswerChange] accept it without throwing. *)
Lemma selectAnswer_out_of_range_accepted :
  validOptionIndex firstQuestion (ofZ 7) = false
  ∧ QuizQuestion.setUserAnswer (ofZ 7) firstQuestion ≠ Throw "OutOfRangeError"
  ∧ QuizManager.handleAnswerChange (ofZ 1) (ofZ 7) startedManager
    ≠ Throw "OutOfRangeError"
  ∧ (∃ this', QuizManager.handleAnswerChange (ofZ 1) (ofZ 7) startedManager
              = Normal this'
              ∧ (QuizQuestion.userAnswer <$> head (QuizManager.questions this'))
                = Some (Some (ofZ 7))
              ∧ (QuizQuestion.isAnswered <$> head (QuizManager.questions this'))
                = Some true).
Proof.
  split; [vm_compute; reflexivity|].
  split; [discriminate|].
  split; [vm_compute; discriminate|].
  eexists. split; [vm_compute; reflexivity|]. split; reflexivity.
Qed.

(** *** Computing the results *)

Lemma countZ_nonneg f qs : 0 ≤ countZ f qs.
Proof. induction qs as [|q rest IH]; simpl; [lia|]. destruct (f q); lia. Qed.

Lemma categoryCorrect_le category qs :
  categoryCorrect category qs ≤ categoryTotal category qs.
Proof.
  unfold categoryCorrect, categoryTotal.
  induction qs as [|q rest IH]; simpl; [lia|].
  destruct (inCategory category q), (QuizQuestion.isCorrect q); simpl; lia.
Qed.

Lemma forEachQuestion_correctAnswers qs index acc :
  QuizManager.correctAnswers (QuizManager.forEachQuestion qs index acc)
  = QuizManager.correctAnswers acc + correctCount qs.
Proof.
  revert index acc. unfold correctCount.
  induction qs as [|q rest IH]; intros index acc; simpl; [lia|].
  rewrite IH. cbn [QuizManager.scoreQuestion QuizManager.correctAnswers]. destruct (QuizQuestion.isCorrect q); lia.
Qed.

Lemma forEachQuestion_detailedResults_length qs index acc :
  length (QuizManager.detailedResults (QuizManager.forEachQuestion qs index acc))
  = (length (QuizManager.detailedResults acc) + length qs)%nat.
Proof.
  revert index acc.
  induction qs as [|q rest IH]; intros index acc; simpl; [lia|].
  rewrite IH. simpl. rewrite length_app. simpl. lia.
Qed.

Lemma scoreCategory_lookup category isCorrect
    (scores : gmap string QuizManager.categoryScore) category' :
  QuizManager.scoreCategory category isCorrect scores !! category'
  = if String.eqb category category' then
      Some (QuizManager.mkCategoryScore
              (QuizManager.correct (default noScore (scores !! category))
               + (if isCorrect then 1 else 0))
              (QuizManager.total (default noScore (scores !! category)) + 1))
    else scores !! category'.
Proof.
  unfold QuizManager.scoreCategory.
  destruct (String.eqb_spec category category') as [<- | Hne].
  - destruct (scores !! category) as [old|] eqn:Hold; destruct isCorrect;
      rewrite ?lookup_alter_eq, ?lookup_insert_eq, ?Hold; simpl;
      unfold QuizManager.incrementCorrect, QuizManager.incrementTotal; simpl;
      repeat f_equal; lia.
  - destruct (scores !! category) as [old|] eqn:Hold; destruct isCorrect;
      rewrite ?lookup_alter_ne, ?lookup_insert_ne by assumption; reflexivity.
Qed.

(** After the loop, a category has an entry exactly when some item is in
    it; its [total] counts those items and its [correct] counts the ones
    that are correct. *)
Lemma forEachQuestion_categoryScores qs index acc category :
  QuizManager.categoryScores (QuizManager.forEachQuestion qs index acc) !! category
  = if categoryTotal category qs =? 0 then QuizManager.categoryScores acc !! category
    else
      Some (QuizManager.mkCategoryScore
              (QuizManager.correct
                 (default noScore (QuizManager.categoryScores acc !! category))
               + categoryCorrect category qs)
              (QuizManager.total
                 (default noScore (QuizManager.categoryScores acc !! category))
               + categoryTotal category qs)).
Proof.
  revert index acc.
  induction qs as [|q rest IH]; intros index acc; [reflexivity|].
  cbn [QuizManager.forEachQuestion]. rewrite IH. clear IH.
  cbn [QuizManager.scoreQuestion QuizManager.categoryScores].
  rewrite scoreCategory_lookup.
  pose proof (countZ_nonneg (inCategory category) rest) as Hnn.
  pose proof (categoryCorrect_le category rest) as Hle.
  pose proof (countZ_nonneg
                (fun q => inCategory category q && QuizQuestion.isCorrect q) rest) as Hcn.
  unfold categoryTotal, categoryCorrect in *. cbn [countZ].
  change (inCategory category q) with (String.eqb (QuizQuestion.category q) category).
  destruct (String.eqb (QuizQuestion.category q) category) eqn:Hcat; cbn [andb].
  - destruct (countZ (inCategory category) rest =? 0) eqn:Hz.
    + apply Z.eqb_eq in Hz.
      destruct (1 + countZ (inCategory category) rest =? 0) eqn:Hz';
        [apply Z.eqb_eq in Hz'; lia|].
      apply String.eqb_eq in Hcat. rewrite Hcat.
      f_equal. f_equal; destruct (QuizQuestion.isCorrect q); lia.
    + apply Z.eqb_neq in Hz.
      destruct (1 + countZ (inCategory category) rest =? 0) eqn:Hz';
        [apply Z.eqb_eq in Hz'; lia|].
      apply String.eqb_eq in Hcat. rewrite Hcat. cbn [default]. unfold id.
      cbn [QuizManager.correct QuizManager.total].
      f_equal. f_equal; destruct (QuizQuestion.isCorrect q); lia.
  - rewrite !Z.add_0_l. reflexivity.
Qed.

(** C5, as the code has it. [calculateResults] makes no emptiness check:
    on an empty question list it completes normally, with 0 correct
    answers out of 0 and the score NaN, the value of 0/0. *)
Theorem calculateResults_empty_bank (now : Z) (this : QuizManager.t) :
  QuizManager.questions this = [] →
  ∃ this' r,
    QuizManager.calculateResults now this = Normal (this', r)
    ∧ QuizManager.score r = NaN
    ∧ QuizManager.resultCorrectAnswers r = 0
    ∧ QuizManager.totalQuestions r = 0
    ∧ QuizManager.resultCategoryScores r = ∅
    ∧ QuizManager.resultDetailedResults r = [].
Proof.
  intros Hempty. unfold QuizManager.calculateResults. cbv zeta.
  rewrite Hempty. eexists. eexists. split; [reflexivity|].
  cbn [QuizManager.score QuizManager.resultCorrectAnswers QuizManager.totalQuestions
       QuizManager.resultCategoryScores QuizManager.resultDetailedResults
       QuizManager.forEachQuestion QuizManager.emptyTally QuizManager.correctAnswers
       QuizManager.categoryScores QuizManager.detailedResults length].
  repeat split.
Qed.

Lemma calculateResults_empty_bank_witness :
  QuizManager.questions QuizManager.fresh = []
  ∧ ∃ this' r,
      QuizManager.calculateResults 1000 QuizManager.fresh = Normal (this', r)
      ∧ QuizManager.score r = NaN.
Proof.
  split; [reflexivity|].
  destruct (calculateResults_empty_bank 1000 QuizManager.fresh eq_refl)
    as (this' & r & Hr & Hscore & _).
  exists this', r. split; assumption.
Defined.

(** C5, as stated, fails: for the manager whose question list is empty the
    call does not throw [InvalidBankError]; it returns a score of NaN. *)
Lemma calculateResults_empty_no_error :
  QuizManager.questions QuizManager.fresh = []
  ∧ QuizManager.calculateResults 1000 QuizManager.fresh ≠ Throw "InvalidBankError"
  ∧ ∃ this' r,
      QuizManager.calculateResults 1000 QuizManager.fresh = Normal (this', r)
      ∧ QuizManager.score r = S754_nan.
Proof.
  split; [reflexivity|]. split; [discriminate|].
  eexists. eexists. split; reflexivity.
Qed.

(** The score of a non-empty session, from the loop's count. *)
Lemma calculateResults_score (now : Z) (this : QuizManager.t) :
  QuizManager.questions this ≠ [] →
  ∃ this' r,
    QuizManager.calculateResults now this = Normal (this', r)
    ∧ QuizManager.resultCorrectAnswers r = correctCount (QuizManager.questions this)
    ∧ QuizManager.totalQuestions r = Z.of_nat (length (QuizManager.questions this))
    ∧ 0 < QuizManager.totalQuestions r
    ∧ QuizManager.score r
      = round (mul (div (ofZ (correctCount (QuizManager.questions this)))
                        (ofZ (Z.of_nat (length (QuizManager.questions this)))))
                   (ofZ 100)).
Proof.
  intros Hne. unfold QuizManager.calculateResults. cbv zeta.
  eexists. eexists. split; [reflexivity|].
  cbn [QuizManager.score QuizManager.resultCorrectAnswers QuizManager.totalQuestions].
  rewrite forEachQuestion_correctAnswers.
  cbn [QuizManager.emptyTally QuizManager.correctAnswers]. rewrite Z.add_0_l.
  split; [reflexivity|]. split; [reflexivity|]. split; [|reflexivity].
  destruct (QuizManager.questions this); [congruence|]. simpl length. lia.
Qed.



Lemma correctCount_bounds (qs : list QuizQuestion.t) :
  0 ≤ correctCount qs ≤ Z.of_nat (length qs).
Proof.
  unfold correctCount. induction qs as [|q rest IH]; simpl countZ; simpl length; [lia|].
  rewrite Nat2Z.inj_succ. destruct (QuizQuestion.isCorrect q); lia.
Qed.

(** For a bank of at most 50 items (the most the validator admits) the
    score is an integer in [0,100], and, except with 23 correct answers
    out of 40, it is the exact percentage rounded half up. *)
Lemma score_exact_rounding (now : Z) (this : QuizManager.t) :
  (0 < length (QuizManager.questions this) ≤ 50)%nat →
  ∃ this' r,
    QuizManager.calculateResults now this = Normal (this', r)
    ∧ 0 ≤ toZ (QuizManager.score r) ≤ 100
    ∧ (¬ (QuizManager.resultCorrectAnswers r = 23 ∧ QuizManager.totalQuestions r = 40) →
       toZ (QuizManager.score r)
       = (200 * QuizManager.resultCorrectAnswers r + QuizManager.totalQuestions r)
         / (2 * QuizManager.totalQuestions r)).
Proof.
  intros Hlen.
  assert (Hne : QuizManager.questions this ≠ []).
  { destruct (QuizManager.questions this); [simpl in Hlen; lia|discriminate]. }
  destruct (calculateResults_score now this Hne)
    as (this' & r & Hr & Hc & Ht & _ & Hs).
  exists this', r. split; [exact Hr|].
  pose proof (correctCount_bounds (QuizManager.questions this)) as Hb.
  rewrite Hs, Hc, Ht.
  set (c := correctCount (QuizManager.questions this)) in *.
  set (t := Z.of_nat (length (QuizManager.questions this))) in *.
  assert (Ht50 : 1 ≤ t ≤ 50) by (unfold t; lia).
  change (round (mul (div (ofZ c) (ofZ t)) (ofZ 100)))
    with (calculatedScore (ofZ c) (ofZ t)).
  assert (Hexact : ¬ (c = 23 ∧ t = 40) →
                   toZ (calculatedScore (ofZ c) (ofZ t)) = (200 * c + t) / (2 * t)).
  { intros Hx. apply calculatedScore_exact; assumption. }
  split; [|exact Hexact].
  destruct (Z.eq_dec c 23) as [E23|N23]; [destruct (Z.eq_dec t 40) as [E40|N40]|].
  - rewrite E23, E40. vm_compute. split; discriminate.
  - rewrite Hexact by lia. split.
    + apply Z.div_pos; lia.
    + apply Z.lt_succ_r. apply Z.div_lt_upper_bound; lia.
  - rewrite Hexact by lia. split.
    + apply Z.div_pos; lia.
    + apply Z.lt_succ_r. apply Z.div_lt_upper_bound; lia.
Qed.


Lemma correctCount_unanswered (qs : list QuizQuestion.t) :
  Forall (fun q => QuizQuestion.isAnswered q = false) qs → correctCount qs = 0.
Proof.
  unfold correctCount. intros H.
  induction H as [|q rest Hq _ IH]; simpl; [reflexivity|].
  unfold QuizQuestion.isCorrect at 1. rewrite Hq, IH. reflexivity.
Qed.

(** A zero count out of a positive total gives the score +0. *)
Lemma zero_score (p : positive) :
  round (mul (div (ofZ 0) (ofZ (Z.pos p))) (ofZ 100)) = ofZ 0.
Proof.
  destruct (ofZ_pos p) as [(m & e & ->) | ->]; reflexivity.
Qed.



(** ** Navigation *)




Lemma startedManager_inRange : inRange startedManager.
Proof. split; [vm_compute; discriminate|vm_compute; reflexivity]. Qed.


(** X2. Away from the two ends [nextQuestion] and [previousQuestion] undo
    each other; at the last question [nextQuestion] does nothing and at
    the first [previousQuestion] does nothing; [goToQuestion] with an
    index outside the questions does nothing. *)
Theorem navigation_steps_compose (this : QuizManager.t) :
  inRange this →
  (QuizManager.currentQuestionIndex this
     < Z.of_nat (length (QuizManager.questions this)) - 1 →
   QuizManager.previousQuestion (QuizManager.nextQuestion this) = this)
  ∧ (0 < QuizManager.currentQuestionIndex this →
     QuizManager.nextQuestion (QuizManager.previousQuestion this) = this)
  ∧ (QuizManager.currentQuestionIndex this
       = Z.of_nat (length (QuizManager.questions this)) - 1 →
     QuizManager.nextQuestion this = this)
  ∧ (QuizManager.currentQuestionIndex this = 0 →
     QuizManager.previousQuestion this = this)
  ∧ (∀ i, i < 0 ∨ Z.of_nat (length (QuizManager.questions this)) ≤ i →
          QuizManager.goToQuestion i this = this).
Proof.
  unfold inRange. intros H. destruct this as [qs idx started completed st en].
  simpl in *.
  unfold QuizManager.previousQuestion, QuizManager.nextQuestion,
    QuizManager.goToQuestion, QuizManager.withIndex. simpl.
  repeat split.
  - intros Hlt. destruct (idx <? Z.of_nat (length qs) - 1) eqn:E;
      [|apply Z.ltb_ge in E; lia].
    simpl. destruct (0 <? idx + 1) eqn:E2; [|apply Z.ltb_ge in E2; lia].
    simpl. f_equal. lia.
  - intros Hgt. destruct (0 <? idx) eqn:E; [|apply Z.ltb_ge in E; lia].
    simpl. destruct (idx - 1 <? Z.of_nat (length qs) - 1) eqn:E2;
      [|apply Z.ltb_ge in E2; lia].
    simpl. f_equal. lia.
  - intros Hlast. destruct (idx <? Z.of_nat (length qs) - 1) eqn:E;
      [apply Z.ltb_lt in E; lia|reflexivity].
  - intros Hfirst. destruct (0 <? idx) eqn:E; [apply Z.ltb_lt in E; lia|reflexivity].
  - intros i Hi.
    destruct ((0 <=? i) && (i <? Z.of_nat (length qs))) eqn:E; [|reflexivity].
    apply andb_true_iff in E as [E1 E2].
    apply Z.leb_le in E1. apply Z.ltb_lt in E2. lia.
Qed.

Lemma navigation_steps_compose_witness :
  inRange startedManager
  ∧ QuizManager.previousQuestion (QuizManager.nextQuestion startedManager)
    = startedManager.
Proof.
  split; [exact startedManager_inRange|].
  apply (navigation_steps_compose startedManager startedManager_inRange).
  vm_compute. reflexivity.
Defined.

(** ** Answering *)

Lemma answerFirst_again (questionId a b : number) (qs qs' : list QuizQuestion.t) :
  QuizManager.answerFirst questionId a qs = Normal qs' →
  QuizManager.answerFirst questionId b qs' = QuizManager.answerFirst questionId b qs.
Proof.
  revert qs'. induction qs as [|q rest IH]; intros qs' H; simpl in H.
  - injection H as <-. reflexivity.
  - destruct (strictEq (QuizQuestion.id q) questionId) eqn:E.
    + injection H as <-. simpl. rewrite E. reflexivity.
    + destruct (QuizManager.answerFirst questionId a rest) as [rest'|e] eqn:Hrest;
        [|discriminate].
      injection H as <-. simpl. rewrite E.
      rewrite (IH rest' eq_refl). reflexivity.
Qed.

(** X3. Selecting an answer is idempotent and the last selection wins:
    [handleAnswerChange] with the same question and index twice leaves
    what one call leaves, and a second call with another index leaves
    what that call alone would leave. *)
Theorem handleAnswerChange_last_selection_wins (this : QuizManager.t)
    (questionId a b : number) :
  ∃ once,
    QuizManager.handleAnswerChange questionId a this = Normal once
    ∧ QuizManager.handleAnswerChange questionId a once = Normal once
    ∧ QuizManager.handleAnswerChange questionId b once
      = QuizManager.handleAnswerChange questionId b this.
Proof.
  unfold QuizManager.handleAnswerChange.
  destruct (answerFirst_normal questionId a (QuizManager.questions this)) as [qs' Hqs'].
  rewrite Hqs'. eexists. split; [reflexivity|]. simpl.
  rewrite !(answerFirst_again _ _ _ _ _ Hqs'). rewrite Hqs'.
  split; reflexivity.
Qed.

Lemma answerFirst_effect (questionId a : number) (qs : list QuizQuestion.t) :
  ∃ qs',
    QuizManager.answerFirst questionId a qs = Normal qs'
    ∧ Forall2 (fun q q' =>
                 sameContent q q'
                 ∧ (q' = q
                    ∨ (strictEq (QuizQuestion.id q) questionId = true
                       ∧ QuizQuestion.userAnswer q' = Some a
                       ∧ QuizQuestion.isAnswered q' = true)))
              qs qs'.
Proof.
  assert (Hsame : ∀ q, sameContent q q) by (intros q; repeat split).
  induction qs as [|q rest (rest' & Hrest & IH)]; simpl.
  - exists []. split; [reflexivity|constructor].
  - destruct (strictEq (QuizQuestion.id q) questionId) eqn:E.
    + eexists. split; [reflexivity|]. constructor.
      * split; [repeat split|]. right. split; [exact E|split; reflexivity].
      * apply Forall_Forall2_diag. apply Forall_forall. intros x _.
        split; [apply Hsame|left; reflexivity].
    + rewrite Hrest. eexists. split; [reflexivity|]. constructor; [|exact IH].
      split; [apply Hsame|left; reflexivity].
Qed.

Lemma unanswered_le (qs qs' : list QuizQuestion.t) :
  Forall2 (fun q q' => QuizQuestion.isAnswered q = true → QuizQuestion.isAnswered q' = true)
          qs qs' →
  (length (List.filter (fun q => negb (QuizQuestion.isAnswered q)) qs')
   ≤ length (List.filter (fun q => negb (QuizQuestion.isAnswered q)) qs))%nat.
Proof.
  induction 1 as [|q q' qs qs' Hq _ IH]; simpl; [lia|].
  destruct (QuizQuestion.isAnswered q) eqn:E.
  - rewrite (Hq eq_refl). simpl. exact IH.
  - destruct (QuizQuestion.isAnswered q'); simpl; lia.
Qed.

(** X4. [handleAnswerChange] changes at most the answer state of
    questions whose id is the one given: every question keeps its static
    content and either is untouched or has that id and is now answered
    with the index given; no answered question becomes unanswered, so the
    number of unanswered questions never grows; and when no question has
    the id, nothing changes at all. *)
Theorem handleAnswerChange_effect (this : QuizManager.t) (questionId a : number) :
  ∃ this',
    QuizManager.handleAnswerChange questionId a this = Normal this'
    ∧ Forall2 (fun q q' =>
                 sameContent q q'
                 ∧ (q' = q
                    ∨ (strictEq (QuizQuestion.id q) questionId = true
                       ∧ QuizQuestion.userAnswer q' = Some a
                       ∧ QuizQuestion.isAnswered q' = true)))
              (QuizManager.questions this) (QuizManager.questions this')
    ∧ (length (QuizManager.unansweredQuestions this')
       ≤ length (QuizManager.unansweredQuestions this))%nat
    ∧ (noneHasId questionId (QuizManager.questions this) → this' = this).
Proof.
  unfold QuizManager.handleAnswerChange.
  destruct (answerFirst_effect questionId a (QuizManager.questions this))
    as (qs' & Hqs' & Heffect).
  rewrite Hqs'. eexists. split; [reflexivity|]. simpl.
  split; [exact Heffect|]. split.
  - unfold QuizManager.unansweredQuestions. simpl. apply unanswered_le.
    eapply Forall2_impl; [exact Heffect|].
    intros q q' [_ [-> | (_ & _ & Hq')]] Hq; assumption.
  - intros Hnone. rewrite (answerFirst_missing _ _ _ Hnone) in Hqs'.
    injection Hqs' as <-. destruct this; reflexivity.
Qed.

(** ** Starting and retaking *)

Lemma reset_all (qs : list QuizQuestion.t) :
  Forall (fun q => QuizQuestion.isAnswered q = false ∧ QuizQuestion.userAnswer q = None)
         (map QuizQuestion.reset qs)
  ∧ Forall2 sameContent qs (map QuizQuestion.reset qs).
Proof.
  induction qs as [|q rest [IH1 IH2]]; simpl; split; constructor; auto.
  repeat split.
Qed.

Lemma filter_unanswered_all (qs : list QuizQuestion.t) :
  Forall (fun q => QuizQuestion.isAnswered q = false) qs →
  List.filter (fun q => negb (QuizQuestion.isAnswered q)) qs = qs.
Proof.
  induction 1 as [|q rest Hq _ IH]; simpl; [reflexivity|].
  rewrite Hq. simpl. rewrite IH. reflexivity.
Qed.

(** X5. [startQuiz] and [retakeQuiz] clear every answer and keep the
    questions themselves: afterwards every question is unanswered with a
    null answer, has its static content, and the position is 0; so a new
    attempt never inherits an answer of the previous one, and results
    computed before any new answer count 0 correct answers and, for a
    non-empty bank, a score of 0. *)
Theorem startQuiz_and_retakeQuiz_clear_answers (now later : Z) (this : QuizManager.t) :
  (∀ fresh, fresh = QuizManager.startQuiz now this
            ∨ fresh = QuizManager.retakeQuiz this →
     Forall (fun q => QuizQuestion.isAnswered q = false
                      ∧ QuizQuestion.userAnswer q = None)
            (QuizManager.questions fresh)
     ∧ Forall2 sameContent (QuizManager.questions this) (QuizManager.questions fresh)
     ∧ QuizManager.currentQuestionIndex fresh = 0
     ∧ QuizManager.unansweredQuestions fresh = QuizManager.questions fresh
     ∧ ∃ this' r,
         QuizManager.calculateResults later fresh = Normal (this', r)
         ∧ QuizManager.resultCorrectAnswers r = 0
         ∧ (QuizManager.questions this ≠ [] → QuizManager.score r = ofZ 0))
  ∧ QuizManager.startTime (QuizManager.startQuiz now this) = Some now
  ∧ QuizManager.startTime (QuizManager.retakeQuiz this) = None
  ∧ QuizManager.isQuizStarted (QuizManager.retakeQuiz this) = false.
Proof.
  split; [|repeat split].
  intros fresh Hfresh.
  assert (Hqs : QuizManager.questions fresh
                = map QuizQuestion.reset (QuizManager.questions this)).
  { destruct Hfresh as [-> | ->]; reflexivity. }
  assert (Hidx : QuizManager.currentQuestionIndex fresh = 0).
  { destruct Hfresh as [-> | ->]; reflexivity. }
  destruct (reset_all (QuizManager.questions this)) as [Hclear Hsame].
  assert (Hunanswered : Forall (fun q => QuizQuestion.isAnswered q = false)
                               (QuizManager.questions fresh)).
  { rewrite Hqs. eapply Forall_impl; [exact Hclear|]. intros q [Hq _]. exact Hq. }
  rewrite Hqs at 1 2. split; [exact Hclear|]. split; [exact Hsame|].
  split; [exact Hidx|]. split.
  - unfold QuizManager.unansweredQuestions. apply filter_unanswered_all, Hunanswered.
  - unfold QuizManager.calculateResults. cbv zeta.
    eexists. eexists. split; [reflexivity|].
    cbn [QuizManager.score QuizManager.resultCorrectAnswers].
    rewrite forEachQuestion_correctAnswers.
    cbn [QuizManager.emptyTally QuizManager.correctAnswers].
    rewrite (correctCount_unanswered _ Hunanswered). split; [reflexivity|].
    intros Hne. rewrite Hqs, length_map.
    destruct (QuizManager.questions this) as [|q rest]; [congruence|].
    simpl length. rewrite Nat2Z.inj_succ, <- Z.add_1_r.
    destruct (Z.of_nat (length rest) + 1) as [|p|p] eqn:Hp; try lia.
    apply zero_score.
Qed.

(** ** Sums over the categories *)






(** ** The detailed results *)

Lemma forEachQuestion_detailedResults qs (start : nat) acc :
  QuizManager.detailedResults
    (QuizManager.forEachQuestion qs (Z.of_nat start) acc)
  = QuizManager.detailedResults acc ++ imap (fun i q => detailOf (start + i) q) qs.
Proof.
  revert start acc. induction qs as [|q rest IH]; intros start acc.
  - simpl. rewrite app_nil_r. reflexivity.
  - cbn [QuizManager.forEachQuestion imap].
    replace (Z.of_nat start + 1) with (Z.of_nat (S start)) by lia.
    rewrite IH. cbn [QuizManager.scoreQuestion QuizManager.detailedResults].
    rewrite <- app_assoc. f_equal. simpl. f_equal.
    + unfold detailOf. rewrite Nat.add_0_r. reflexivity.
    + apply imap_ext. intros i x _. simpl. f_equal. lia.
Qed.

(** X7. The detailed results mirror the questions in order: there is one
    entry for each question, the entry at position [i] is numbered
    [i + 1] and carries that question's text, category, explanation,
    correct option text and correctness, and its [userAnswer] is null
    exactly when the question is unanswered. *)
Theorem detailed_results_mirror_questions (now : Z) (this : QuizManager.t) :
  ∃ this' r,
    QuizManager.calculateResults now this = Normal (this', r)
    ∧ length (QuizManager.resultDetailedResults r)
      = length (QuizManager.questions this)
    ∧ (∀ i q, QuizManager.questions this !! i = Some q →
              QuizManager.resultDetailedResults r !! i = Some (detailOf i q)
              ∧ (QuizManager.detailUserAnswer (detailOf i q) = JNull
                 ↔ QuizQuestion.isAnswered q = false)).
Proof.
  unfold QuizManager.calculateResults. cbv zeta.
  eexists. eexists. split; [reflexivity|].
  cbn [QuizManager.resultDetailedResults].
  change 0 with (Z.of_nat 0).
  rewrite forEachQuestion_detailedResults.
  cbn [QuizManager.emptyTally QuizManager.detailedResults app].
  split; [apply length_imap|].
  intros i q Hq. split.
  - rewrite list_lookup_imap, Hq. reflexivity.
  - cbn [detailOf QuizManager.detailUserAnswer].
    unfold QuizQuestion.getUserAnswerText.
    destruct (QuizQuestion.isAnswered q).
    + split; [|discriminate].
      destruct (QuizQuestion.userAnswer q) as [a|]; [|discriminate].
      unfold elementAt.
      destruct (isInteger a && ge a (ofZ 0)); [|discriminate].
      destruct (QuizQuestion.options q !! Z.to_nat (toZ a)); discriminate.
    + split; reflexivity.
Qed.

(** ** The response of the validator *)

Lemma check_keys (check : gmap string string → gmap string string)
    (field : string) (violated : bool) :
  (violated = false → ∀ errors, check errors = errors) →
  (violated = true → ∀ errors, ∃ msg, check errors = <[field := msg]> errors) →
  ∀ errors key,
    is_Some (check errors !! key)
    ↔ (violated = true ∧ key = field) ∨ is_Some (errors !! key).
Proof.
  intros Hsound Hviolation errors key. destruct violated.
  - destruct (Hviolation eq_refl errors) as [msg ->].
    rewrite lookup_insert_is_Some'. split.
    + intros [<- | H]; auto.
    + intros [[_ ->] | H]; auto.
  - rewrite (Hsound eq_refl). split; [auto|].
    intros [[H _] | H]; [discriminate|exact H].
Qed.

Lemma crossCheck_keys (body : JsValue) (errors : gmap string string) (key : string) :
  is_Some (crossCheck (getProp body "score") (getProp body "totalQuestions")
                      (getProp body "correctAnswers") errors !! key)
  ↔ (scoreMismatched body = true ∧ key = "score") ∨ is_Some (errors !! key).
Proof.
  apply (check_keys _ "score" (scoreMismatched body)); unfold scoreMismatched, crossCheck.
  - intros H e.
    destruct (getProp body "score"); try reflexivity.
    destruct (getProp body "totalQuestions"); try reflexivity.
    destruct (getProp body "correctAnswers"); try reflexivity.
    rewrite H. reflexivity.
  - intros H e.
    destruct (getProp body "score"); try discriminate.
    destruct (getProp body "totalQuestions"); try discriminate.
    destruct (getProp body "correctAnswers"); try discriminate.
    rewrite H. eauto.
Qed.

Lemma collectErrors_keys (body : JsValue) (key : string) :
  is_Some (collectErrors body !! key)
  ↔ violates body key = true ∨ (key = "score" ∧ scoreMismatched body = true).
Proof.
  unfold collectErrors. cbv zeta.
  rewrite (check_keys _ "categories" (categoriesViolation (getProp body "categories"))
             (fun H e => checkCategories_sound _ e H)
             (fun H e => checkCategories_violation _ e H)).
  rewrite (check_keys _ "timeTaken" (timeTakenViolation (getProp body "timeTaken"))
             (fun H e => checkTimeTaken_sound _ e H)
             (fun H e => checkTimeTaken_violation _ e H)).
  rewrite crossCheck_keys.
  rewrite (check_keys _ "correctAnswers"
             (correctAnswersViolation (getProp body "correctAnswers")
                                      (getProp body "totalQuestions"))
             (fun H e => checkCorrectAnswers_sound _ _ e H)
             (fun H e => checkCorrectAnswers_violation _ _ e H)).
  rewrite (check_keys _ "totalQuestions"
             (totalQuestionsViolation (getProp body "totalQuestions"))
             (fun H e => checkTotalQuestions_sound _ e H)
             (fun H e => checkTotalQuestions_violation _ e H)).
  rewrite (check_keys _ "score" (scoreViolation (getProp body "score"))
             (fun H e => checkScore_sound _ e H)
             (fun H e => checkScore_violation _ e H)).
  rewrite lookup_empty. unfold violates.
  assert (Hnone : ¬ is_Some (None : option string)) by (intros [x Hx]; discriminate).
  destruct (String.eqb_spec key "score") as [E|N1].
  { subst key. split.
    - intros [[_ H]|[[_ H]|[[H _]|[[_ H]|[[_ H]|[[H _]|H]]]]]];
        try discriminate; auto; tauto.
    - intros [H|[_ H]]; auto 10. }
  destruct (String.eqb_spec key "totalQuestions") as [E|N2].
  { subst key. split.
    - intros [[_ H]|[[_ H]|[[_ H]|[[_ H]|[[H _]|[[_ H]|H]]]]]];
        try discriminate; auto; tauto.
    - intros [H|[H _]]; [auto 10|discriminate]. }
  destruct (String.eqb_spec key "correctAnswers") as [E|N3].
  { subst key. split.
    - intros [[_ H]|[[_ H]|[[_ H]|[[H _]|[[_ H]|[[_ H]|H]]]]]];
        try discriminate; auto; tauto.
    - intros [H|[H _]]; [auto 10|discriminate]. }
  destruct (String.eqb_spec key "timeTaken") as [E|N4].
  { subst key. split.
    - intros [[_ H]|[[H _]|[[_ H]|[[_ H]|[[_ H]|[[_ H]|H]]]]]];
        try discriminate; auto; tauto.
    - intros [H|[H _]]; [auto 10|discriminate]. }
  destruct (String.eqb_spec key "categories") as [E|N5].
  { subst key. split.
    - intros [[H _]|[[_ H]|[[_ H]|[[_ H]|[[_ H]|[[_ H]|H]]]]]];
        try discriminate; auto; tauto.
    - intros [H|[H _]]; [auto 10|discriminate]. }
  split.
  - intros [[_ H]|[[_ H]|[[_ H]|[[_ H]|[[_ H]|[[_ H]|H]]]]]]; try contradiction; tauto.
  - intros [H|[H _]]; [discriminate|contradiction].
Qed.

Lemma validateQuizSubmission_cases (body : JsValue) :
  (validateQuizSubmission body = Next ∧ collectErrors body = ∅)
  ∨ (validateQuizSubmission body = Status400 (collectErrors body)
     ∧ collectErrors body ≠ ∅).
Proof.
  unfold validateQuizSubmission. cbv zeta.
  destruct (size (collectErrors body)) eqn:Hsize.
  - left. split; [reflexivity|]. apply map_size_empty_iff, Hsize.
  - right. split; [reflexivity|]. intros Hempty.
    rewrite Hempty, map_size_empty in Hsize. discriminate.
Qed.

Lemma validateQuizSubmission_Next_iff (body : JsValue) :
  validateQuizSubmission body = Next
  ↔ structuralChecksPass body ∧ scoreMismatched body = false.
Proof.
  split.
  - intros Hnext.
    destruct (validateQuizSubmission_cases body) as [[_ Hempty]|[H _]];
      [|rewrite Hnext in H; discriminate].
    assert (Hno : ∀ key, ¬ (violates body key = true
                            ∨ (key = "score" ∧ scoreMismatched body = true))).
    { intros key Hkey. apply collectErrors_keys in Hkey.
      rewrite Hempty, lookup_empty in Hkey. destruct Hkey; discriminate. }
    assert (Hfalse : ∀ key, violates body key = false).
    { intros key. destruct (violates body key) eqn:E; [|reflexivity].
      exfalso. apply (Hno key). left. exact E. }
    split; [repeat split; apply Hfalse|].
    destruct (scoreMismatched body) eqn:E; [|reflexivity].
    exfalso. apply (Hno "score"). right. split; reflexivity.
  - intros [(Hs & Ht & Hc & Htime & Hcat) Hmis].
    destruct (validateQuizSubmission_cases body) as [[H _]|[_ Hne]]; [exact H|].
    exfalso. apply Hne. apply map_empty. intros key.
    destruct (collectErrors body !! key) eqn:E; [|reflexivity].
    assert (Hkey : is_Some (collectErrors body !! key)) by (rewrite E; eauto).
    apply collectErrors_keys in Hkey.
    destruct Hkey as [Hv|[_ Hm]]; [|congruence].
    unfold violates in Hv.
    repeat match type of Hv with
           | (if String.eqb ?a ?b then _ else _) = true =>
               destruct (String.eqb_spec a b) as [->|_]
           end; try discriminate;
      unfold violates in Hs, Ht, Hc, Htime, Hcat; simpl in Hs, Ht, Hc, Htime, Hcat;
      congruence.
Qed.

(** X8. The validator accepts exactly the payloads with no structural
    violation in any of the five fields and no score mismatch; and when
    it rejects, the keys of [errors] are exactly the violated fields,
    with [score] also listed on a mismatch, and no other key. *)
Theorem validator_response_characterised (body : JsValue) :
  (validateQuizSubmission body = Next
   ↔ structuralChecksPass body ∧ scoreMismatched body = false)
  ∧ (∀ errors,
       validateQuizSubmission body = Status400 errors →
       ∀ key, is_Some (errors !! key)
              ↔ violates body key = true
                ∨ (key = "score" ∧ scoreMismatched body = true)).
Proof.
  split; [apply validateQuizSubmission_Next_iff|].
  intros errors Hrej key.
  destruct (validateQuizSubmission_cases body) as [[H _]|[H _]];
    rewrite H in Hrej; [discriminate|].
  injection Hrej as <-. apply collectErrors_keys.
Qed.

(** ** From the validator to the controller and the model *)

Lemma total_above_zero (t : number) : In t totalNumbers → le t (ofZ 0) = false.
Proof.
  intros Ht.
  pose proof (forallb_In (fun t => negb (le t (ofZ 0))) totalNumbers t
                ltac:(vm_compute; reflexivity) Ht) as H.
  cbv beta in H. apply negb_true_iff in H. exact H.
Qed.

Lemma accepted_fields (body : JsValue) :
  validNumbers body →
  validateQuizSubmission body = Next →
  ∃ s t c,
    getProp body "score" = JNumber s
    ∧ getProp body "totalQuestions" = JNumber t
    ∧ getProp body "correctAnswers" = JNumber c
    ∧ integerWithin 0 100 s = true
    ∧ In t totalNumbers
    ∧ gt c t = false
    ∧ scoreMismatch s c t = false.
Proof.
  intros Hvalid Hnext.
  apply validateQuizSubmission_Next_iff in Hnext as [(Hs & Ht & Hc & _) Hmis].
  change (scoreViolation (getProp body "score") = false) in Hs.
  change (totalQuestionsViolation (getProp body "totalQuestions") = false) in Ht.
  change (correctAnswersViolation (getProp body "correctAnswers")
            (getProp body "totalQuestions") = false) in Hc.
  unfold scoreMismatched in Hmis.
  destruct (getProp body "score") as [| | |s| | |] eqn:Es; try discriminate.
  destruct (getProp body "totalQuestions") as [| | |t| | |] eqn:Et; try discriminate.
  destruct (getProp body "correctAnswers") as [| | |c| | |] eqn:Ec; try discriminate.
  exists s, t, c. simpl in Hs, Ht, Hc.
  apply negb_false_iff in Hs, Ht, Hc.
  apply andb_true_iff in Hc as [_ Hgt]. apply negb_true_iff in Hgt.
  repeat split; try assumption.
  apply integerWithin_total; [apply (Hvalid "totalQuestions"), Et|exact Ht].
Qed.

(** X9. What the validator lets through, the controller and the model do
    not refuse on the score: for a body of well-formed doubles accepted by
    [validateQuizSubmission], [submitQuizResults] passes its four checks
    and builds the document from the body's score and counts, and the
    [pre('save')] hook accepts that document. *)
Theorem accepted_payload_reaches_save (body : JsValue) :
  validNumbers body →
  validateQuizSubmission body = Next →
  ∃ data,
    submitQuizResults body = Saving data
    ∧ getProp body "score" = JNumber (dataScore data)
    ∧ getProp body "totalQuestions" = JNumber (dataTotalQuestions data)
    ∧ getProp body "correctAnswers" = JNumber (dataCorrectAnswers data)
    ∧ preSave (dataScore data) (dataCorrectAnswers data) (dataTotalQuestions data)
      = None.
Proof.
  intros Hvalid Hnext.
  destruct (accepted_fields body Hvalid Hnext)
    as (s & t & c & Es & Et & Ec & Hs & Ht & Hgt & Hmis).
  unfold integerWithin in Hs.
  apply andb_true_iff in Hs as [Hs Hs100]. apply andb_true_iff in Hs as [_ Hs0].
  apply negb_true_iff in Hs0, Hs100.
  unfold submitQuizResults. rewrite Es, Et, Ec, Hs0, Hs100, Hgt.
  rewrite (total_above_zero t Ht). cbn [orb]. cbv zeta.
  change (gt (abs (sub s (round (mul (div c t) (ofZ 100))))) (ofZ 1))
    with (scoreMismatch s c t).
  rewrite Hmis. eexists. split; [reflexivity|]. cbn [dataScore dataTotalQuestions
    dataCorrectAnswers].
  repeat split. unfold preSave. cbv zeta.
  change (gt (abs (sub s (round (mul (div c t) (ofZ 100))))) (ofZ 1))
    with (scoreMismatch s c t).
  rewrite Hmis. reflexivity.
Qed.

Lemma scenarioB_validNumbers : validNumbers scenarioB.
Proof.
  intros key x. unfold scenarioB, getProp, lookupProp.
  destruct (String.eqb "score" key); [intros H; injection H as <-; reflexivity|].
  destruct (String.eqb "totalQuestions" key); [intros H; injection H as <-; reflexivity|].
  destruct (String.eqb "correctAnswers" key); [intros H; injection H as <-; reflexivity|].
  discriminate.
Qed.

Lemma accepted_payload_reaches_save_witness :
  validateQuizSubmission scenarioB = Next
  ∧ ∃ data, submitQuizResults scenarioB = Saving data
            ∧ preSave (dataScore data) (dataCorrectAnswers data)
                      (dataTotalQuestions data) = None.
Proof.
  assert (Hnext : validateQuizSubmission scenarioB = Next) by (vm_compute; reflexivity).
  split; [exact Hnext|].
  destruct (accepted_payload_reaches_save scenarioB scenarioB_validNumbers Hnext)
    as (data & Hd & _ & _ & _ & Hsave).
  exists data. split; assumption.
Defined.

(** ** An honest submission *)

Lemma jsonExact_roundTrip (x : number) :
  jsonExact x = true → jsonRoundTrip (JNumber x) = JNumber x.
Proof. destruct x as [[|]| | |]; simpl; intros H; try discriminate; reflexivity. Qed.

Lemma honestCounts_holds (c t : Z) :
  1 ≤ t ≤ 50 → 0 ≤ c ≤ t → honestCounts c t = true.
Proof.
  intros Ht Hc.
  pose proof (forallb_seqZ
    (fun t => forallb (fun c => if c <=? t then honestCounts c t else true) (seqZ 0 51))
    1 50 ltac:(vm_compute; reflexivity) t ltac:(lia)) as H1.
  cbv beta in H1.
  pose proof (forallb_seqZ _ 0 51 H1 c ltac:(lia)) as H2. cbv beta in H2.
  destruct (c <=? t) eqn:E; [exact H2|apply Z.leb_gt in E; lia].
Qed.

Lemma honestCategory_holds (c t : Z) :
  1 ≤ t ≤ 50 → 0 ≤ c ≤ t → honestCategory c t = true.
Proof.
  intros Ht Hc.
  pose proof (forallb_seqZ
    (fun t => forallb (fun c => if c <=? t then honestCategory c t else true) (seqZ 0 51))
    1 50 ltac:(vm_compute; reflexivity) t ltac:(lia)) as H1.
  cbv beta in H1.
  pose proof (forallb_seqZ _ 0 51 H1 c ltac:(lia)) as H2. cbv beta in H2.
  destruct (c <=? t) eqn:E; [exact H2|apply Z.leb_gt in E; lia].
Qed.

Lemma categoryObjects_roundTrip (entries : list (string * QuizManager.categoryScore)) :
  Forall (fun entry =>
            honestCategory (QuizManager.correct (snd entry))
                           (QuizManager.total (snd entry)) = true) entries →
  jsonRoundTrip (JObject (map categoryObject entries))
  = JObject (map categoryObject entries)
  ∧ existsb badCategoryEntry (map categoryObject entries) = false.
Proof.
  intros Hall. induction Hall as [|[k v] rest Hv _ [IH1 IH2]].
  - split; reflexivity.
  - unfold honestCategory in Hv. simpl in Hv.
    apply andb_true_iff in Hv as [Hv Hbad]. apply andb_true_iff in Hv as [Hc Ht].
    apply negb_true_iff in Hbad.
    split.
    + simpl in IH1. injection IH1 as IH1.
      simpl. rewrite IH1.
      pose proof (jsonExact_roundTrip _ Hc) as Ec.
      pose proof (jsonExact_roundTrip _ Ht) as Et.
      simpl in Ec, Et. rewrite Ec, Et. reflexivity.
    + cbn [map existsb]. rewrite IH2.
      unfold badCategoryEntry, categoryObject. simpl. rewrite Hbad. reflexivity.
Qed.

Lemma categoryTotal_le_length category qs :
  categoryTotal category qs ≤ Z.of_nat (length qs).
Proof.
  unfold categoryTotal. induction qs as [|q rest IH]; simpl countZ; simpl length; [lia|].
  rewrite Nat2Z.inj_succ. destruct (inCategory category q); lia.
Qed.

Lemma resultCategoryScores_entries (qs : list QuizQuestion.t) :
  (length qs ≤ 50)%nat →
  Forall (fun entry =>
            honestCategory (QuizManager.correct (snd entry))
                           (QuizManager.total (snd entry)) = true)
         (map_to_list
            (QuizManager.categoryScores
               (QuizManager.forEachQuestion qs 0 QuizManager.emptyTally))).
Proof.
  intros Hlen. apply Forall_forall. intros [k v] Hkv.
  apply elem_of_map_to_list in Hkv.
  rewrite forEachQuestion_categoryScores in Hkv.
  pose proof (countZ_nonneg (inCategory k) qs) as Hnn.
  pose proof (categoryCorrect_le k qs) as Hle.
  pose proof (categoryTotal_le_length k qs) as Hlen'.
  pose proof (countZ_nonneg (fun q => inCategory k q && QuizQuestion.isCorrect q) qs)
    as Hcn.
  fold (categoryTotal k qs) in Hnn. fold (categoryCorrect k qs) in Hcn.
  destruct (categoryTotal k qs =? 0) eqn:Hz.
  - cbn [QuizManager.emptyTally QuizManager.categoryScores] in Hkv.
    rewrite lookup_empty in Hkv. discriminate.
  - apply Z.eqb_neq in Hz. injection Hkv as <-.
    cbn [QuizManager.emptyTally QuizManager.categoryScores].
    rewrite lookup_empty. cbn [default snd QuizManager.correct QuizManager.total].
    unfold noScore. cbn [QuizManager.correct QuizManager.total].
    rewrite !Z.add_0_l. apply honestCategory_holds; lia.
Qed.

Lemma timeTaken_parsed (x : number) :
  timeTakenViolation (jsonRoundTrip (JNumber x))
  = isFinite x && negb (integerWithin 1 3600 x).
Proof.
  destruct x as [[|]|[|]| |s m e].
  6: { unfold timeTakenViolation. cbn [jsonRoundTrip isFinite].
       generalize (negb (integerWithin 1 3600 (S754_finite s m e))).
       intros b. reflexivity. }
  all: vm_compute; reflexivity.
Qed.

(** The body the server parses from the post of a session of 1 to 50
    questions. *)
Lemma submission_parsed (objectEntries : QuizManager.entriesListing)
    (now : Z) (sessionId : string)
    (this this' : QuizManager.t) (r : QuizManager.results) :
  listsEntries objectEntries →
  (0 < length (QuizManager.questions this) ≤ 50)%nat →
  QuizManager.calculateResults now this = Normal (this', r) →
  let c := correctCount (QuizManager.questions this) in
  let t := Z.of_nat (length (QuizManager.questions this)) in
  jsonRoundTrip (QuizManager.submissionPayload objectEntries sessionId r)
  = JObject [("score", JNumber (calculatedScore (ofZ c) (ofZ t)));
             ("totalQuestions", JNumber (ofZ t));
             ("correctAnswers", JNumber (ofZ c));
             ("timeTaken", jsonRoundTrip (JNumber (QuizManager.timeTaken r)));
             ("categories",
              JObject (map categoryObject
                         (objectEntries (QuizManager.resultCategoryScores r))));
             ("difficulty", JString "mixed");
             ("sessionId", JString sessionId)]
  ∧ honestCounts c t = true
  ∧ existsb badCategoryEntry
      (map categoryObject (objectEntries (QuizManager.resultCategoryScores r)))
    = false.
Proof.
  intros Hlists Hlen Hr c t.
  unfold QuizManager.calculateResults in Hr. cbv zeta in Hr.
  injection Hr as _ <-.
  pose proof (correctCount_bounds (QuizManager.questions this)) as Hb.
  fold c in Hb. fold t in Hb.
  assert (Ht : 1 ≤ t ≤ 50) by (unfold t; lia).
  pose proof (honestCounts_holds c t Ht Hb) as Hcounts.
  pose proof (resultCategoryScores_entries (QuizManager.questions this) ltac:(lia))
    as Hentries.
  rewrite <- (Hlists _) in Hentries.
  destruct (categoryObjects_roundTrip _ Hentries) as [Hcat1 Hcat2].
  cbn [QuizManager.resultCategoryScores QuizManager.timeTaken].
  split; [|split; [exact Hcounts|exact Hcat2]].
  unfold honestCounts in Hcounts. cbv zeta in Hcounts.
  do 7 (apply andb_true_iff in Hcounts as [Hcounts _]).
  apply andb_true_iff in Hcounts as [Hcounts Hte].
  apply andb_true_iff in Hcounts as [Hse Hce].
  unfold QuizManager.submissionPayload, QuizManager.categoriesPayload.
  cbn [QuizManager.score QuizManager.resultCorrectAnswers QuizManager.totalQuestions
       QuizManager.timeTaken QuizManager.resultCategoryScores].
  rewrite forEachQuestion_correctAnswers.
  cbn [QuizManager.emptyTally QuizManager.correctAnswers]. rewrite Z.add_0_l.
  fold c. fold t.
  change (round (mul (div (ofZ c) (ofZ t)) (ofZ 100)))
    with (calculatedScore (ofZ c) (ofZ t)).
  change (fun entry : string * QuizManager.categoryScore =>
            (fst entry,
             JObject [("correct", JNumber (ofZ (QuizManager.correct (snd entry))));
                      ("total", JNumber (ofZ (QuizManager.total (snd entry))))]))
    with categoryObject.
  set (entries := map categoryObject _) in *.
  set (time := round _).
  pose proof (jsonExact_roundTrip _ Hse) as E1.
  pose proof (jsonExact_roundTrip _ Hce) as E2.
  pose proof (jsonExact_roundTrip _ Hte) as E3.
  change (jsonRoundTrip
            (JObject [("score", JNumber (calculatedScore (ofZ c) (ofZ t)));
                      ("totalQuestions", JNumber (ofZ t));
                      ("correctAnswers", JNumber (ofZ c));
                      ("timeTaken", JNumber time);
                      ("categories", JObject entries);
                      ("difficulty", JString "mixed");
                      ("sessionId", JString sessionId)]))
    with (JObject [("score", jsonRoundTrip (JNumber (calculatedScore (ofZ c) (ofZ t))));
                   ("totalQuestions", jsonRoundTrip (JNumber (ofZ t)));
                   ("correctAnswers", jsonRoundTrip (JNumber (ofZ c)));
                   ("timeTaken", jsonRoundTrip (JNumber time));
                   ("categories", jsonRoundTrip (JObject entries));
                   ("difficulty", JString "mixed");
                   ("sessionId", JString sessionId)]).
  rewrite E1, E2, E3, Hcat1. reflexivity.
Qed.

(** The verdict of the validator on the body of a session of 1 to 50
    questions depends on the time only. *)
Lemma submission_verdict (objectEntries : QuizManager.entriesListing)
    (now : Z) (sessionId : string)
    (this this' : QuizManager.t) (r : QuizManager.results) :
  listsEntries objectEntries →
  (0 < length (QuizManager.questions this) ≤ 50)%nat →
  QuizManager.calculateResults now this = Normal (this', r) →
  validateQuizSubmission
    (jsonRoundTrip (QuizManager.submissionPayload objectEntries sessionId r))
  = Next
  ↔ integerWithin 1 3600 (QuizManager.timeTaken r) = true
    ∨ isFinite (QuizManager.timeTaken r) = false.
Proof.
  intros Hlists Hlen Hr.
  destruct (submission_parsed objectEntries now sessionId this this' r Hlists Hlen Hr)
    as (Hparsed & Hcounts & Hcat).
  cbv zeta in Hparsed, Hcounts. rewrite Hparsed.
  unfold honestCounts in Hcounts. cbv zeta in Hcounts.
  do 3 (apply andb_true_iff in Hcounts as [Hcounts _]).
  apply andb_true_iff in Hcounts as [Hcounts Hmis].
  apply andb_true_iff in Hcounts as [Hcounts Hcorrect].
  apply andb_true_iff in Hcounts as [Hcounts Htotal].
  apply andb_true_iff in Hcounts as [_ Hscore].
  apply negb_true_iff in Hmis, Hcorrect, Htotal, Hscore.
  rewrite validateQuizSubmission_Next_iff.
  unfold structuralChecksPass, scoreMismatched, violates.
  cbn [getProp lookupProp String.eqb Ascii.eqb Bool.eqb].
  rewrite Hscore, Htotal, Hcorrect, Hmis, timeTaken_parsed.
  unfold categoriesViolation.
  cbn [present typeof String.eqb Ascii.eqb Bool.eqb negb orb andb Object_entries].
  rewrite Hcat.
  split.
  - intros [(_ & _ & _ & Htime & _) _].
    apply andb_false_iff in Htime as [Htime|Htime]; [right; exact Htime|].
    left. apply negb_false_iff in Htime. exact Htime.
  - intros [Htime|Htime]; rewrite Htime; [rewrite andb_false_r|]; repeat split.
Qed.

(** X10. An honest submission is accepted exactly when its time is in
    range: for a session of 1 to 50 questions, answered in any way, and
    whatever the order of the categories in the request, the body
    [submitResultsToServer] posts, as the server parses it, passes
    [validateQuizSubmission] if and only if [timeTaken] came out as a whole
    number of seconds between 1 and 3600, or as a Number that is not
    finite (which JSON sends as [null], and the validator skips). *)
Theorem honest_submission_accepted (objectEntries : QuizManager.entriesListing)
    (now : Z) (sessionId : string)
    (this this' : QuizManager.t) (r : QuizManager.results) :
  listsEntries objectEntries →
  (0 < length (QuizManager.questions this) ≤ 50)%nat →
  QuizManager.calculateResults now this = Normal (this', r) →
  validateQuizSubmission
    (jsonRoundTrip (QuizManager.submissionPayload objectEntries sessionId r))
  = Next
  ↔ integerWithin 1 3600 (QuizManager.timeTaken r) = true
    ∨ isFinite (QuizManager.timeTaken r) = false.
Proof. apply submission_verdict. Qed.

Lemma map_to_list_listsEntries : listsEntries map_to_list.
Proof. intros scores. reflexivity. Qed.

Lemma scenarioA_length : (0 < length (QuizManager.questions scenarioA) ≤ 50)%nat.
Proof. split; [apply Nat.ltb_lt|apply Nat.leb_le]; vm_compute; reflexivity. Qed.

Lemma honest_submission_accepted_witness :
  ∃ this' r,
    QuizManager.calculateResults 95000 scenarioA = Normal (this', r)
    ∧ QuizManager.timeTaken r = ofZ 95
    ∧ validateQuizSubmission
        (jsonRoundTrip (QuizManager.submissionPayload map_to_list "quiz_1" r))
      = Next.
Proof.
  eexists _, _. split; [reflexivity|]. split; [vm_compute; reflexivity|].
  apply (proj2 (honest_submission_accepted map_to_list 95000 "quiz_1" scenarioA _ _
                  map_to_list_listsEntries scenarioA_length eq_refl)).
  left. vm_compute. reflexivity.
Defined.

Lemma quick_rounds_to_zero (ms : Z) :
  0 ≤ ms < 500 → round (div (ofZ ms) (ofZ 1000)) = S754_zero false.
Proof.
  intros Hms.
  pose proof (forallb_seqZ
    (fun ms => numberEqb (round (div (ofZ ms) (ofZ 1000))) (S754_zero false))
    0 500 ltac:(vm_compute; reflexivity) ms ltac:(lia)) as H.
  cbv beta in H. apply numberEqb_eq in H. exact H.
Qed.

(** X11. A quiz submitted less than half a second after it was started is
    refused: [calculateResults] rounds the time to 0 seconds, and the
    validator answers 400 with an error on [timeTaken], whatever the
    answers are. *)
Theorem quick_submission_rejected (objectEntries : QuizManager.entriesListing)
    (now start : Z) (sessionId : string)
    (this this' : QuizManager.t) (r : QuizManager.results) :
  QuizManager.startTime this = Some start →
  0 ≤ now - start < 500 →
  QuizManager.calculateResults now this = Normal (this', r) →
  QuizManager.timeTaken r = S754_zero false
  ∧ ∃ errors,
      validateQuizSubmission
        (jsonRoundTrip (QuizManager.submissionPayload objectEntries sessionId r))
      = Status400 errors
      ∧ is_Some (errors !! "timeTaken").
Proof.
  intros Hstart Hms Hr.
  unfold QuizManager.calculateResults in Hr. cbv zeta in Hr.
  injection Hr as _ <-.
  cbn [QuizManager.timeTaken].
  unfold QuizManager.elapsedMs. rewrite Hstart. cbn [default]. unfold id.
  rewrite (quick_rounds_to_zero _ Hms).
  split; [reflexivity|].
  eexists. split.
  - apply (validateQuizSubmission_rejects _ "timeTaken").
    apply collectErrors_reports. reflexivity.
  - apply collectErrors_reports. reflexivity.
Qed.

Lemma quick_submission_rejected_witness :
  ∃ this' r errors,
    QuizManager.calculateResults 300 scenarioA = Normal (this', r)
    ∧ QuizManager.timeTaken r = S754_zero false
    ∧ validateQuizSubmission
        (jsonRoundTrip (QuizManager.submissionPayload map_to_list "quiz_1" r))
      = Status400 errors
    ∧ is_Some (errors !! "timeTaken").
Proof.
  destruct (quick_submission_rejected map_to_list 300 0 "quiz_1" scenarioA _ _
              eq_refl
              (conj (proj1 (Z.leb_le 0 (300 - 0)) eq_refl)
                    (proj1 (Z.ltb_lt (300 - 0) 500) eq_refl))
              eq_refl)
    as (Htime & errors & Hrejected & Hkey).
  eexists _, _, errors.
  split; [reflexivity|]. split; [exact Htime|]. split; [exact Hrejected|exact Hkey].
Defined.

(** X12. An honest submission in time is saved as computed: for a session
    of 1 to 50 questions whose [timeTaken] is a whole number of seconds
    between 1 and 3600, the body posted passes the validator, passes the
    four checks of [submitQuizResults], which builds the document with
    the score, the counts and the time the client computed, and passes
    the [pre('save')] hook of the model. *)
Theorem honest_submission_saved (objectEntries : QuizManager.entriesListing)
    (now : Z) (sessionId : string)
    (this this' : QuizManager.t) (r : QuizManager.results) :
  listsEntries objectEntries →
  (0 < length (QuizManager.questions this) ≤ 50)%nat →
  QuizManager.calculateResults now this = Normal (this', r) →
  integerWithin 1 3600 (QuizManager.timeTaken r) = true →
  validateQuizSubmission
    (jsonRoundTrip (QuizManager.submissionPayload objectEntries sessionId r))
  = Next
  ∧ ∃ data,
    submitQuizResults
      (jsonRoundTrip (QuizManager.submissionPayload objectEntries sessionId r))
    = Saving data
    ∧ dataScore data = QuizManager.score r
    ∧ dataCorrectAnswers data = ofZ (QuizManager.resultCorrectAnswers r)
    ∧ dataTotalQuestions data = ofZ (QuizManager.totalQuestions r)
    ∧ dataTimeTaken data = JNumber (QuizManager.timeTaken r)
    ∧ dataDifficulty data = JString "mixed"
    ∧ preSave (dataScore data) (dataCorrectAnswers data) (dataTotalQuestions data)
      = None.
Proof.
  intros Hlists Hlen Hr Htime.
  split.
  { apply (submission_verdict objectEntries now sessionId this this' r Hlists Hlen Hr).
    left. exact Htime. }
  destruct (submission_parsed objectEntries now sessionId this this' r Hlists Hlen Hr)
    as (Hparsed & Hcounts & _).
  cbv zeta in Hparsed, Hcounts. rewrite Hparsed.
  assert (Hfields :
    QuizManager.score r
    = calculatedScore (ofZ (correctCount (QuizManager.questions this)))
                      (ofZ (Z.of_nat (length (QuizManager.questions this))))
    ∧ QuizManager.resultCorrectAnswers r = correctCount (QuizManager.questions this)
    ∧ QuizManager.totalQuestions r = Z.of_nat (length (QuizManager.questions this))).
  { unfold QuizManager.calculateResults in Hr. cbv zeta in Hr.
    injection Hr as _ <-.
    cbn [QuizManager.score QuizManager.resultCorrectAnswers QuizManager.totalQuestions].
    rewrite forEachQuestion_correctAnswers.
    cbn [QuizManager.emptyTally QuizManager.correctAnswers]. rewrite Z.add_0_l.
    repeat split. }
  destruct Hfields as (-> & -> & ->).
  unfold honestCounts in Hcounts. cbv zeta in Hcounts.
  apply andb_true_iff in Hcounts as [Hcounts Hpositive].
  apply andb_true_iff in Hcounts as [Hcounts Hexceeds].
  apply andb_true_iff in Hcounts as [Hcounts Hrange].
  apply andb_true_iff in Hcounts as [_ Hmis].
  apply negb_true_iff in Hpositive, Hexceeds, Hrange, Hmis.
  assert (Hkept : orElse (jsonRoundTrip (JNumber (QuizManager.timeTaken r))) JNull
                  = JNumber (QuizManager.timeTaken r)).
  { unfold integerWithin in Htime.
    apply andb_true_iff in Htime as [Htime _].
    apply andb_true_iff in Htime as [Hint Hlow]. apply negb_true_iff in Hlow.
    destruct (QuizManager.timeTaken r) as [[|]|[|]| |s m e];
      try discriminate Hint; try discriminate Hlow.
    reflexivity. }
  unfold submitQuizResults.
  cbn [getProp lookupProp String.eqb Ascii.eqb Bool.eqb].
  rewrite Hrange, Hexceeds, Hpositive. cbv zeta.
  change (gt (abs (sub ?s (round (mul (div ?c ?t) (ofZ 100))))) (ofZ 1))
    with (scoreMismatch s c t).
  rewrite Hmis, Hkept.
  eexists. split; [reflexivity|].
  cbn [dataScore dataCorrectAnswers dataTotalQuestions dataTimeTaken dataDifficulty].
  split; [reflexivity|]. split; [reflexivity|]. split; [reflexivity|].
  split; [reflexivity|]. split; [reflexivity|].
  unfold preSave. cbv zeta.
  change (gt (abs (sub ?s (round (mul (div ?c ?t) (ofZ 100))))) (ofZ 1))
    with (scoreMismatch s c t).
  rewrite Hmis. reflexivity.
Qed.

Lemma honest_submission_saved_witness :
  ∃ this' r data,
    QuizManager.calculateResults 95000 scenarioA = Normal (this', r)
    ∧ submitQuizResults
        (jsonRoundTrip (QuizManager.submissionPayload map_to_list "quiz_1" r))
      = Saving data
    ∧ dataScore data = ofZ 80
    ∧ dataTimeTaken data = JNumber (ofZ 95)
    ∧ preSave (dataScore data) (dataCorrectAnswers data) (dataTotalQuestions data)
      = None.
Proof.
  destruct (honest_submission_saved map_to_list 95000 "quiz_1" scenarioA _ _
              map_to_list_listsEntries scenarioA_length eq_refl
              ltac:(vm_compute; reflexivity))
    as (_ & data & Hsaving & Hscore & _ & _ & Htime & _ & Hsave).
  eexists _, _, data.
  split; [reflexivity|]. split; [exact Hsaving|].
  split; [rewrite Hscore; vm_compute; reflexivity|].
  split; [rewrite Htime; vm_compute; reflexivity|exact Hsave].
Defined.

(** ** Submitting again after a failure *)

(** X13. A failed submission loses nothing: when [submitQuiz] ends on the
    error screen the questions, their answers and the position are those
    from before the call, and a later [submitQuiz] that reaches the
    results screen shows the score, the counts, the category breakdown and
    the detailed results the first call had computed. *)
Theorem failed_submission_keeps_answers (objectEntries : QuizManager.entriesListing)
    (confirmSubmit : bool)
    (post : JsValue → completion JsValue) (sessionId : string) (now : Z)
    (this this1 : QuizManager.t) (message : string) :
  QuizManager.submitQuiz objectEntries confirmSubmit post sessionId now this
  = QuizManager.ErrorShown this1 message →
  QuizManager.questions this1 = QuizManager.questions this
  ∧ QuizManager.currentQuestionIndex this1 = QuizManager.currentQuestionIndex this
  ∧ QuizManager.startTime this1 = QuizManager.startTime this
  ∧ ∀ confirmAgain postAgain sessionAgain later this2 r,
      QuizManager.submitQuiz objectEntries confirmAgain postAgain sessionAgain later
        this1
      = QuizManager.ResultsShown this2 r →
      ∃ this0 r0,
        QuizManager.calculateResults now this = Normal (this0, r0)
        ∧ QuizManager.score r = QuizManager.score r0
        ∧ QuizManager.resultCorrectAnswers r = QuizManager.resultCorrectAnswers r0
        ∧ QuizManager.totalQuestions r = QuizManager.totalQuestions r0
        ∧ QuizManager.resultCategoryScores r = QuizManager.resultCategoryScores r0
        ∧ QuizManager.resultDetailedResults r = QuizManager.resultDetailedResults r0
        ∧ QuizManager.questions this2 = QuizManager.questions this.
Proof.
  intros H. unfold QuizManager.submitQuiz in H.
  destruct ((0 <? length (QuizManager.unansweredQuestions this))%nat && negb confirmSubmit);
    [discriminate|].
  unfold QuizManager.calculateResults, QuizManager.submitResultsToServer in H.
  cbv zeta in H.
  destruct (post _) as [response|failure] in H; [discriminate|].
  injection H as <- _.
  cbn [QuizManager.questions QuizManager.currentQuestionIndex QuizManager.startTime].
  split; [reflexivity|]. split; [reflexivity|]. split; [reflexivity|].
  intros confirmAgain postAgain sessionAgain later this2 r H.
  unfold QuizManager.submitQuiz in H.
  destruct ((0 <? length (QuizManager.unansweredQuestions _))%nat && negb confirmAgain);
    [discriminate|].
  unfold QuizManager.calculateResults, QuizManager.submitResultsToServer in H.
  cbv zeta in H.
  destruct (postAgain _) as [answer|failureAgain] in H; [|discriminate].
  injection H as <- <-.
  unfold QuizManager.calculateResults. cbv zeta.
  eexists _, _. split; [reflexivity|].
  cbn. repeat split; reflexivity.
Qed.

Lemma failed_submission_keeps_answers_witness :
  ∃ this1,
    QuizManager.submitQuiz map_to_list true (fun _ => Throw "Network error")
      "quiz_1" 95000 scenarioA
    = QuizManager.ErrorShown this1 "Network error"
    ∧ QuizManager.questions this1 = QuizManager.questions scenarioA.
Proof.
  eexists. split; [reflexivity|].
  apply (failed_submission_keeps_answers map_to_list true
           (fun _ => Throw "Network error")
           "quiz_1" 95000 scenarioA _ "Network error" eq_refl).
Defined.

(** X14. The confirmation dialog is asked exactly when the review button
    is hidden: all questions are answered if and only if none is
    unanswered, [submitQuiz] stops without submitting if and only if some
    question is unanswered and the user declines, and then it leaves the
    quiz as it was. *)
Theorem confirmation_only_with_unanswered (objectEntries : QuizManager.entriesListing)
    (confirmSubmit : bool)
    (post : JsValue → completion JsValue) (sessionId : string) (now : Z)
    (this : QuizManager.t) :
  (QuizManager.allAnswered this = true ↔ QuizManager.unansweredQuestions this = [])
  ∧ ((∃ this', QuizManager.submitQuiz objectEntries confirmSubmit post sessionId
                 now this
               = QuizManager.Declined this')
     ↔ QuizManager.allAnswered this = false ∧ confirmSubmit = false)
  ∧ (∀ this', QuizManager.submitQuiz objectEntries confirmSubmit post sessionId
                now this
              = QuizManager.Declined this' → this' = this).
Proof.
  assert (Hall : QuizManager.allAnswered this = true
                 ↔ QuizManager.unansweredQuestions this = []).
  { unfold QuizManager.allAnswered, QuizManager.unansweredQuestions.
    induction (QuizManager.questions this) as [|q qs IH]; [split; reflexivity|].
    cbn [forallb List.filter].
    destruct (QuizQuestion.isAnswered q); cbn [negb andb].
    - exact IH.
    - split; discriminate. }
  assert (Hnone : (0 <? length (QuizManager.unansweredQuestions this))%nat
                  = negb (QuizManager.allAnswered this)).
  { destruct (QuizManager.allAnswered this) eqn:E.
    - rewrite (proj1 Hall eq_refl). reflexivity.
    - destruct (QuizManager.unansweredQuestions this) as [|q qs] eqn:Eu;
        [|reflexivity].
      discriminate (proj2 Hall eq_refl). }
  split; [exact Hall|].
  unfold QuizManager.submitQuiz. rewrite Hnone.
  unfold QuizManager.calculateResults, QuizManager.submitResultsToServer. cbv zeta.
  destruct (QuizManager.allAnswered this), confirmSubmit; cbn [negb andb];
    (split; [split|]);
    try (intros [this' H]; destruct (post _); discriminate H);
    try (intros [H1 H2]; discriminate);
    try (intros this' H; destruct (post _); discriminate H).
  - intros _. split; reflexivity.
  - intros _. eexists. reflexivity.
  - intros this' H. injection H as <-. reflexivity.
Qed.

(** ** Personalized tips *)

Lemma categoryTip_not_overall (category : string) (t : QuizManager.tip) (score : number) :
  QuizManager.categoryTip category = Some t → t ≠ QuizManager.overallTip score.
Proof.
  unfold QuizManager.categoryTip, QuizManager.overallTip.
  destruct (String.eqb category "Recycling");
    [|destruct (String.eqb category "Energy Conservation");
      [|destruct (String.eqb category "Water Conservation");
        [|destruct (String.eqb category "Climate Change")]]];
    intros H; try discriminate H; injection H as <-;
    destruct (ge score (ofZ 80)); try discriminate;
    destruct (ge score (ofZ 60)); discriminate.
Qed.

Lemma elem_of_categoryTips (entries : list (string * QuizManager.categoryScore))
    (t : QuizManager.tip) :
  t ∈ QuizManager.categoryTips entries →
  ∃ category scores,
    (category, scores) ∈ entries
    ∧ QuizManager.isWeak scores = true
    ∧ QuizManager.categoryTip category = Some t.
Proof.
  induction entries as [|[category scores] rest IH]; cbn [QuizManager.categoryTips].
  - intros H. inversion H.
  - destruct (QuizManager.isWeak scores) eqn:Hweak.
    + destruct (QuizManager.categoryTip category) as [t'|] eqn:Htip.
      * intros H. apply elem_of_cons in H as [-> | H].
        -- exists category, scores. split; [left|]; auto.
        -- destruct (IH H) as (c & s & Hin & Hrest).
           exists c, s. split; [right; exact Hin|exact Hrest].
      * intros H. destruct (IH H) as (c & s & Hin & Hrest).
        exists c, s. split; [right; exact Hin|exact Hrest].
    + intros H. destruct (IH H) as (c & s & Hin & Hrest).
      exists c, s. split; [right; exact Hin|exact Hrest].
Qed.

Lemma tipsFor_shape (entries : list (string * QuizManager.categoryScore))
    (score : number) :
  let weak := QuizManager.categoryTips entries in
  let tips := QuizManager.tipsFor entries score in
  (1 ≤ length tips ≤ 3)%nat
  ∧ ((length weak < 3)%nat → tips = weak ++ [QuizManager.overallTip score])
  ∧ ((3 ≤ length weak)%nat →
     tips = take 3 weak ∧ QuizManager.overallTip score ∉ tips)
  ∧ Forall (fun t =>
              t = QuizManager.overallTip score
              ∨ ∃ category scores,
                  (category, scores) ∈ entries
                  ∧ QuizManager.isWeak scores = true
                  ∧ QuizManager.categoryTip category = Some t) tips.
Proof.
  intros weak tips. unfold tips, QuizManager.tipsFor. fold weak.
  split; [|split; [|split]].
  - rewrite length_take, length_app. cbn [length]. lia.
  - intros Hlt. apply take_ge. rewrite length_app. cbn [length]. lia.
  - intros Hge. rewrite take_app_le by lia. split; [reflexivity|].
    intros Hin. apply elem_of_take in Hin as (i & Hin & _).
    apply list_elem_of_lookup_2 in Hin.
    destruct (elem_of_categoryTips _ _ Hin) as (c & s & _ & _ & Htip).
    exact (categoryTip_not_overall _ _ _ Htip eq_refl).
  - apply Forall_forall. intros t Hin.
    apply elem_of_take in Hin as (i & Hin & _).
    apply list_elem_of_lookup_2 in Hin.
    apply elem_of_app in Hin as [Hin|Hin].
    + right. exact (elem_of_categoryTips _ _ Hin).
    + left. apply list_elem_of_singleton in Hin. exact Hin.
Qed.

(** X15. [generatePersonalizedTips] returns between one and three tips,
    in whatever order the entries of [categoryScores] are listed.  With
    fewer than three tips for weak categories the list is those tips
    followed by the general tip for the score; with three or more it is
    the first three of them and the general tip is left out.  Every tip
    is the general one or the tip of a category of the results whose
    percentage is under 70. *)
Theorem personalized_tips_shape (objectEntries : QuizManager.entriesListing)
    (r : QuizManager.results) :
  listsEntries objectEntries →
  let weak :=
    QuizManager.categoryTips (objectEntries (QuizManager.resultCategoryScores r)) in
  let tips := QuizManager.generatePersonalizedTips objectEntries r in
  (1 ≤ length tips ≤ 3)%nat
  ∧ ((length weak < 3)%nat →
     tips = weak ++ [QuizManager.overallTip (QuizManager.score r)])
  ∧ ((3 ≤ length weak)%nat →
     tips = take 3 weak ∧ QuizManager.overallTip (QuizManager.score r) ∉ tips)
  ∧ Forall (fun t =>
              t = QuizManager.overallTip (QuizManager.score r)
              ∨ ∃ category scores,
                  QuizManager.resultCategoryScores r !! category = Some scores
                  ∧ QuizManager.isWeak scores = true
                  ∧ QuizManager.categoryTip category = Some t) tips.
Proof.
  intros Hlists weak tips.
  destruct (tipsFor_shape (objectEntries (QuizManager.resultCategoryScores r))
              (QuizManager.score r)) as (Hlen & Hfew & Hmany & Hall).
  split; [exact Hlen|]. split; [exact Hfew|]. split; [exact Hmany|].
  eapply Forall_impl; [exact Hall|].
  intros t [Ht|(c & s & Hin & Hrest)]; [left; exact Ht|right].
  exists c, s. split; [|exact Hrest].
  rewrite (Hlists _) in Hin.
  apply elem_of_map_to_list in Hin. exact Hin.
Qed.

Lemma personalized_tips_shape_witness :
  ∃ this' r,
    QuizManager.calculateResults 95000 scenarioA = Normal (this', r)
    ∧ (1 ≤ length (QuizManager.generatePersonalizedTips map_to_list r) ≤ 3)%nat.
Proof.
  eexists _, _. split; [reflexivity|].
  apply (personalized_tips_shape map_to_list _ map_to_list_listsEntries).
Defined.

(** ** Local statistics *)

Lemma slice_last {A : Type} (n : Z) (l : list A) :
  0 < n → QuizStatistics.slice (- n) None l = lastN (Z.to_nat n) l.
Proof.
  intros Hn. unfold QuizStatistics.slice, QuizStatistics.relativeIndex, lastN.
  cbv zeta.
  destruct (- n <? 0) eqn:E; [|apply Z.ltb_ge in E; lia].
  replace (Z.to_nat (Z.max (Z.of_nat (length l) + - n) 0))
    with (length l - Z.to_nat n)%nat by lia.
  apply take_ge. rewrite length_drop. lia.
Qed.

Lemma last_lastN {A : Type} (n : nat) (l : list A) :
  (0 < n)%nat → last (lastN n l) = last l.
Proof.
  intros Hn. unfold lastN. rewrite !last_lookup, lookup_drop, length_drop.
  destruct (decide (length l = 0%nat)) as [E|E].
  - apply length_zero_iff_nil in E. subst l. reflexivity.
  - f_equal. lia.
Qed.

Lemma slice_before_last {A : Type} (l : list A) :
  QuizStatistics.slice (-6) (Some (-3)) l
  = take (min 3 (length l - 3)) (drop (length l - 6) l).
Proof.
  unfold QuizStatistics.slice, QuizStatistics.relativeIndex. cbv zeta.
  change (-6 <? 0) with true. change (-3 <? 0) with true. cbv iota.
  replace (Z.to_nat (Z.max (Z.of_nat (length l) + -6) 0))
    with (length l - 6)%nat by lia.
  f_equal. lia.
Qed.

(** X16. [recordAttempt] keeps the last ten attempts: the attempts after
    the call are the last ten of the old attempts followed by the new one,
    the new one last; there are at most ten of them; [totalAttempts] is
    their number, so it never exceeds ten; and they are what is written
    to storage under ['quiz_attempts'], last. *)
Theorem recordAttempt_keeps_last_ten (date : string) (results : QuizManager.results)
    (this : QuizStatistics.t) :
  let after := fst (QuizStatistics.recordAttempt date results this) in
  let saved := snd (QuizStatistics.recordAttempt date results this) in
  QuizStatistics.attempts after
  = lastN 10 (QuizStatistics.attempts this ++ [attemptOf date results])
  ∧ length (QuizStatistics.attempts after)
    = min 10 (length (QuizStatistics.attempts this) + 1)
  ∧ last (QuizStatistics.attempts after) = Some (attemptOf date results)
  ∧ QuizStatistics.totalAttempts after
    = Z.of_nat (length (QuizStatistics.attempts after))
  ∧ QuizStatistics.totalAttempts after ≤ 10
  ∧ last saved
    = Some ("quiz_attempts",
            QuizStatistics.StoredAttempts (QuizStatistics.attempts after)).
Proof.
  intros after saved.
  assert (Hkept : QuizStatistics.attempts after
                  = lastN 10 (QuizStatistics.attempts this ++ [attemptOf date results])).
  { unfold after, QuizStatistics.recordAttempt. cbv zeta.
    cbn [fst QuizStatistics.attempts]. fold (attemptOf date results).
    destruct (10 <? length (QuizStatistics.attempts this ++ [attemptOf date results]))%nat
      eqn:E.
    - apply (slice_last 10). lia.
    - apply Nat.ltb_ge in E. unfold lastN.
      replace (length (QuizStatistics.attempts this ++ [attemptOf date results]) - 10)%nat
        with 0%nat by lia.
      reflexivity. }
  assert (Hlen : length (QuizStatistics.attempts after)
                 = min 10 (length (QuizStatistics.attempts this) + 1)).
  { rewrite Hkept. unfold lastN. rewrite length_drop, length_app. cbn [length]. lia. }
  split; [exact Hkept|]. split; [exact Hlen|].
  split; [|split; [|split]].
  - rewrite Hkept, last_lastN by lia. apply last_snoc.
  - reflexivity.
  - change (QuizStatistics.totalAttempts after)
      with (Z.of_nat (length (QuizStatistics.attempts after))).
    lia.
  - unfold saved, after, QuizStatistics.recordAttempt. cbv zeta.
    cbn [fst snd QuizStatistics.attempts].
    apply last_snoc.
Qed.

(** A Number is not greater than itself. *)
Lemma gt_irrefl (x : number) : gt x x = false.
Proof.
  unfold gt, SFltb, SFcompare.
  destruct x as [[|]|[|]| |[|] m e]; try reflexivity.
  - rewrite Z.compare_refl. change (Pos.compare_cont Eq m m) with (Pos.compare m m).
    rewrite Pos.compare_refl. reflexivity.
  - rewrite Z.compare_refl. change (Pos.compare_cont Eq m m) with (Pos.compare m m).
    rewrite Pos.compare_refl. reflexivity.
Qed.

(** Of two Numbers at most one is less than the other. *)
Lemma lt_asym (x y : number) : lt x y = true → lt y x = false.
Proof.
  unfold lt, SFltb, SFcompare.
  destruct x as [[|]|[|]| |[|] m e], y as [[|]|[|]| |[|] m' e'];
    try reflexivity; try discriminate.
  - pose proof (Z.compare_antisym e e') as He.
    pose proof (Pos.compare_antisym m m') as Hm. unfold Pos.compare in Hm.
    destruct (e ?= e'), (e' ?= e); try discriminate He; try discriminate;
      try reflexivity.
    destruct (Pos.compare_cont Eq m m'), (Pos.compare_cont Eq m' m);
      try discriminate Hm; try discriminate; reflexivity.
  - pose proof (Z.compare_antisym e e') as He.
    pose proof (Pos.compare_antisym m m') as Hm. unfold Pos.compare in Hm.
    destruct (e ?= e'), (e' ?= e); try discriminate He; try discriminate;
      try reflexivity.
    destruct (Pos.compare_cont Eq m m'), (Pos.compare_cont Eq m' m);
      try discriminate Hm; try discriminate; reflexivity.
Qed.

(** X17. [recordAttempt] never lowers the best score: afterwards
    [bestScore] is the old best score or the new score, is not less than
    the old one, is not exceeded by the new score, and is written to
    storage under ['best_score'] exactly when the new score beat the old
    best. *)
Theorem recordAttempt_best_score (date : string) (results : QuizManager.results)
    (this : QuizStatistics.t) :
  let after := fst (QuizStatistics.recordAttempt date results this) in
  let saved := snd (QuizStatistics.recordAttempt date results this) in
  let improved := gt (QuizManager.score results) (QuizStatistics.bestScore this) in
  QuizStatistics.bestScore after
  = (if improved then QuizManager.score results else QuizStatistics.bestScore this)
  ∧ lt (QuizStatistics.bestScore after) (QuizStatistics.bestScore this) = false
  ∧ gt (QuizManager.score results) (QuizStatistics.bestScore after) = false
  ∧ (("best_score", QuizStatistics.StoredScore (QuizManager.score results)) ∈ saved
     ↔ improved = true)
  ∧ (∀ x, ("best_score", QuizStatistics.StoredScore x) ∈ saved →
          x = QuizManager.score results).
Proof.
  intros after saved improved.
  unfold after, saved, QuizStatistics.recordAttempt. cbv zeta.
  cbn [fst snd QuizStatistics.bestScore]. fold improved.
  destruct improved eqn:Himproved.
  - split; [reflexivity|]. split; [|split; [|split]].
    + apply lt_asym. exact Himproved.
    + apply gt_irrefl.
    + split; [reflexivity|]. intros _. left.
    + intros x Hx. apply elem_of_cons in Hx as [Hx|Hx].
      * congruence.
      * apply elem_of_cons in Hx as [Hx|Hx]; [discriminate|inversion Hx].
  - split; [reflexivity|]. split; [|split; [|split]].
    + apply (gt_irrefl (QuizStatistics.bestScore this)).
    + exact Himproved.
    + split; [|discriminate]. intros Hx.
      apply elem_of_cons in Hx as [Hx|Hx]; [discriminate|inversion Hx].
    + intros x Hx. apply elem_of_cons in Hx as [Hx|Hx]; [discriminate|inversion Hx].
Qed.

(** X18. [getImprovementTrend] compares the last three attempts with the
    up to three before them: with fewer than two attempts it answers
    'Not enough data', with two or three 'Building progress...', and from
    four attempts on it compares the average of the last three with the
    average of the attempts before them, at most three, with a margin
    of 5. *)
Theorem improvement_trend_cases (this : QuizStatistics.t) :
  let attempts := QuizStatistics.attempts this in
  let recent := lastN 3 attempts in
  let older := take (min 3 (length attempts - 3)) (drop (length attempts - 6) attempts) in
  ((length attempts < 2)%nat →
   QuizStatistics.getImprovementTrend this = "Not enough data")
  ∧ ((2 ≤ length attempts ≤ 3)%nat →
     QuizStatistics.getImprovementTrend this = "Building progress...")
  ∧ ((4 ≤ length attempts)%nat →
     length recent = 3%nat
     ∧ length older = min 3 (length attempts - 3)
     ∧ QuizStatistics.getImprovementTrend this
       = if gt (sliceAverage recent) (add (sliceAverage older) (ofZ 5))
         then "Improving! 📈"
         else if lt (sliceAverage recent) (sub (sliceAverage older) (ofZ 5))
              then "Keep practicing 📚"
              else "Steady progress 📊").
Proof.
  intros attempts recent older.
  unfold QuizStatistics.getImprovementTrend. cbv zeta. fold attempts.
  rewrite slice_before_last, (slice_last 3) by lia.
  change (Z.to_nat 3) with 3%nat. fold recent. fold older.
  assert (Holder : length older = min 3 (length attempts - 3)).
  { unfold older. rewrite length_take, length_drop. lia. }
  split; [|split].
  - intros Hlen. apply Nat.ltb_lt in Hlen. rewrite Hlen. reflexivity.
  - intros Hlen.
    destruct (length attempts <? 2)%nat eqn:E; [apply Nat.ltb_lt in E; lia|].
    destruct older as [|a older']; [reflexivity|].
    cbn [length] in Holder. lia.
  - intros Hlen.
    assert (Hrecent : length recent = 3%nat).
    { unfold recent, lastN. rewrite length_drop. lia. }
    split; [exact Hrecent|]. split; [exact Holder|].
    destruct (length attempts <? 2)%nat eqn:E; [apply Nat.ltb_lt in E; lia|].
    destruct older as [|a older'] eqn:Eo; [cbn [length] in Holder; lia|].
    reflexivity.
Qed.

(** ** Sorted and limited queries *)





#[local] Instance completedAfter_total : Total completedAfter.
Proof. intros a b. unfold completedAfter. lia. Qed.

#[local] Instance completedAfter_trans : Transitive completedAfter.
Proof. intros a b c. unfold completedAfter. lia. Qed.


(** ** Counting by class *)

Lemma indicator_sum {B : Type} `{EqDecision B} (b : B) (ids : list B) :
  NoDup ids → b ∈ ids →
  foldr Z.add 0 (map (fun id => if decide (b = id) then 1 else 0) ids) = 1.
Proof.
  induction ids as [|id ids IH]; intros Hnd Hin; [inversion Hin|].
  apply NoDup_cons in Hnd as [Hid Hnd]. cbn [map foldr].
  destruct (decide (b = id)) as [->|Hne].
  - assert (Hzero : foldr Z.add 0
                      (map (fun id' => if decide (id = id') then 1 else 0) ids) = 0).
    { clear IH Hnd Hin. induction ids as [|id' ids IH]; [reflexivity|].
      cbn [map foldr]. apply not_elem_of_cons in Hid as [Hne Hid].
      destruct (decide (id = id')); [contradiction|]. rewrite IH by assumption.
      reflexivity. }
    rewrite Hzero. reflexivity.
  - apply elem_of_cons in Hin as [Hin|Hin]; [contradiction|].
    rewrite IH by assumption. reflexivity.
Qed.

(** Counting the elements of a list class by class counts each of them
    once. *)
Lemma class_counts {A B : Type} `{EqDecision B} (f : A → B) (ids : list B)
    (l : list A) :
  NoDup ids → (∀ x, x ∈ l → f x ∈ ids) →
  foldr Z.add 0
    (map (fun id => Z.of_nat (length (filter (fun x => f x = id) l))) ids)
  = Z.of_nat (length l).
Proof.
  intros Hnd. induction l as [|x l IH]; intros Hin.
  - cbn [length]. clear Hnd Hin. induction ids as [|id ids IHids]; [reflexivity|].
    cbn [map foldr]. rewrite IHids. reflexivity.
  - assert (Hstep : ∀ ids',
              foldr Z.add 0
                (map (fun id => Z.of_nat (length (filter (fun x => f x = id) (x :: l))))
                     ids')
              = foldr Z.add 0
                  (map (fun id => if decide (f x = id) then 1 else 0) ids')
                + foldr Z.add 0
                    (map (fun id => Z.of_nat (length (filter (fun x => f x = id) l)))
                         ids')).
    { intros ids'. induction ids' as [|id ids' IH']; [reflexivity|].
      cbn [map foldr]. rewrite IH'. rewrite filter_cons.
      destruct (decide (f x = id)); cbn [length]; lia. }
    rewrite Hstep, IH, indicator_sum.
    + cbn [length]. lia.
    + exact Hnd.
    + apply Hin. left.
    + intros y Hy. apply Hin. right. exact Hy.
Qed.

#[local] Instance bucketId_eq_dec : EqDecision bucketId.
Proof. solve_decision. Defined.

Lemma bucketIdEqb_eq (a b : bucketId) : bucketIdEqb a b = true ↔ a = b.
Proof.
  destruct a as [x|s], b as [y|t]; simpl.
  - rewrite Z.eqb_eq. split; congruence.
  - split; discriminate.
  - split; discriminate.
  - rewrite String.eqb_eq. split; congruence.
Qed.

(** The rows of a [$bucket] stage, whatever the ids. *)
Lemma bucketStage_rows (boundaries : list Z) (default : string)
    (docs : list document) (row : bucketRow) :
  row ∈ bucketStage boundaries default docs ↔
  bucket row ∈ bucketIds boundaries default
  ∧ (∃ d, d ∈ docs ∧ bucketOf boundaries default (QuizResult.score d) = bucket row)
  ∧ count row
    = Z.of_nat (length (filter (fun d => bucketOf boundaries default (QuizResult.score d)
                                         = bucket row) docs))
  ∧ averageTime row
    = avg (times (filter (fun d => bucketOf boundaries default (QuizResult.score d)
                                   = bucket row) docs)).
Proof.
  unfold bucketStage. rewrite list_elem_of_omap.
  assert (Hfilter : ∀ id,
            filter (fun d => bucketIdEqb (bucketOf boundaries default (QuizResult.score d)) id
                             = true) docs
            = filter (fun d => bucketOf boundaries default (QuizResult.score d) = id) docs).
  { intros id. apply list_filter_iff. intros d. apply bucketIdEqb_eq. }
  split.
  - intros (id & Hid & Hrow). rewrite Hfilter in Hrow.
    destruct (filter _ docs) as [|d members] eqn:Hmembers; [discriminate|].
    injection Hrow as <-. cbn [bucket count averageTime].
    split; [exact Hid|]. rewrite Hmembers.
    split; [|split; reflexivity].
    assert (Hd : d ∈ filter (fun d => bucketOf boundaries default (QuizResult.score d) = id)
                            docs) by (rewrite Hmembers; left).
    apply list_elem_of_filter in Hd as [Hd Hin]. exists d. split; assumption.
  - intros (Hid & (d & Hin & Hd) & Hcount & Havg).
    exists (bucket row). split; [exact Hid|]. rewrite Hfilter.
    assert (Hmem : d ∈ filter (fun d => bucketOf boundaries default (QuizResult.score d)
                                        = bucket row) docs).
    { apply list_elem_of_filter. split; assumption. }
    destruct (filter _ docs) as [|d' members] eqn:Hmembers; [inversion Hmem|].
    destruct row as [b c a]. cbn [bucket count averageTime] in *.
    rewrite Hcount, Havg. reflexivity.
Qed.

Lemma bucketStage_counts (boundaries : list Z) (default : string)
    (docs : list document) :
  foldr Z.add 0 (map count (bucketStage boundaries default docs))
  = foldr Z.add 0
      (map (fun id =>
              Z.of_nat (length (filter (fun d => bucketOf boundaries default
                                                   (QuizResult.score d) = id) docs)))
           (bucketIds boundaries default)).
Proof.
  unfold bucketStage. generalize (bucketIds boundaries default). intros ids.
  induction ids as [|id ids IH]; [reflexivity|].
  cbn [omap list_omap map foldr]. rewrite <- IH.
  rewrite (list_filter_iff _ (fun d => bucketOf boundaries default (QuizResult.score d) = id))
    by (intros d; apply bucketIdEqb_eq).
  destruct (filter _ docs) as [|d members]; reflexivity.
Qed.

Lemma bucketOf_scoreBoundaries (v : Z) :
  bucketOf scoreBoundaries "other" v ∈ bucketIds scoreBoundaries "other".
Proof.
  unfold bucketOf, scoreBoundaries. cbn [boundaryOf bucketIds removelast map app].
  repeat match goal with
         | |- context [if ?c then _ else _] => destruct c
         end;
    apply list_elem_of_In; cbn; tauto.
Qed.

Lemma bucketIds_scoreBoundaries_NoDup : NoDup (bucketIds scoreBoundaries "other").
Proof.
  cbn.
  repeat (apply NoDup_cons;
          split; [rewrite ?not_elem_of_cons;
                  repeat split; try discriminate; apply not_elem_of_nil|]).
  apply NoDup_nil_2.
Qed.

(** X21. The score distribution counts every stored result once: the
    counts of its rows add up to the size of the collection, whatever the
    scores are; each row is the bucket of at least one result and counts
    the results of that bucket; and the bucket of every result has a
    row. *)
Theorem score_distribution_counts_every_result (collection : list document) :
  foldr Z.add 0 (map count (getScoreDistribution collection))
  = Z.of_nat (length collection)
  ∧ Forall (fun row =>
              0 < count row
              ∧ count row
                = Z.of_nat (length (filter (fun d => bucketOf scoreBoundaries "other"
                                                       (QuizResult.score d) = bucket row)
                                           collection)))
           (getScoreDistribution collection)
  ∧ ∀ d, d ∈ collection →
         ∃ row, row ∈ getScoreDistribution collection
                ∧ bucket row = bucketOf scoreBoundaries "other" (QuizResult.score d).
Proof.
  unfold getScoreDistribution. split; [|split].
  - rewrite bucketStage_counts.
    apply (class_counts (fun d => bucketOf scoreBoundaries "other" (QuizResult.score d))).
    + apply bucketIds_scoreBoundaries_NoDup.
    + intros d _. apply bucketOf_scoreBoundaries.
  - apply Forall_forall. intros row Hrow.
    apply bucketStage_rows in Hrow as (_ & (d & Hin & Hd) & Hcount & _).
    split; [|exact Hcount]. rewrite Hcount.
    assert (Hmem : d ∈ filter (fun d => bucketOf scoreBoundaries "other" (QuizResult.score d)
                                        = bucket row) collection).
    { apply list_elem_of_filter. split; assumption. }
    destruct (filter _ collection) as [|d' members]; [inversion Hmem|].
    cbn [length]. lia.
  - intros d Hin.
    exists (mkBucketRow
              (bucketOf scoreBoundaries "other" (QuizResult.score d))
              (Z.of_nat (length (filter (fun d' => bucketOf scoreBoundaries "other"
                                                     (QuizResult.score d')
                                                   = bucketOf scoreBoundaries "other"
                                                       (QuizResult.score d))
                                        collection)))
              (avg (times (filter (fun d' => bucketOf scoreBoundaries "other"
                                               (QuizResult.score d')
                                             = bucketOf scoreBoundaries "other"
                                                 (QuizResult.score d))
                                  collection)))).
    split; [|reflexivity].
    apply bucketStage_rows. cbn [bucket count averageTime].
    split; [apply bucketOf_scoreBoundaries|].
    split; [exists d; split; [exact Hin|reflexivity]|].
    split; reflexivity.
Qed.

(** ** Performance levels of the statistics *)

Lemma switchLevel_levels (score : Z) : switchLevel score ∈ levels.
Proof.
  unfold switchLevel, levels.
  repeat match goal with
         | |- context [if ?c then _ else _] => destruct c
         end;
    apply list_elem_of_In; cbn; tauto.
Qed.

Lemma levels_NoDup : NoDup levels.
Proof.
  unfold levels.
  repeat (apply NoDup_cons;
          split; [rewrite ?not_elem_of_cons;
                  repeat split; try discriminate; apply not_elem_of_nil|]).
  apply NoDup_nil_2.
Qed.

Lemma performanceLevels_counts (collection : list document) (ids : list string) :
  foldr Z.add 0
    (map snd
       (omap (fun level =>
                let members :=
                  filter (fun d => switchLevel (QuizResult.score d) = level) collection in
                match members with
                | [] => None
                | _ => Some (level, Z.of_nat (length members))
                end) ids))
  = foldr Z.add 0
      (map (fun level =>
              Z.of_nat (length (filter (fun d => switchLevel (QuizResult.score d) = level)
                                       collection)))
           ids).
Proof.
  induction ids as [|id ids IH]; [reflexivity|].
  cbn [omap list_omap map foldr]. rewrite <- IH. cbv zeta.
  destruct (filter _ collection) as [|d members]; reflexivity.
Qed.

(** X22. The performance levels of the statistics count every stored
    result once: the counts add up to the size of the collection, every
    row has a positive count, and a result whose score is in 0..100 is
    counted under the level [getPerformanceLevel] reports for it. *)
Theorem performance_levels_count_every_result (collection : list document) :
  foldr Z.add 0 (map snd (performanceLevels collection))
  = Z.of_nat (length collection)
  ∧ Forall (fun row => 0 < snd row ∧ fst row ∈ levels) (performanceLevels collection)
  ∧ ∀ d, d ∈ collection → 0 ≤ QuizResult.score d ≤ 100 →
         ∃ n, (getPerformanceLevel (ofZ (QuizResult.score d)), n)
              ∈ performanceLevels collection.
Proof.
  split; [|split].
  - etransitivity; [exact (performanceLevels_counts collection levels)|].
    apply (class_counts (fun d => switchLevel (QuizResult.score d))).
    + apply levels_NoDup.
    + intros d _. apply switchLevel_levels.
  - apply Forall_forall. intros [level n] Hrow.
    unfold performanceLevels in Hrow.
    apply list_elem_of_omap in Hrow as (id & Hid & Hrow).
    destruct (filter _ collection) as [|d members]; [discriminate|].
    injection Hrow as <- <-. cbn [fst snd length]. split; [lia|exact Hid].
  - intros d Hin Hscore.
    rewrite (getPerformanceLevel_threshold _ Hscore).
    change (thresholdLevel (QuizResult.score d))
      with (switchLevel (QuizResult.score d)).
    assert (Hmem : d ∈ filter (fun d' => switchLevel (QuizResult.score d')
                                         = switchLevel (QuizResult.score d)) collection).
    { apply list_elem_of_filter. split; [reflexivity|exact Hin]. }
    exists (Z.of_nat (length (filter (fun d' => switchLevel (QuizResult.score d')
                                              = switchLevel (QuizResult.score d))
                                    collection))).
    unfold performanceLevels. apply list_elem_of_omap.
    exists (switchLevel (QuizResult.score d)).
    split; [apply switchLevel_levels|].
    destruct (filter _ collection) as [|d' members]; [inversion Hmem|].
    reflexivity.
Qed.

(** ** Overall statistics *)

Lemma maximum_bounds (first : Z) (others : list Z) :
  first ≤ maximum first others
  ∧ Forall (fun z => z ≤ maximum first others) others
  ∧ (maximum first others = first ∨ maximum first others ∈ others).
Proof.
  unfold maximum. induction others as [|z others (IH1 & IH2 & IH3)]; cbn [foldr].
  - split; [lia|]. split; [constructor|]. left. reflexivity.
  - split; [lia|]. split.
    + constructor; [lia|]. eapply Forall_impl; [exact IH2|]. intros; cbv beta in *; lia.
    + destruct (Z.max_spec z (foldr Z.max first others)) as [[_ ->]|[_ ->]].
      * destruct IH3 as [->|IH3]; [left; reflexivity|right; right; exact IH3].
      * right. left.
Qed.

Lemma minimum_bounds (first : Z) (others : list Z) :
  minimum first others ≤ first
  ∧ Forall (fun z => minimum first others ≤ z) others
  ∧ (minimum first others = first ∨ minimum first others ∈ others).
Proof.
  unfold minimum. induction others as [|z others (IH1 & IH2 & IH3)]; cbn [foldr].
  - split; [lia|]. split; [constructor|]. left. reflexivity.
  - split; [lia|]. split.
    + constructor; [lia|]. eapply Forall_impl; [exact IH2|]. intros; cbv beta in *; lia.
    + destruct (Z.min_spec z (foldr Z.min first others)) as [[_ ->]|[_ ->]].
      * right. left.
      * destruct IH3 as [->|IH3]; [left; reflexivity|right; right; exact IH3].
Qed.

(** X23. The overall statistics of [getQuizStats]: the number of attempts
    is the size of the collection; the attempts of the week are among
    them; every stored score lies between the lowest and the highest
    score, and both are the score of a stored result; for an empty
    collection the counts and the scores are all 0. *)
Theorem overall_stats_bounds (now : Z) (collection : list document) :
  let stats := getQuizStatsOverall now collection in
  overallTotalAttempts stats = Z.of_nat (length collection)
  ∧ 0 ≤ thisWeekAttempts stats ≤ overallTotalAttempts stats
  ∧ (∀ d, d ∈ collection →
          overallLowestScore stats ≤ QuizResult.score d ≤ overallHighestScore stats)
  ∧ (collection ≠ [] →
     ∃ lowest highest,
       lowest ∈ collection ∧ highest ∈ collection
       ∧ QuizResult.score lowest = overallLowestScore stats
       ∧ QuizResult.score highest = overallHighestScore stats)
  ∧ (collection = [] →
     overallHighestScore stats = 0 ∧ overallLowestScore stats = 0
     ∧ overallAverageScore stats = ofZ 0 ∧ overallAverageTime stats = ofZ 0).
Proof.
  intros stats.
  assert (Hweek : 0 ≤ Z.of_nat (length (QuizResult.getRecentResults now 7 collection))
                  ≤ Z.of_nat (length collection)).
  { unfold QuizResult.getRecentResults.
    rewrite (Permutation_length (merge_sort_Permutation _ _)).
    pose proof (length_filter
                  (fun d => now - 7 * 86400000 ≤ QuizResult.completedAt d) collection).
    lia. }
  unfold stats, getQuizStatsOverall. cbv zeta.
  destruct collection as [|d rest].
  - cbn [getOverallStats overallTotalAttempts thisWeekAttempts overallLowestScore
         overallHighestScore overallAverageScore overallAverageTime length].
    split; [reflexivity|]. split; [exact Hweek|].
    split; [intros d Hd; inversion Hd|].
    split; [intros H; contradiction|].
    intros _. split; [reflexivity|]. split; [reflexivity|].
    split; vm_compute; reflexivity.
  - cbn [getOverallStats overallTotalAttempts thisWeekAttempts overallLowestScore
         overallHighestScore totalAttempts highestScore lowestScore].
    destruct (maximum_bounds (QuizResult.score d) (scores rest)) as (Hmax1 & Hmax2 & Hmax3).
    destruct (minimum_bounds (QuizResult.score d) (scores rest)) as (Hmin1 & Hmin2 & Hmin3).
    split; [reflexivity|]. split; [exact Hweek|].
    split; [|split; [|intros H; discriminate]].
    + intros d' Hd'. apply elem_of_cons in Hd' as [->|Hd']; [lia|].
      rewrite Forall_forall in Hmax2, Hmin2.
      assert (Hs : QuizResult.score d' ∈ scores rest)
        by (apply list_elem_of_fmap; exists d'; split; [reflexivity|exact Hd']).
      specialize (Hmax2 _ Hs). specialize (Hmin2 _ Hs). lia.
    + intros _.
      assert (Hfind : ∀ z, z = QuizResult.score d ∨ z ∈ scores rest →
                ∃ d', d' ∈ d :: rest ∧ QuizResult.score d' = z).
      { intros z [->|Hz]; [exists d; split; [left|reflexivity]|].
        apply list_elem_of_fmap in Hz as (d' & -> & Hd').
        exists d'. split; [right; exact Hd'|reflexivity]. }
      destruct (Hfind _ Hmin3) as (lowest & Hlo & Elo).
      destruct (Hfind _ Hmax3) as (highest & Hhi & Ehi).
      exists lowest, highest. repeat split; assumption.
Qed.
